(** * portrait_patch.py: a shallow embedding and its properties

    The development follows [src/portrait_patch.py].  Python values are
    modelled as the program handles them:

    - text is a byte string ([string]);
    - a [pathlib] path is its root and its list of parts (POSIX flavour,
      CPython 3.12 behaviour of [stem], [with_name], [with_suffix],
      [relative_to]);
    - a loaded JSON5 document is a [json] tree whose objects keep the
      insertion order of their keys, as a Python [dict] does;
    - an exception is a [Raise] result;
    - the file system is a finite map from paths to nodes, threaded
      through the functions that read or write files. *)

From Stdlib Require Import ZArith Ascii String List Lia.
From Stdlib Require Import Floats.SpecFloat.
From stdpp Require Import base option list gmap strings.

Local Open Scope Z_scope.
Local Open Scope nat_scope.

(** ** Exceptions *)

Inductive pyerr :=
  | KeyError | TypeError | ValueError | AttributeError | OverflowError
  | FileNotFoundError | IsADirectoryError | NotADirectoryError
  | FileExistsError | RecursionError.

Inductive result (A : Type) :=
  | Ok (a : A)
  | Raise (e : pyerr).
Arguments Ok {A} a.
Arguments Raise {A} e.

#[global] Instance result_ret : MRet result := fun A a => Ok a.
#[global] Instance result_bind : MBind result := fun A B f m =>
  match m with
  | Ok a => f a
  | Raise e => Raise e
  end.

Definition is_Ok {A} (r : result A) : Prop := exists a, r = Ok a.

#[global] Instance pyerr_eq_dec : EqDecision pyerr.
Proof. solve_decision. Defined.

#[global] Instance result_eq_dec {A} `{EqDecision A} : EqDecision (result A).
Proof. solve_decision. Defined.

(** ** Strings *)

Module Str.

Definition len (s : string) : nat := String.length s.

(** [s.rfind(c)], [None] for Python's [-1]. *)
Fixpoint rfind (c : ascii) (s : string) : option nat :=
  match s with
  | EmptyString => None
  | String a s' =>
      match rfind c s' with
      | Some i => Some (S i)
      | None => if Ascii.eqb a c then Some 0 else None
      end
  end.

(** [c in s] for a one-character [c]. *)
Fixpoint mem (c : ascii) (s : string) : bool :=
  match s with
  | EmptyString => false
  | String a s' => Ascii.eqb a c || mem c s'
  end.

(** [s[:i]] and [s[i:]] for [0 <= i]. *)
Fixpoint take (i : nat) (s : string) : string :=
  match i, s with
  | S i', String a s' => String a (take i' s')
  | _, _ => EmptyString
  end.

Fixpoint drop (i : nat) (s : string) : string :=
  match i, s with
  | S i', String _ s' => drop i' s'
  | _, _ => s
  end.

Definition startswith (s p : string) : bool := String.prefix p s.

(** [s.endswith(x)] *)
Definition endswith (s x : string) : bool :=
  (len x <=? len s) && String.eqb (drop (len s - len x) s) x.

(** [s.split(c)] for a one-character separator: never empty. *)
Fixpoint split (c : ascii) (s : string) : list string :=
  match s with
  | EmptyString => [EmptyString]
  | String a s' =>
      if Ascii.eqb a c then EmptyString :: split c s'
      else match split c s' with
           | [] => [String a EmptyString]
           | w :: ws => String a w :: ws
           end
  end.

(** [sep.join(l)] *)
Definition join (sep : string) (l : list string) : string :=
  String.concat sep l.

End Str.

(** ** The Content Patcher token [\{\{[a-zA-Z0-9_./]+\}\}] *)

Module Token.

Definition in_range (lo hi c : ascii) : bool :=
  (nat_of_ascii lo <=? nat_of_ascii c) && (nat_of_ascii c <=? nat_of_ascii hi).

(** The character class [[a-zA-Z0-9_./]]. *)
Definition is_token_char (c : ascii) : bool :=
  in_range "a" "z" c || in_range "A" "Z" c || in_range "0" "9" c
  || Ascii.eqb c "_" || Ascii.eqb c "." || Ascii.eqb c "/".

(** The longest run of class characters at the head of [s]: its length
    and what follows it. *)
Fixpoint span_class (s : string) : nat * string :=
  match s with
  | String a s' =>
      if is_token_char a then
        let '(n, r) := span_class s' in (S n, r)
      else (0, s)
  | EmptyString => (0, s)
  end.

(** A match of the pattern anchored at the head of [s]: the length of
    the match.  The closing brace is outside the class, so the greedy
    run never has to give characters back. *)
Definition match_here (s : string) : option nat :=
  match s with
  | String a (String b s1) =>
      if Ascii.eqb a "{" && Ascii.eqb b "{" then
        let '(n, r) := span_class s1 in
        match n, r with
        | S _, String c (String d _) =>
            if Ascii.eqb c "}" && Ascii.eqb d "}" then Some (n + 4) else None
        | _, _ => None
        end
      else None
  | _ => None
  end.

(** Whether every character of [w] is in the class. *)
Fixpoint all_class (w : string) : bool :=
  match w with
  | EmptyString => true
  | String a w' => is_token_char a && all_class w'
  end.

(** [pattern.search(s)] as a truth value. *)
Fixpoint search (s : string) : bool :=
  match match_here s with
  | Some _ => true
  | None =>
      match s with
      | EmptyString => false
      | String _ s' => search s'
      end
  end.

(** [regex.sub(pattern, repl, s)]: leftmost matches, left to right, not
    overlapping.  [skip] counts the characters of the current match
    still to be consumed. *)
Fixpoint sub_from (skip : nat) (repl s : string) : string :=
  match s with
  | EmptyString => EmptyString
  | String a s' =>
      match skip with
      | S k => sub_from k repl s'
      | O =>
          match match_here s with
          | Some n => String.append repl (sub_from (n - 1) repl s')
          | None => String a (sub_from 0 repl s')
          end
      end
  end.

Definition sub (repl s : string) : string := sub_from 0 repl s.

End Token.

(** ** Paths *)

Record path := Path { root : string; parts : list string }.

#[global] Instance path_eq_dec : EqDecision path.
Proof. solve_decision. Defined.

#[global] Instance path_countable : Countable path.
Proof.
  apply (inj_countable' (fun p => (root p, parts p))
                        (fun '(r, ps) => Path r ps)).
  by intros [].
Defined.

Module PurePath.

(** The number of slashes at the head of [s]. *)
Fixpoint leading_slashes (s : string) : nat :=
  match s with
  | String "/" s' => S (leading_slashes s')
  | _ => 0
  end.

(** POSIX [splitroot]: exactly two leading slashes are kept as they are. *)
Definition parse_root (s : string) : string :=
  match leading_slashes s with
  | 0 => ""
  | 2 => "//"
  | _ => "/"
  end.

Definition real_part (x : string) : bool :=
  negb (String.eqb x "") && negb (String.eqb x ".").

(** [PurePath(s)] *)
Definition parse (s : string) : path :=
  Path (parse_root s) (List.filter real_part (Str.split "/" s)).

(** [p.name] *)
Definition name (p : path) : string := List.last (parts p) EmptyString.

(** [p.parent] *)
Definition parent (p : path) : path :=
  match parts p with
  | [] => p
  | _ => Path (root p) (List.removelast (parts p))
  end.

(** The index of the dot that starts the suffix of a name. *)
Definition suffix_index (n : string) : option nat :=
  match Str.rfind "." n with
  | Some i => if (0 <? i) && (i <? Str.len n - 1) then Some i else None
  | None => None
  end.

Definition suffix_of (n : string) : string :=
  match suffix_index n with
  | Some i => Str.drop i n
  | None => EmptyString
  end.

Definition stem_of (n : string) : string :=
  match suffix_index n with
  | Some i => Str.take i n
  | None => n
  end.

(** [p.suffix] and [p.stem] *)
Definition suffix (p : path) : string := suffix_of (name p).
Definition stem (p : path) : string := stem_of (name p).

Definition valid_name (n : string) : bool :=
  negb (String.eqb n "") && negb (Str.mem "/" n) && negb (String.eqb n ".").

(** [p.with_name(n)] *)
Definition with_name (p : path) (n : string) : result path :=
  if String.eqb (name p) "" then Raise ValueError
  else if valid_name n
       then Ok (Path (root p) (List.removelast (parts p) ++ [n]))
       else Raise ValueError.

(** [p.with_suffix(s)] *)
Definition with_suffix (p : path) (s : string) : result path :=
  if String.eqb s "" then with_name p (stem p)
  else if Str.startswith s "." && (1 <? Str.len s)
       then with_name p (String.append (stem p) s)
       else Raise ValueError.

(** [p / q] *)
Definition join (p q : path) : path :=
  if String.eqb (root q) "" then Path (root p) (parts p ++ parts q) else q.

(** [p / s] for a string [s] *)
Definition join_str (p : path) (s : string) : path := join p (parse s).

Fixpoint strip_prefix (pre l : list string) : option (list string) :=
  match pre, l with
  | [], _ => Some l
  | x :: pre', y :: l' => if String.eqb x y then strip_prefix pre' l' else None
  | _ :: _, [] => None
  end.

(** [p.relative_to(base)] *)
Definition relative_to (p base : path) : result path :=
  if String.eqb (root p) (root base) then
    match strip_prefix (parts base) (parts p) with
    | Some rest => Ok (Path "" rest)
    | None => Raise ValueError
    end
  else Raise ValueError.

(** [p.as_posix()], which on POSIX is also [str(p)] *)
Definition as_posix (p : path) : string :=
  match root p, parts p with
  | EmptyString, [] => "."
  | r, ps => String.append r (Str.join "/" ps)
  end.

End PurePath.

(** ** [_get_variant_metadata_file] *)

(** The argument of [with_name]: the stem, followed by the separator and
    the variant unless there is no variant or the stem ends with it. *)
Definition variant_name
    (stem : string) (variant : option string) (VARIANT_SEPARATOR : string)
  : string :=
  match variant with
  | None => stem
  | Some v =>
      if Str.endswith stem v then stem
      else String.append stem (String.append VARIANT_SEPARATOR v)
  end.

Definition _get_variant_metadata_file
    (portrait_file : path) (variant : option string) (VARIANT_SEPARATOR : string)
  : result path :=
  p ← PurePath.with_name portrait_file
        (variant_name (PurePath.stem portrait_file) variant VARIANT_SEPARATOR);
  PurePath.with_suffix p ".json".

(** [_get_copy_dir] *)
Definition _get_copy_dir (copy_dir : option path) (copy_mode : bool)
    (main_directory subdirectory : path) : option path :=
  if copy_mode then
    Some (PurePath.join_str
            (match copy_dir with
             | Some c => c
             | None => PurePath.join_str main_directory "Patched HD Portraits"
             end)
            (PurePath.stem subdirectory))
  else None.

(** ** JSON documents *)

#[warnings="-register-all"]
Inductive json :=
  | JNull
  | JBool (b : bool)
  | JInt (z : Z)
  | JFloat (f : spec_float)
  | JStr (s : string)
  | JArr (l : list json)
  | JObj (d : list (string * json)).

(** A Python [dict] with string keys: the bindings in insertion order. *)
Abbreviation dict := (list (string * json)).

Module Dict.

Section Assoc.
Context {V : Type}.

(** [d.get(k)] *)
Fixpoint get (k : string) (d : list (string * V)) : option V :=
  match d with
  | [] => None
  | (k', v) :: d' => if String.eqb k k' then Some v else get k d'
  end.

(** [d[k] = v]: an existing key keeps its place, a new one goes last. *)
Fixpoint set (k : string) (v : V) (d : list (string * V))
  : list (string * V) :=
  match d with
  | [] => [(k, v)]
  | (k', v') :: d' =>
      if String.eqb k k' then (k, v) :: d' else (k', v') :: set k v d'
  end.

(** [d.pop(k, None)]: every binding of [k] goes, which in a [dict] is
    at most one. *)
Definition pop (k : string) (d : list (string * V)) : list (string * V) :=
  List.filter (fun kv => negb (String.eqb k (fst kv))) d.

Definition has (k : string) (d : list (string * V)) : bool :=
  match get k d with Some _ => true | None => false end.
End Assoc.

End Dict.

(** [j[k]] for a string key [k] *)
Definition subscript (j : json) (k : string) : result json :=
  match j with
  | JObj d =>
      match Dict.get k d with
      | Some v => Ok v
      | None => Raise KeyError
      end
  | _ => Raise TypeError
  end.

(** The argument of [pathlib.PurePath(...)] has to be text. *)
Definition as_str (j : json) : result string :=
  match j with
  | JStr s => Ok s
  | _ => Raise TypeError
  end.

(** *** Python's [==] on loaded documents *)

Module PyEq.

Definition signed (s : bool) (m : positive) : Z :=
  if s then Z.neg m else Z.pos m.

(** Whether the float [f] has exactly the integer value [z]. *)
Definition float_is (f : spec_float) (z : Z) : bool :=
  match f with
  | S754_zero _ => Z.eqb z 0
  | S754_finite s m e =>
      if Z.leb 0 e then Z.eqb z (signed s m * 2 ^ e)%Z
      else Z.eqb (Z.pos m mod 2 ^ (- e))%Z 0
           && Z.eqb z (signed s m / 2 ^ (- e))%Z
  | _ => false
  end.

Inductive num := NInt (z : Z) | NFloat (f : spec_float).

Definition as_num (j : json) : option num :=
  match j with
  | JBool b => Some (NInt (if b then 1 else 0)%Z)
  | JInt z => Some (NInt z)
  | JFloat f => Some (NFloat f)
  | _ => None
  end.

Definition num_eq (a b : num) : bool :=
  match a, b with
  | NInt x, NInt y => Z.eqb x y
  | NFloat f, NFloat g => SFeqb f g
  | NInt x, NFloat f | NFloat f, NInt x => float_is f x
  end.

Fixpoint eqb (a b : json) {struct a} : bool :=
  match a, b with
  | JNull, JNull => true
  | JStr s, JStr t => String.eqb s t
  | JArr l, JArr m =>
      (fix go (l m : list json) : bool :=
         match l, m with
         | [], [] => true
         | x :: l', y :: m' => eqb x y && go l' m'
         | _, _ => false
         end) l m
  | JObj d, JObj e =>
      Nat.eqb (length d) (length e)
      && (fix go (d : dict) : bool :=
            match d with
            | [] => true
            | (k, v) :: d' =>
                match Dict.get k e with
                | Some w => eqb v w
                | None => false
                end && go d'
            end) d
  | _, _ =>
      match as_num a, as_num b with
      | Some x, Some y => num_eq x y
      | _, _ => false
      end
  end.

(** [x in l] *)
Definition contains (x : json) (l : list json) : bool :=
  List.existsb (eqb x) l.

(** [l.remove(x)]: the first element equal to [x] goes; [None] stands
    for the [ValueError] of a list without one. *)
Fixpoint remove (x : json) (l : list json) : option (list json) :=
  match l with
  | [] => None
  | y :: l' =>
      if eqb x y then Some l'
      else match remove x l' with
           | Some r => Some (y :: r)
           | None => None
           end
  end.

End PyEq.

(** *** Python's [int(...)] on a loaded value *)

Module PyInt.

(** [int(f)] for a float: rounds toward zero. *)
Definition of_float (f : spec_float) : result Z :=
  match f with
  | S754_zero _ => Ok 0%Z
  | S754_infinity _ => Raise OverflowError
  | S754_nan => Raise ValueError
  | S754_finite s m e =>
      let q := if Z.leb 0 e then (Z.pos m * 2 ^ e)%Z
               else Z.shiftr (Z.pos m) (- e) in
      Ok (if s then (- q)%Z else q)
  end.

Definition is_space (c : ascii) : bool :=
  Ascii.eqb c " " || Token.in_range "009" "013" c.

Fixpoint lstrip (s : string) : string :=
  match s with
  | String a s' => if is_space a then lstrip s' else s
  | EmptyString => s
  end.

Fixpoint rstrip (s : string) : string :=
  match s with
  | EmptyString => EmptyString
  | String a s' =>
      match rstrip s' with
      | EmptyString => if is_space a then EmptyString else String a EmptyString
      | r => String a r
      end
  end.

Definition digit (c : ascii) : option Z :=
  if Token.in_range "0" "9" c
  then Some (Z.of_nat (nat_of_ascii c - 48))
  else None.

(** The digits after a first one; single underscores may separate them. *)
Fixpoint digits (acc : Z) (s : string) : option Z :=
  match s with
  | EmptyString => Some acc
  | String "_" (String c s') =>
      match digit c with
      | Some d => digits (acc * 10 + d)%Z s'
      | None => None
      end
  | String c s' =>
      match digit c with
      | Some d => digits (acc * 10 + d)%Z s'
      | None => None
      end
  end.

Definition unsigned (s : string) : option Z :=
  match s with
  | String c s' =>
      match digit c with
      | Some d => digits d s'
      | None => None
      end
  | EmptyString => None
  end.

(** [int(s)] for text, base ten, written with the digits [0] to [9]. *)
Definition of_str (s : string) : result Z :=
  let body := rstrip (lstrip s) in
  let r :=
    match body with
    | String "-" t => option_map Z.opp (unsigned t)
    | String "+" t => unsigned t
    | t => unsigned t
    end in
  match r with
  | Some z => Ok z
  | None => Raise ValueError
  end.

(** [int(j)] *)
Definition int (j : json) : result Z :=
  match j with
  | JInt z => Ok z
  | JBool b => Ok (if b then 1 else 0)%Z
  | JFloat f => of_float f
  | JStr s => of_str s
  | JNull | JArr _ | JObj _ => Raise TypeError
  end.

End PyInt.

(** ** The file system

    A regular file holds either text that [json5.load] reads as a
    document, identified with that document, or anything else.  What
    [json5.dump] writes for a document is a function of the document, so
    two files written from equal documents are byte for byte equal.  The
    map describes a directory tree: no node lies below a regular file.
    A path is looked up as it is written: the map has one key for a
    file, and a path through [..] or through a link is another key. *)

Inductive content :=
  | Json5 (j : json)
  | Opaque.

Inductive node :=
  | File (c : content)
  | Dir.

Abbreviation fsys := (gmap path node).

Module FS.

(** [p.is_file()] *)
Definition is_file (fs : fsys) (p : path) : bool :=
  match fs !! p with
  | Some (File _) => true
  | _ => false
  end.

Definition is_dir (fs : fsys) (p : path) : bool :=
  match fs !! p with
  | Some Dir => true
  | _ => false
  end.

(** [p.open("r")] followed by reading the whole file *)
Definition read (fs : fsys) (p : path) : result content :=
  match fs !! p with
  | Some (File c) => Ok c
  | Some Dir => Raise IsADirectoryError
  | None => Raise FileNotFoundError
  end.

(** [p.open("w+")] followed by writing [c]: the directory of [p] has
    to exist, the file is created or replaced. *)
Definition write (fs : fsys) (p : path) (c : content) : result fsys :=
  match fs !! p with
  | Some Dir => Raise IsADirectoryError
  | _ =>
      if is_dir fs (PurePath.parent p)
      then Ok (<[p := File c]> fs)
      else Raise FileNotFoundError
  end.

(** [src.rename(dst)] for a regular file [src].  The program renames
    only files it has just read; moving a directory is outside the
    model, which fails there. *)
Definition rename (fs : fsys) (src dst : path) : result fsys :=
  match fs !! src with
  | None => Raise FileNotFoundError
  | Some Dir => Raise IsADirectoryError
  | Some (File c) =>
      match fs !! dst with
      | Some Dir => Raise IsADirectoryError
      | _ =>
          if is_dir fs (PurePath.parent dst)
          then Ok (<[dst := File c]> (delete src fs))
          else Raise FileNotFoundError
      end
  end.

End FS.

(** [json5.load] of what was read *)
Definition json5_load (c : content) : result json :=
  match c with
  | Json5 j => Ok j
  | Opaque => Raise ValueError
  end.

(** ** The helpers of the patcher *)

Definition __version__ : string := "1.4.0".

(** [_get_file_or_backup] *)
Definition _get_file_or_backup (fs : fsys) (file : path) : result path :=
  backup_file ← PurePath.with_suffix file ".bak";
  mret (if FS.is_file fs backup_file then backup_file else file).

(** The file [_write_and_backup] opens for writing. *)
Definition write_target (file main_dir : path) (copy_dir : option path)
  : result path :=
  base ← match copy_dir with
         | None => Ok file
         | Some c => rel ← PurePath.relative_to file main_dir;
                     mret (PurePath.join c rel)
         end;
  PurePath.with_suffix base ".json".

(** [_write_and_backup] *)
Definition _write_and_backup
    (fs : fsys) (file : path) (json_data : dict) (main_dir : path)
    (copy_dir : option path) (force_rewrite : bool) : result fsys :=
  backup_file ← PurePath.with_suffix file ".bak";
  fs1 ← (if negb (force_rewrite || bool_decide (is_Some copy_dir)
                  || FS.is_file fs backup_file)
         then FS.rename fs file backup_file
         else Ok fs);
  new_file ← write_target file main_dir copy_dir;
  FS.write fs1 new_file (Json5 (JObj json_data)).

Definition PYTK_DEPENDENCY : json :=
  JObj [("UniqueID", JStr "Platonymous.Toolkit")].
Definition HD_PORTRAITS_DEPENDENCY : json :=
  JObj [("UniqueID", JStr "tlitookilakin.HDPortraits")].

Definition generated_by : string :=
  String.append "Generated by Portrait Patcher "
    (String.append __version__ ", by purplexpresso. Licensed under GPLv3.").

(** The rewrite of the dependency list inside [update_dependencies]:
    append unless present, then [remove] with its [ValueError] caught. *)
Definition rewrite_dependencies (dependencies : list json) : list json :=
  let appended :=
    if PyEq.contains HD_PORTRAITS_DEPENDENCY dependencies
    then dependencies
    else dependencies ++ [HD_PORTRAITS_DEPENDENCY] in
  match PyEq.remove PYTK_DEPENDENCY appended with
  | Some removed => removed
  | None => appended
  end.

(** [update_dependencies] on the loaded manifest.  [defaultdict(list, m)]
    needs a mapping [m]; a manifest is a JSON object, any other document
    is a failure here.  Reading the missing key ["Dependencies"] stores
    an empty list under it.  A value that is not a list fails at the
    [not in] test. *)
Definition update_manifest (manifest : json) : result dict :=
  manifest_dict ← match manifest with
                  | JObj d => Ok d
                  | _ => Raise TypeError
                  end;
  let manifest_dict1 :=
    if Dict.has "Dependencies" manifest_dict then manifest_dict
    else Dict.set "Dependencies" (JArr []) manifest_dict in
  dependencies ← match Dict.get "Dependencies" manifest_dict1 with
                 | Some (JArr l) => Ok l
                 | _ => Raise TypeError
                 end;
  mret (Dict.set "GeneratedBy" (JStr generated_by)
          (Dict.set "Dependencies" (JArr (rewrite_dependencies dependencies))
             manifest_dict1)).

(** [update_dependencies] *)
Definition update_dependencies (fs : fsys) (manifest_file : path)
  : result dict :=
  text ← FS.read fs manifest_file;
  manifest ← json5_load text;
  update_manifest manifest.

Definition STARDEW_PORTRAIT_SIZE : Z := 64.

(** [create_metadata_json]: only [FileNotFoundError] is caught. *)
Definition create_metadata_json
    (fs : fsys) (portrait_file : path) (target_name : string)
  : result (option dict) :=
  pytk_file ← PurePath.with_suffix portrait_file ".pytk.json";
  match FS.read fs pytk_file with
  | Raise FileNotFoundError => Ok None
  | Raise e => Raise e
  | Ok text =>
      pytk_dict ← json5_load text;
      scale ← subscript pytk_dict "Scale";
      n ← PyInt.int scale;
      let sprite_size := (n * STARDEW_PORTRAIT_SIZE)%Z in
      mret (Some [("Size", JInt sprite_size); ("Portrait", JStr target_name)])
  end.

(** ** [content_patcher_portraits] *)

Inductive FileParsed := INDIVIDUAL | GLOBBED.

#[global] Instance FileParsed_eq_dec : EqDecision FileParsed.
Proof. solve_decision. Defined.

(** One call of [_write_and_backup] for a sidecar, kept as a record of
    the run: the index of the Change Entry being processed, the branch
    that wrote, the key under which the tracking dict holds the file, the
    metadata file and the document written. *)
Record sidecar_write := SidecarWrite {
  sw_index : nat;
  sw_how : FileParsed;
  sw_key : path;
  sw_file : path;
  sw_data : dict
}.

(** The state of the loop over the Change Entries.  The entries are
    objects shared between [content_dict["Changes"]] and its shallow
    copy: [heap] holds the objects, [changes] is the list as a list of
    references into it. *)
Record state := State {
  heap : list json;
  changes : list nat;
  parsed_metadata_files : gmap path FileParsed;
  files : fsys;
  written : list sidecar_write
}.

(** [l.insert(i, x)] for [0 <= i]: past the end it appends. *)
Definition py_insert {A} (i : nat) (x : A) (l : list A) : list A :=
  take i l ++ x :: drop i l.

(** The object a reference stands for. *)
Definition deref (h : list json) (r : nat) : json := nth r h JNull.

(** The list [content_dict["Changes"]] as a document. *)
Definition changes_of (st : state) : list json :=
  map (deref (heap st)) (changes st).

Definition CP_WILDCARD : string := "*".
Definition VARIANT_SEPARATOR : string := "_".

(** [VARIANT_SEPARATOR.join(stem.split(VARIANT_SEPARATOR)[1:]) or None] *)
Definition target_variant_of (stem : string) : option string :=
  let v := Str.join VARIANT_SEPARATOR (tail (Str.split "_" stem)) in
  if String.eqb v "" then None else Some v.

(** The test that lets an entry through: [portrait_name.parent.stem]. *)
Definition is_portrait_target (portrait_name : path) : bool :=
  String.eqb (PurePath.stem (PurePath.parent portrait_name)) "Portraits".

(** What the loop body derives from one portrait entry: the variant of
    the target, the portrait file, its metadata file, the portrait file
    relative to the mod directory, the target of the EditImage entry as
    text, and the two entries: the rewritten original ("Load") and its
    rewritten deep copy ("EditImage"). *)
Record rewrite := Rewrite {
  rw_variant : option string;
  rw_portrait_file : path;
  rw_metadata_file : path;
  rw_portrait_rel : path;
  rw_target_name : string;
  rw_load : dict;
  rw_edit : dict
}.

Section Patcher.

(** [Path.resolve], [Path.glob] and [shutil.copytree] restricted to
    directories belong to the platform; the program is modelled for any
    behaviour of them.  [glob fs dir pattern] lists the matches at the
    moment the loop over them starts, or raises as [Path.glob] does on a
    pattern it refuses. *)
Variable resolve : path -> path.
Variable glob : fsys -> path -> string -> result (list path).
Variable copytree_dirs : fsys -> path -> path -> bool -> result fsys.

(** [_clone_dir_tree] *)
Definition _clone_dir_tree (fs : fsys) (source destination : path)
  : result fsys :=
  copytree_dirs fs (resolve source) (resolve destination)
    (negb (bool_decide (PurePath.name source ∈ parts destination))).

Variable content_patch_dir : path.
Variable copy_dir : option path.
Variable hd_portraits hd_portraits_patch : path.

(** The body of the loop over the glob matches. *)
Definition glob_step (index : nat) (target_variant : option string)
    (target_name : string) (st : state) (globbed_portrait_file : path)
  : result state :=
  globbed_metadata_file ←
    _get_variant_metadata_file globbed_portrait_file target_variant
      VARIANT_SEPARATOR;
  let key := resolve globbed_metadata_file in
  match parsed_metadata_files st !! key with
  | Some _ => Ok st
  | None =>
      let parsed := <[key := GLOBBED]> (parsed_metadata_files st) in
      globbed_metadata_json ←
        create_metadata_json (files st) globbed_portrait_file target_name;
      match globbed_metadata_json with
      | None =>
          Ok (State (heap st) (changes st) parsed (files st) (written st))
      | Some data =>
          fs ← _write_and_backup (files st) globbed_metadata_file data
                 content_patch_dir copy_dir true;
          mret (State (heap st) (changes st) parsed fs
                  (written st ++
                   [SidecarWrite index GLOBBED key globbed_metadata_file data]))
      end
  end.

(** The [elif portrait_file.is_file()] branch. *)
Definition individual_step (index : nat) (portrait_file metadata_file : path)
    (target_name : string) (st : state) : result state :=
  let key := resolve metadata_file in
  if bool_decide (parsed_metadata_files st !! key = Some INDIVIDUAL)
  then Ok st
  else
    let parsed := <[key := INDIVIDUAL]> (parsed_metadata_files st) in
    metadata_json ← create_metadata_json (files st) portrait_file target_name;
    match metadata_json with
    | None =>
        Ok (State (heap st) (changes st) parsed (files st) (written st))
    | Some data =>
        fs ← _write_and_backup (files st) metadata_file data
               content_patch_dir copy_dir true;
        mret (State (heap st) (changes st) parsed fs
                (written st ++
                 [SidecarWrite index INDIVIDUAL key metadata_file data]))
    end.

(** A loop whose body may raise. *)
Fixpoint for_each {A S} (body : S -> A -> result S) (l : list A) (s : S)
  : result S :=
  match l with
  | [] => Ok s
  | x :: l' => s' ← body s x; for_each body l' s'
  end.

(** The part of the loop body that does not touch the file system: the
    paths derived from one Change Entry and the two entries that replace
    it.  [None] is the [continue] of an entry that is not a portrait. *)
Definition rewrite_entry (metadata_item : json) : result (option rewrite) :=
  target ← subscript metadata_item "Target";
  target ← as_str target;
  let portrait_name := PurePath.parse target in
  if negb (is_portrait_target portrait_name) then Ok None else
  let target_variant := target_variant_of (PurePath.stem portrait_name) in
  from_file ← subscript metadata_item "FromFile";
  from_file ← as_str from_file;
  let portrait_file := PurePath.join content_patch_dir (PurePath.parse from_file) in
  metadata_file ←
    _get_variant_metadata_file portrait_file target_variant VARIANT_SEPARATOR;
  let hd_portraits_target_path :=
    PurePath.join_str hd_portraits (PurePath.stem portrait_name) in
  let hd_portraits_patch_target_path :=
    PurePath.join_str hd_portraits_patch (PurePath.stem portrait_name) in
  item ← match metadata_item with
         | JObj d => Ok (Dict.pop "PatchMode" d)
         | _ => Raise TypeError
         end;
  let portrait_item := item in
  metadata_rel ← PurePath.relative_to metadata_file content_patch_dir;
  let metadata_item' :=
    Dict.set "FromFile" (JStr (PurePath.as_posix metadata_rel))
      (Dict.set "Target" (JStr (PurePath.as_posix hd_portraits_target_path))
         (Dict.set "Action" (JStr "Load") item)) in
  portrait_rel ← PurePath.relative_to portrait_file content_patch_dir;
  let portrait_item' :=
    Dict.set "FromFile" (JStr (PurePath.as_posix portrait_rel))
      (Dict.set "Target"
         (JStr (PurePath.as_posix hd_portraits_patch_target_path))
         (Dict.set "Action" (JStr "EditImage") portrait_item)) in
  mret (Some (Rewrite target_variant portrait_file metadata_file portrait_rel
                (PurePath.as_posix hd_portraits_patch_target_path)
                metadata_item' portrait_item')).

(** The pattern handed to [glob]. *)
Definition glob_string_of (portrait_rel : path) : string :=
  Token.sub CP_WILDCARD (PurePath.as_posix portrait_rel).

(** The [if ... elif ...] that ends the loop body: the sidecars. *)
Definition sidecars (index : nat) (rw : rewrite) (st : state) : result state :=
  if Token.search (PurePath.stem (rw_portrait_file rw)) then
    let glob_string := glob_string_of (rw_portrait_rel rw) in
    matches ← glob (files st) content_patch_dir glob_string;
    for_each (glob_step index (rw_variant rw) (rw_target_name rw)) matches st
  else if FS.is_file (files st) (rw_portrait_file rw) then
    individual_step index (rw_portrait_file rw) (rw_metadata_file rw)
      (rw_target_name rw) st
  else Ok st.

(** The body of the loop over [enumerate(content_dict["Changes"].copy())]:
    [ref] is the object the copy holds at [index].  The object is
    changed in place, its deep copy is a new object, and
    [content_dict["Changes"].insert(2 * index, portrait_item)] puts the
    copy into the list. *)
Definition step (st : state) (entry : nat * nat) : result state :=
  let '(index, ref) := entry in
  r ← rewrite_entry (deref (heap st) ref);
  match r with
  | None => Ok st
  | Some rw =>
      let new_ref := length (heap st) in
      let st1 :=
        State (<[ref := JObj (rw_load rw)]> (heap st) ++ [JObj (rw_edit rw)])
              (py_insert (2 * index) new_ref (changes st))
              (parsed_metadata_files st) (files st) (written st) in
      sidecars index rw st1
  end.

(** [enumerate(l)] *)
Definition enumerate {A} (l : list A) : list (nat * A) :=
  imap (fun i x => (i, x)) l.

(** The state in which the loop starts: [content_dict["Changes"]] holds
    one fresh object per element of the loaded array. *)
Definition initial_state (items : list json) (fs : fsys) : state :=
  State items (seq 0 (length items)) ∅ fs [].

(** The loop, from the loaded array to the final state. *)
Definition patch_changes (items : list json) (fs : fsys) : result state :=
  let st := initial_state items fs in
  for_each step (enumerate (changes st)) st.

(** The loop as [content_patcher_portraits] runs it on the loaded
    document: the new value of [content_dict["Changes"]] and the final
    state.  A [dict] under ["Changes"] has a [copy] too; iterating it
    yields its keys, which cannot be subscripted by ["Target"]. *)
Definition patch_document (content_dict : json) (fs : fsys)
  : result (json * state) :=
  changes_json ← subscript content_dict "Changes";
  match changes_json with
  | JArr items =>
      st ← patch_changes items fs;
      mret (JArr (changes_of st), st)
  | JObj [] => Ok (JObj [], initial_state [] fs)
  | JObj (_ :: _) => Raise TypeError
  | _ => Raise AttributeError
  end.

(** [content_patcher_portraits]: the file system after the run and the
    sidecar writes of the run. *)
Definition content_patcher_portraits (fs : fsys)
  : result (fsys * list sidecar_write) :=
  fs0 ← match copy_dir with
        | Some c => _clone_dir_tree fs content_patch_dir c
        | None => Ok fs
        end;
  content_file ←
    _get_file_or_backup fs0 (PurePath.join_str content_patch_dir "content.json");
  text ← FS.read fs0 content_file;
  content_dict ← json5_load text;
  r ← patch_document content_dict fs0;
  let '(new_changes, st) := r in
  d ← match content_dict with
      | JObj d => Ok d
      | _ => Raise TypeError
      end;
  let content_dict' :=
    Dict.set "Format" (JStr "1.28.0") (Dict.set "Changes" new_changes d) in
  fs1 ← _write_and_backup (files st) content_file content_dict'
          content_patch_dir copy_dir false;
  manifest_file ←
    _get_file_or_backup fs1 (PurePath.join_str content_patch_dir "manifest.json");
  manifest_dict ← update_dependencies fs1 manifest_file;
  fs2 ← _write_and_backup fs1 manifest_file manifest_dict
          content_patch_dir copy_dir false;
  mret (fs2, written st).

End Patcher.

(** ** [shop_tile_framework_portraits], [ModType] and [main] *)

(** [shop_tile_framework_portraits] returns at once. *)
Definition shop_tile_framework_portraits
    (content_patch_dir : path) (copy_dir : option path)
    (hd_portraits hd_portraits_patch : path) (fs : fsys) : result fsys :=
  Ok fs.

Inductive ModType := CONTENT_PATCHER | SHOP_TILE_FRAMEWORK.

(** [ModType.identify_folder] *)
Definition identify_folder (fs : fsys) (directory : path) : option ModType :=
  if FS.is_file fs (PurePath.join_str directory "content.json")
  then Some CONTENT_PATCHER
  else if FS.is_file fs (PurePath.join_str directory "shops.json")
  then Some SHOP_TILE_FRAMEWORK
  else None.

(** [p.parts]: the root, when there is one, comes first. *)
Definition py_parts (p : path) : list string :=
  if String.eqb (root p) "" then parts p else root p :: parts p.

(** [l[-2:]] *)
Definition last_two {A} (l : list A) : list A := drop (length l - 2) l.

Section Main.

Variable resolve : path -> path.
Variable glob : fsys -> path -> string -> result (list path).
Variable copytree_dirs : fsys -> path -> path -> bool -> result fsys.

(** [Path.iterdir]: the entries of a directory, listed when the loop
    over them starts. *)
Variable iterdir : fsys -> path -> list path.

(** [mod_type.value(...)]: the function the member of [ModType] holds. *)
Definition mod_type_value (mod_type : ModType)
    (content_patch_dir : path) (copy_dir : option path)
    (hd_portraits hd_portraits_patch : path) (fs : fsys) : result fsys :=
  match mod_type with
  | CONTENT_PATCHER =>
      r ← content_patcher_portraits resolve glob copytree_dirs
            content_patch_dir copy_dir hd_portraits hd_portraits_patch fs;
      mret (fst r)
  | SHOP_TILE_FRAMEWORK =>
      shop_tile_framework_portraits content_patch_dir copy_dir
        hd_portraits hd_portraits_patch fs
  end.

(** The body of the loop over [directory.iterdir()]. *)
Definition main_step (directory : path) (copy_mode : bool)
    (copy_dir : option path) (hd_portraits hd_portraits_patch : path)
    (fs : fsys) (subdirectory : path) : result fsys :=
  if negb (FS.is_dir fs subdirectory) then Ok fs
  else
    match identify_folder fs subdirectory with
    | Some subdirectory_type =>
        mod_type_value subdirectory_type subdirectory
          (_get_copy_dir copy_dir copy_mode directory subdirectory)
          hd_portraits hd_portraits_patch fs
    | None => Ok fs
    end.

(** [main], from the parsed arguments on: [--path], whether [--mode] is
    [copy], [--copy_dir] and [--prefix]. *)
Definition main (directory : path) (copy_mode : bool)
    (copy_dir : option path) (prefix : string) (fs : fsys) : result fsys :=
  let hd_portraits := PurePath.parse "Mods/HDPortraits" in
  let hd_portraits_patch := PurePath.parse (String.append "Mods/" prefix) in
  if bool_decide (last_two (py_parts directory)
                  = ["Stardew Valley"%string; "Mods"%string])
  then Ok fs
  else
    match identify_folder fs directory with
    | Some main_folder_type =>
        mod_type_value main_folder_type directory
          (_get_copy_dir copy_dir copy_mode directory directory)
          hd_portraits hd_portraits_patch fs
    | None =>
        for_each
          (main_step directory copy_mode copy_dir hd_portraits hd_portraits_patch)
          (iterdir fs directory) fs
    end.

End Main.

(** ** A small platform to run the model on

    Paths resolve to themselves.  A pattern is matched segment by segment
    against the entries below the directory: [*] stands for any run of
    characters of one segment, a segment [**] for any number of
    directories, and a pattern that is empty or has [**] inside a longer
    segment is refused with [ValueError].  A tree is cloned in one step,
    missing parents of the destination included; for a destination
    below a directory of the source that exists already, [copytree]
    descends into what it creates until the interpreter stops it. *)

Module Platform.

Definition resolve (p : path) : path := p.

Fixpoint wild (pat : string) : string -> bool :=
  match pat with
  | EmptyString => fun s => String.eqb s ""
  | String "*" pat' =>
      fix star (s : string) : bool :=
        wild pat' s
        || match s with
           | String c s' => if Ascii.eqb c "/" then false else star s'
           | EmptyString => false
           end
  | String c pat' =>
      fun s =>
        match s with
        | String c' s' => Ascii.eqb c c' && wild pat' s'
        | EmptyString => false
        end
  end.

(** Whether two [*] stand side by side in a segment. *)
Fixpoint double_star (s : string) : bool :=
  match s with
  | EmptyString => false
  | String c s' =>
      match s' with
      | String c' _ => Ascii.eqb c "*" && Ascii.eqb c' "*" || double_star s'
      | EmptyString => false
      end
  end.

(** The segments of a pattern against the segments of a relative path. *)
Fixpoint segments (pats : list string) : list string -> bool :=
  match pats with
  | [] => fun segs => match segs with [] => true | _ :: _ => false end
  | pat :: pats' =>
      if String.eqb pat "**" then
        fix any (segs : list string) : bool :=
          segments pats' segs
          || match segs with
             | _ :: segs' => any segs'
             | [] => false
             end
      else
        fun segs =>
          match segs with
          | s :: segs' => wild pat s && segments pats' segs'
          | [] => false
          end
  end.

Definition glob (fs : fsys) (dir : path) (pattern : string)
  : result (list path) :=
  let pats := Str.split "/" pattern in
  if String.eqb pattern ""
     || existsb (fun s => double_star s && negb (String.eqb s "**")) pats
  then Raise ValueError
  else
    Ok (List.filter
          (fun p =>
             match PurePath.relative_to p dir with
             | Ok rel =>
                 segments pats (parts rel)
                 && (negb (String.eqb (List.last pats EmptyString) "**")
                     || FS.is_dir fs p)
             | Raise _ => false
             end)
          (map fst (map_to_list fs))).

(** Whether [q] is [d] followed by one segment or more. *)
Definition under (d q : path) : bool :=
  match PurePath.relative_to q d with
  | Ok rel => negb (Nat.eqb (length (parts rel)) 0)
  | Raise _ => false
  end.

(** The proper ancestors of a path, the nearest last. *)
Definition ancestors (p : path) : list path :=
  map (fun n => Path (root p) (take n (parts p)))
      (seq 1 (length (parts p) - 1)).

(** Every directory at or below [src] is created at the same place
    below [dst], after the missing parents of [dst].  Where [dst] is an
    entry of [src] that exists, it is the entry [copytree] comes to
    first. *)
Definition copytree_dirs (fs : fsys) (src dst : path) (dirs_exist_ok : bool)
  : result fsys :=
  let dirs :=
    omap (fun p =>
            match PurePath.relative_to p src with
            | Ok rel =>
                if FS.is_dir fs p then Some (PurePath.join dst rel) else None
            | Raise _ => None
            end)
         (map fst (map_to_list fs)) in
  match fs !! src with
  | None => Raise FileNotFoundError
  | Some (File _) => Raise NotADirectoryError
  | Some Dir =>
      if existsb (FS.is_file fs) (ancestors dst)
      then Raise NotADirectoryError
      else if bool_decide (is_Some (fs !! dst)) && negb dirs_exist_ok
      then Raise FileExistsError
      else if existsb (fun p => FS.is_dir fs p && under src p && under p dst)
                (map fst (map_to_list fs))
      then Raise RecursionError
      else if existsb (FS.is_file fs) dirs
      then Raise FileExistsError
      else
        Ok (foldr (fun p acc => <[p := Dir]> acc) fs (ancestors dst ++ dirs))
  end.

End Platform.

(** ** Python's [*] on numbers

    [binary64] arithmetic, used to say what a product the program does
    not compute would have been. *)

Module PyNum.

Definition prec : Z := 53.
Definition emax : Z := 1024.

(** [float(z)] *)
Definition of_Z (z : Z) : spec_float :=
  binary_normalize prec emax z 0 false.

(** [a * b] *)
Definition mul (a b : json) : option json :=
  match PyEq.as_num a, PyEq.as_num b with
  | Some (PyEq.NInt x), Some (PyEq.NInt y) => Some (JInt (x * y))
  | Some (PyEq.NFloat f), Some (PyEq.NInt y) =>
      Some (JFloat (SFmul prec emax f (of_Z y)))
  | Some (PyEq.NInt x), Some (PyEq.NFloat g) =>
      Some (JFloat (SFmul prec emax (of_Z x) g))
  | Some (PyEq.NFloat f), Some (PyEq.NFloat g) =>
      Some (JFloat (SFmul prec emax f g))
  | _, _ => None
  end.

End PyNum.

(** ** A mod directory to run the model on *)

Module Example.

Definition mod_dir : path := PurePath.parse "Mod".
Definition hd_portraits : path := PurePath.parse "Mods/HDPortraits".
Definition hd_portraits_patch : path := PurePath.parse "Mods/HDPortraitsPatch".

(** An entry that is not a portrait, and a portrait entry. *)
Definition other_entry (target : string) : json :=
  JObj [("Action", JStr "EditData"); ("Target", JStr target)].

Definition portrait_entry (target from_file : string) : json :=
  JObj [("Action", JStr "Load"); ("Target", JStr target);
        ("FromFile", JStr from_file); ("PatchMode", JStr "Replace")].

Definition content (changes : list json) : json :=
  JObj [("Format", JStr "1.19.0"); ("Changes", JArr changes)].

Definition manifest : json :=
  JObj [("Name", JStr "Portraits");
        ("Dependencies", JArr [PYTK_DEPENDENCY])].

(** The number [2.5]. *)
Definition two_and_a_half : spec_float := S754_finite false 5 (-1).

Definition scale (s : json) : node := File (Json5 (JObj [("Scale", s)])).

(** A mod with two portraits, one of them with a legacy sidecar. *)
Definition mod_files (changes : list json) : fsys :=
  list_to_map
    [(PurePath.parse "Mod", Dir);
     (PurePath.parse "Mod/assets", Dir);
     (PurePath.parse "Mod/content.json", File (Json5 (content changes)));
     (PurePath.parse "Mod/manifest.json", File (Json5 manifest));
     (PurePath.parse "Mod/assets/Abigail.png", File Opaque);
     (PurePath.parse "Mod/assets/Abigail.pytk.json", scale (JInt 2));
     (PurePath.parse "Mod/assets/Abigail_spring.png", File Opaque);
     (PurePath.parse "Mod/assets/Abigail_spring.pytk.json", scale (JInt 4));
     (PurePath.parse "Mod/assets/Penny.png", File Opaque)].

Definition run (fs : fsys) : result (fsys * list sidecar_write) :=
  content_patcher_portraits Platform.resolve Platform.glob
    Platform.copytree_dirs mod_dir None hd_portraits hd_portraits_patch fs.

Definition loop (items : list json) (fs : fsys) : result state :=
  patch_changes Platform.resolve Platform.glob mod_dir None
    hd_portraits hd_portraits_patch items fs.

(** What is to be seen of a result. *)
Definition changes_after (r : result state) : option (list json) :=
  match r with
  | Ok st => Some (changes_of st)
  | Raise _ => None
  end.

Definition writes_after (r : result state) : option (list sidecar_write) :=
  match r with
  | Ok st => Some (written st)
  | Raise _ => None
  end.

Definition node_after (r : result (fsys * list sidecar_write)) (p : string)
  : option (option node) :=
  match r with
  | Ok (fs, _) => Some (fs !! PurePath.parse p)
  | Raise _ => None
  end.

(** The final state of the loop, and the outcome of a run, where there
    is one. *)
Definition final (items : list json) (fs : fsys) : state :=
  match loop items fs with
  | Ok st => st
  | Raise _ => initial_state items fs
  end.

Definition outcome (fs : fsys) : fsys * list sidecar_write :=
  match run fs with
  | Ok x => x
  | Raise _ => (fs, [])
  end.

(** The sidecar phase of the iteration of an entry for [Abigail.png],
    from the state in which the loop starts. *)
Definition abigail : rewrite :=
  Rewrite None (PurePath.parse "Mod/assets/Abigail.png")
    (PurePath.parse "Mod/assets/Abigail.json")
    (PurePath.parse "assets/Abigail.png")
    "Mods/HDPortraitsPatch/Abigail" [] [].

Definition before_sidecars : state := initial_state [] (mod_files []).

Definition after_sidecars : state :=
  match sidecars Platform.resolve Platform.glob mod_dir None 0 abigail
          before_sidecars with
  | Ok st => st
  | Raise _ => before_sidecars
  end.

(** Two runs in a row on a mod with an entry that is not a portrait, a
    templated portrait and a variant: what each of them leaves. *)
Definition twice_items : list json :=
  [other_entry "Data/Events";
   portrait_entry "Portraits/Abigail" "assets/Abigail_{{season}}.png";
   portrait_entry "Portraits/Abigail_Witch" "assets/Abigail.png"].

Definition first_outcome : fsys * list sidecar_write :=
  Eval vm_compute in outcome (mod_files twice_items).

Definition second_outcome : fsys * list sidecar_write :=
  Eval vm_compute in outcome (fst first_outcome).

(** A mod whose portrait [content.png] has a legacy sidecar: the
    metadata file of the portrait is the patch document. *)
Definition clash_items : list json :=
  [portrait_entry "Portraits/Abigail" "content.png"].

Definition clash_files : fsys :=
  <[PurePath.parse "Mod/content.png" := File Opaque]>
    (<[PurePath.parse "Mod/content.pytk.json" := scale (JInt 2)]>
       (mod_files clash_items)).

Definition clash_outcome : fsys * list sidecar_write :=
  Eval vm_compute in outcome clash_files.

(** An entry with a token in a directory of its [FromFile] only, and two
    entries with one templated [FromFile] and two variants. *)
Definition folder_items : list json :=
  [portrait_entry "Portraits/Abigail" "{{folder}}/Abigail_spring.png"].

Definition variant_items : list json :=
  [portrait_entry "Portraits/Abigail" "assets/Abigail_{{season}}.png";
   portrait_entry "Portraits/Abigail_Beach" "assets/Abigail_{{season}}.png"].

(** The second of two runs in a row, on what the first one left. *)
Definition run_again (r : result (fsys * list sidecar_write))
  : result (fsys * list sidecar_write) :=
  match r with
  | Ok (fs, _) => run fs
  | Raise e => Raise e
  end.

End Example.

(** ** What a stretch of the run does to the state *)

(** A sidecar written while entry [index] was processed: a size and the
    target name of the entry. *)
Definition sidecar_for (index : nat) (target_name : string)
    (w : sidecar_write) : Prop :=
  sw_index w = index
  /\ exists n : Z,
       sw_data w = [("Size", JInt (n * 64)); ("Portrait", JStr target_name)].

(** From [st] to [st'] the file system changed by sidecar writes only:
    the new writes satisfy [Q], a file that no new write opened is as it
    was, and no directory or file went away. *)
Definition sidecar_frame (content_patch_dir : path) (copy_dir : option path)
    (Q : sidecar_write -> Prop) (st st' : state) : Prop :=
  exists ws,
    written st' = written st ++ ws
    /\ Forall Q ws
    /\ (forall q,
          (forall w, w ∈ ws ->
             write_target (sw_file w) content_patch_dir copy_dir <> Ok q) ->
          files st' !! q = files st !! q)
    /\ (forall q, files st !! q = Some Dir -> files st' !! q = Some Dir)
    /\ (forall q, FS.is_file (files st) q = true ->
                  FS.is_file (files st') q = true).

(** Between [st] and [st'] only sidecars were written: the list of
    entries is as it was. *)
Definition writes_only (content_patch_dir : path) (copy_dir : option path)
    (Q : sidecar_write -> Prop) (st st' : state) : Prop :=
  heap st' = heap st
  /\ changes st' = changes st
  /\ sidecar_frame content_patch_dir copy_dir Q st st'.

(** The loop without its sidecar phase: what it does to the list of
    entries. *)
Definition doc_step (content_patch_dir hd_portraits hd_portraits_patch : path)
    (hc : list json * list nat) (entry : nat * nat)
  : result (list json * list nat) :=
  let '(index, ref) := entry in
  r ← rewrite_entry content_patch_dir hd_portraits hd_portraits_patch
        (deref (fst hc) ref);
  match r with
  | None => Ok hc
  | Some rw =>
      Ok (<[ref := JObj (rw_load rw)]> (fst hc) ++ [JObj (rw_edit rw)],
          py_insert (2 * index) (length (fst hc)) (snd hc))
  end.

Definition rewrite_changes
    (content_patch_dir hd_portraits hd_portraits_patch : path)
    (items : list json) : result (list json) :=
  hc ← for_each (doc_step content_patch_dir hd_portraits hd_portraits_patch)
         (enumerate (seq 0 (length items))) (items, seq 0 (length items));
  mret (map (deref (fst hc)) (snd hc)).

(** The keys of the sidecars written from glob matches. *)
Definition globbed_keys (ws : list sidecar_write) : list path :=
  map sw_key (List.filter (fun w => bool_decide (sw_how w = GLOBBED)) ws).

(** No key was written twice from a glob match, and the tracking dict
    holds every key written from one. *)
Definition glob_tracked (st : state) : Prop :=
  NoDup (globbed_keys (written st))
  /\ forall k, k ∈ globbed_keys (written st) ->
               is_Some (parsed_metadata_files st !! k).

(** What [content_patcher_portraits] makes of the loaded patch document,
    sidecars left aside: the new value of [content_dict["Changes"]]. *)
Definition rewrite_document
    (content_patch_dir hd_portraits hd_portraits_patch : path)
    (content_dict : json) : result json :=
  changes_json ← subscript content_dict "Changes";
  match changes_json with
  | JArr items =>
      l ← rewrite_changes content_patch_dir hd_portraits hd_portraits_patch items;
      mret (JArr l)
  | JObj [] => Ok (JObj [])
  | JObj (_ :: _) => Raise TypeError
  | _ => Raise AttributeError
  end.

(** A sidecar of the run over [items]: written for a portrait entry of
    the loaded array, with the target name derived from that entry. *)
Definition entry_sidecar
    (content_patch_dir hd_portraits hd_portraits_patch : path)
    (items : list json) (w : sidecar_write) : Prop :=
  exists item rw,
    items !! sw_index w = Some item
    /\ rewrite_entry content_patch_dir hd_portraits hd_portraits_patch item
       = Ok (Some rw)
    /\ sidecar_for (sw_index w) (rw_target_name rw) w.

(** The invariant of the loop over the entries after [k] iterations. *)
Definition loop_inv
    (content_patch_dir : path) (copy_dir : option path)
    (hd_portraits hd_portraits_patch : path)
    (items : list json) (fs : fsys) (k : nat) (st : state) : Prop :=
  length items <= length (heap st)
  /\ (forall r item,
        items !! r = Some item ->
        k <= r
        \/ rewrite_entry content_patch_dir hd_portraits hd_portraits_patch item
           = Ok None ->
        heap st !! r = Some item)
  /\ (forall r, r < length items -> r ∈ changes st)
  /\ glob_tracked st
  /\ sidecar_frame content_patch_dir copy_dir
       (entry_sidecar content_patch_dir hd_portraits hd_portraits_patch items)
       (initial_state items fs) st.

(** How often a list holds a value, up to Python's [==]. *)
Definition occurrences (x : json) (l : list json) : nat :=
  length (List.filter (PyEq.eqb x) l).

(** ** What the rest of the development speaks of *)

(** The directory below which the copies of a mod go. *)
Definition copy_base (copy_dir : option path) (main_directory : path) : path :=
  match copy_dir with
  | Some c => c
  | None => PurePath.join_str main_directory "Patched HD Portraits"
  end.

(** What the loop needs of an entry to get through its iteration. *)
Definition entry_readable (item : json) : Prop :=
  exists d target,
    item = JObj d
    /\ Dict.get "Target" d = Some (JStr target)
    /\ (is_portrait_target (PurePath.parse target) = true ->
        exists from_file, Dict.get "FromFile" d = Some (JStr from_file)).

(** What becomes of an entry in place, and the entry made beside it. *)
Definition load_of (content_patch_dir hd_portraits hd_portraits_patch : path)
    (item : json) : json :=
  match rewrite_entry content_patch_dir hd_portraits hd_portraits_patch item with
  | Ok (Some rw) => JObj (rw_load rw)
  | _ => item
  end.

Definition edit_of (content_patch_dir hd_portraits hd_portraits_patch : path)
    (item : json) : option json :=
  match rewrite_entry content_patch_dir hd_portraits hd_portraits_patch item with
  | Ok (Some rw) => Some (JObj (rw_edit rw))
  | _ => None
  end.

(** The entries that take the place of one entry where the two made
    from a portrait entry stay together, the EditImage entry first. *)
Definition pair_of (content_patch_dir hd_portraits hd_portraits_patch : path)
    (item : json) : list json :=
  match rewrite_entry content_patch_dir hd_portraits hd_portraits_patch item with
  | Ok (Some rw) => [JObj (rw_edit rw); JObj (rw_load rw)]
  | _ => [item]
  end.

(** The invariant of the loop on the list of entries after [k]
    iterations: the objects of the loaded array, the first [k] rewritten
    in place; after them the copies made so far; every object is in the
    list once, and the objects of the loaded array are in their order. *)
Definition doc_inv (content_patch_dir hd_portraits hd_portraits_patch : path)
    (items : list json) (k : nat) (hc : list json * list nat) : Prop :=
  let n := length items in
  take n (fst hc)
  = map (load_of content_patch_dir hd_portraits hd_portraits_patch) (take k items)
    ++ drop k items
  /\ drop n (fst hc)
     = omap (edit_of content_patch_dir hd_portraits hd_portraits_patch)
         (take k items)
  /\ snd hc ≡ₚ seq 0 (length (fst hc))
  /\ List.filter (fun r => r <? n) (snd hc) = seq 0 n.

(** The references of the first [k] pairs in a list of [n] entries. *)
Definition pair_refs (n k : nat) : list nat :=
  flat_map (fun i => [n + i; i]) (seq 0 k).

(** Whether a dependency record is neither of the two the rewrite is
    about. *)
Definition other_dependency (x : json) : bool :=
  negb (PyEq.eqb HD_PORTRAITS_DEPENDENCY x) && negb (PyEq.eqb PYTK_DEPENDENCY x).

(** Whether none of the segments is [..]. *)
Definition plain (segments : list string) : bool :=
  forallb (fun s => negb (String.eqb s "..")) segments.

(** Whether [q] is [d] followed by one segment or more, none of them
    [..]: the path then lies inside the directory whatever the
    directories on the way are. *)
Definition inside (d q : path) : bool :=
  String.eqb (root q) (root d)
  && match PurePath.strip_prefix (parts d) (parts q) with
     | Some (x :: rest) => plain (x :: rest)
     | _ => false
     end.

(** Whether [p] is [d] followed by one segment that is a name. *)
Definition child (d p : path) : bool :=
  inside d p && Nat.eqb (length (parts p)) (S (length (parts d))).

(** From [fs] to [fs'] nothing changed but inside [d]: a path without
    [..] that is not inside [d] holds what it held. *)
Definition unchanged_outside (d : path) (fs fs' : fsys) : Prop :=
  forall q, plain (parts q) = true -> inside d q = false -> fs' !! q = fs !! q.

(** Whether the [FromFile] of an entry, where it is a text, has no
    segment [..], and whether this is so for every entry of a patch
    document. *)
Definition plain_entry (item : json) : bool :=
  match item with
  | JObj d =>
      match Dict.get "FromFile" d with
      | Some (JStr from_file) => plain (parts (PurePath.parse from_file))
      | _ => true
      end
  | _ => true
  end.

Definition plain_document (content_dict : json) : bool :=
  match content_dict with
  | JObj d =>
      match Dict.get "Changes" d with
      | Some (JArr items) => forallb plain_entry items
      | _ => true
      end
  | _ => true
  end.

(** Whether a node is anything but a document with a [..] in a
    [FromFile]. *)
Definition plain_node (x : node) : bool :=
  match x with
  | File (Json5 content_dict) => plain_document content_dict
  | _ => true
  end.

(** The patch document a run on [content_patch_dir] reads in [fs], where
    there is one, names its portrait files without [..]. *)
Definition plain_mod (fs : fsys) (content_patch_dir : path) : Prop :=
  forall content_file content_dict,
    _get_file_or_backup fs (PurePath.join_str content_patch_dir "content.json")
    = Ok content_file ->
    fs !! content_file = Some (File (Json5 content_dict)) ->
    plain_document content_dict = true.

(** A file of the kind the sidecar writes leave. *)
Definition sidecar_node (x : option node) : Prop :=
  exists (n : Z) (target_name : string),
    x = Some (File (Json5 (JObj [("Size", JInt (n * 64));
                                 ("Portrait", JStr target_name)]))).

(** From [fs] to [fs'] every path holds what it held or a sidecar. *)
Definition sidecars_only (fs fs' : fsys) : Prop :=
  forall q, fs' !! q = fs !! q \/ sidecar_node (fs' !! q).

(** The directory a run writes below. *)
Definition output_dir (content_patch_dir : path) (copy_dir : option path)
  : path :=
  match copy_dir with
  | Some c => c
  | None => content_patch_dir
  end.

(** ** Sample folders to run the program on *)

Module Listing.

(** [Path.glob] as in [Platform], without the directory itself. *)
Definition glob (fs : fsys) (dir : path) (pattern : string)
  : result (list path) :=
  matches ← Platform.glob fs dir pattern;
  mret (List.filter (inside dir) matches).

(** [Path.iterdir]: the entries of the directory. *)
Definition iterdir (fs : fsys) (dir : path) : list path :=
  List.filter (child dir) (map fst (map_to_list fs)).

End Listing.

Module Sample.

Definition abigail_entry : dict :=
  [("LogName", JStr "Abigail"); ("Action", JStr "Load");
   ("Target", JStr "Portraits/Abigail");
   ("FromFile", JStr "assets//Abigail.png"); ("PatchMode", JStr "Replace");
   ("When", JObj [("Season", JStr "spring")])].

Definition abigail_rw : rewrite :=
  Eval vm_compute in
    match rewrite_entry Example.mod_dir Example.hd_portraits
            Example.hd_portraits_patch (JObj abigail_entry) with
    | Ok (Some rw) => rw
    | _ => Example.abigail
    end.

Definition games_content : json :=
  Example.content
    [Example.portrait_entry "Portraits/Abigail" "assets/Abigail_{{season}}.png";
     Example.other_entry "Data/Events"].

Definition games : fsys :=
  list_to_map
    [(PurePath.parse "Games", Dir);
     (PurePath.parse "Games/notes.txt", File Opaque);
     (PurePath.parse "Games/Mods", Dir);
     (PurePath.parse "Games/Mods/readme.txt", File Opaque);
     (PurePath.parse "Games/Mods/Shops", Dir);
     (PurePath.parse "Games/Mods/Shops/shops.json", File (Json5 (JObj [])));
     (PurePath.parse "Games/Mods/Mod", Dir);
     (PurePath.parse "Games/Mods/Mod/assets", Dir);
     (PurePath.parse "Games/Mods/Mod/content.json", File (Json5 games_content));
     (PurePath.parse "Games/Mods/Mod/manifest.json", File (Json5 Example.manifest));
     (PurePath.parse "Games/Mods/Mod/assets/Abigail_spring.png", File Opaque);
     (PurePath.parse "Games/Mods/Mod/assets/Abigail_spring.pytk.json",
      Example.scale (JInt 4))].

(** A run in place on the mod of [games], and a run with a copy
    directory. *)
Definition games_mod : path := PurePath.parse "Games/Mods/Mod".
Definition games_out : path := PurePath.parse "Games/Out".

Definition mod_outcome : fsys * list sidecar_write :=
  Eval vm_compute in
    match content_patcher_portraits Platform.resolve Listing.glob
            Platform.copytree_dirs games_mod None
            Example.hd_portraits Example.hd_portraits_patch games with
    | Ok x => x
    | Raise _ => (games, [])
    end.

Definition cloned : fsys :=
  Eval vm_compute in
    match _clone_dir_tree Platform.resolve Platform.copytree_dirs games
            games_mod games_out with
    | Ok x => x
    | Raise _ => games
    end.

Definition copy_outcome : fsys * list sidecar_write :=
  Eval vm_compute in
    match content_patcher_portraits Platform.resolve Listing.glob
            Platform.copytree_dirs games_mod (Some games_out)
            Example.hd_portraits Example.hd_portraits_patch games with
    | Ok x => x
    | Raise _ => (games, [])
    end.

(** [main] on the folder that holds the mods of [games]. *)
Definition games_after : fsys :=
  Eval vm_compute in
    match main Platform.resolve Listing.glob Platform.copytree_dirs
            Listing.iterdir (PurePath.parse "Games/Mods") false None
            "HDPortraitsPatch" games with
    | Ok x => x
    | Raise _ => games
    end.

(** The loop on the entries of [Example.twice_items], and on a list
    that starts with two portrait entries. *)
Definition twice_final : state :=
  Eval vm_compute in
    Example.final Example.twice_items (Example.mod_files Example.twice_items).

Definition pair_items : list json :=
  [Example.portrait_entry "Portraits/Abigail" "assets/Abigail.png";
   Example.portrait_entry "Portraits/Penny" "assets/Penny.png";
   Example.other_entry "Data/Events";
   Example.portrait_entry "Portraits/Abigail_spring" "assets/Abigail.png"].

Definition pair_final : state :=
  Eval vm_compute in Example.final pair_items (Example.mod_files pair_items).

(** A portrait whose legacy sidecar has no ["Scale"]. *)
Definition penny_entry : json :=
  Example.portrait_entry "Portraits/Penny" "assets/Penny.png".

Definition penny_rw : rewrite :=
  Eval vm_compute in
    match rewrite_entry Example.mod_dir Example.hd_portraits
            Example.hd_portraits_patch penny_entry with
    | Ok (Some rw) => rw
    | _ => Example.abigail
    end.

Definition unscaled : fsys :=
  <[PurePath.parse "Mod/assets/Penny.pytk.json" :=
      File (Json5 (JObj [("Animation", JObj [("FPS", JInt 30)])]))]>
    (Example.mod_files []).

(** A document written twice. *)
Definition note_files : fsys :=
  list_to_map
    [(PurePath.parse "Mod", Dir);
     (PurePath.parse "Mod/content.json", File (Json5 (JObj [("Format", JStr "1.19.0")])))].

Definition note_once : fsys :=
  Eval vm_compute in
    match _write_and_backup note_files (PurePath.parse "Mod/content.json")
            [("Format", JStr "1.28.0")] Example.mod_dir None false with
    | Ok x => x
    | Raise _ => note_files
    end.

Definition note_twice : fsys :=
  Eval vm_compute in
    match _write_and_backup note_once (PurePath.parse "Mod/content.bak")
            [("Format", JStr "2.0.0")] Example.mod_dir None false with
    | Ok x => x
    | Raise _ => note_once
    end.

End Sample.

(** * Properties *)

(** ** Strings and names *)

Section StringFacts.

Lemma string_eqb_true (s t : string) : String.eqb s t = true <-> s = t.
Proof. apply String.eqb_eq. Qed.

Lemma string_eqb_false (s t : string) : String.eqb s t = false <-> s <> t.
Proof. apply String.eqb_neq. Qed.

Lemma len_append (s t : string) :
  Str.len (String.append s t) = Str.len s + Str.len t.
Proof. induction s as [|a s IH]; simpl; [done|]. unfold Str.len in *. simpl. lia. Qed.

Lemma mem_append (c : ascii) (s t : string) :
  Str.mem c (String.append s t) = Str.mem c s || Str.mem c t.
Proof.
  induction s as [|a s IH]; simpl; [done|].
  rewrite IH. by rewrite orb_assoc.
Qed.

Lemma mem_take (c : ascii) (i : nat) (s : string) :
  Str.mem c s = false -> Str.mem c (Str.take i s) = false.
Proof.
  revert i. induction s as [|a s IH]; intros [|i]; simpl; try done.
  intros [H1 H2]%orb_false_iff. rewrite H1. simpl. by apply IH.
Qed.

(** The last dot of [s ++ "." ++ t], for [t] without a dot, is the one
    in the middle. *)
Lemma rfind_append_dot (s t : string) :
  Str.mem "." t = false ->
  Str.rfind "." (String.append s (String "." t)) = Some (Str.len s).
Proof.
  intros Ht.
  assert (Hno : Str.rfind "." t = None).
  { induction t as [|a t IH]; simpl in *; [done|].
    apply orb_false_iff in Ht as [Ha Ht]. rewrite (IH Ht). by rewrite Ha. }
  induction s as [|a s IH]; simpl.
  - by rewrite Hno.
  - by rewrite IH.
Qed.

Lemma take_append (s t : string) : Str.take (Str.len s) (String.append s t) = s.
Proof. induction s as [|a s IH]; simpl; [by destruct t|]. by rewrite IH. Qed.

(** A name that ends in [".json"] after a non-empty head has that head
    as its stem. *)
Lemma stem_of_json (s : string) :
  s <> EmptyString -> PurePath.stem_of (String.append s ".json") = s.
Proof.
  intros Hs. unfold PurePath.stem_of, PurePath.suffix_index.
  rewrite (rfind_append_dot s "json") by done.
  rewrite len_append.
  assert (0 < Str.len s) by (destruct s; [done|simpl; lia]).
  replace ((0 <? Str.len s) && (Str.len s <? Str.len s + Str.len ".json" - 1))
    with true.
  - apply take_append.
  - symmetry. apply andb_true_iff. split; [apply Nat.ltb_lt|apply Nat.ltb_lt];
      simpl; lia.
Qed.

Lemma stem_of_nonempty (n : string) : n <> EmptyString -> PurePath.stem_of n <> EmptyString.
Proof.
  intros Hn. unfold PurePath.stem_of, PurePath.suffix_index.
  destruct (Str.rfind "." n) as [i|]; [|done].
  destruct ((0 <? i) && (i <? Str.len n - 1)) eqn:E; [|done].
  apply andb_true_iff in E as [Hi _]. apply Nat.ltb_lt in Hi.
  destruct i as [|i]; [lia|]. destruct n; [done|]. simpl. done.
Qed.

Lemma stem_of_mem (c : ascii) (n : string) :
  Str.mem c n = false -> Str.mem c (PurePath.stem_of n) = false.
Proof.
  intros Hn. unfold PurePath.stem_of.
  destruct (PurePath.suffix_index n); [by apply mem_take|done].
Qed.

Lemma stem_of_no_suffix (n : string) :
  PurePath.suffix_of n = EmptyString -> PurePath.stem_of n = n.
Proof.
  unfold PurePath.suffix_of, PurePath.stem_of, PurePath.suffix_index.
  destruct (Str.rfind "." n) as [i|]; [|done].
  destruct ((0 <? i) && (i <? Str.len n - 1)) eqn:E; [|done].
  apply andb_true_iff in E as [_ Hi]. apply Nat.ltb_lt in Hi.
  intros Hd. exfalso. revert i Hi Hd.
  induction n as [|a n IH]; intros [|i]; simpl; intros Hi Hd; try done; try lia.
  apply (IH i); [|done]. destruct n; simpl in *; lia.
Qed.

Lemma last_snoc {A} (l : list A) (x d : A) : List.last (l ++ [x]) d = x.
Proof. induction l as [|y l IH]; [done|]. simpl. destruct (l ++ [x]) eqn:E; [by destruct l|done]. Qed.

Lemma removelast_snoc {A} (l : list A) (x : A) : List.removelast (l ++ [x]) = l.
Proof. apply List.removelast_last. Qed.

End StringFacts.

(** ** The metadata file of a portrait *)

Lemma valid_name_inv (n : string) :
  PurePath.valid_name n = true ->
  n <> EmptyString /\ Str.mem "/" n = false /\ n <> "."%string.
Proof.
  unfold PurePath.valid_name.
  intros [[H1 H2]%andb_true_iff H3]%andb_true_iff.
  apply negb_true_iff in H1, H2, H3.
  apply string_eqb_false in H1, H3. done.
Qed.

Lemma valid_name_json (s : string) :
  s <> EmptyString -> Str.mem "/" s = false ->
  PurePath.valid_name (String.append s ".json") = true.
Proof.
  intros Hs Hm. unfold PurePath.valid_name.
  rewrite mem_append, Hm.
  destruct s as [|a s]; [done|].
  change (String.append (String a s) ".json")
    with (String a (String.append s ".json")).
  cbn [String.eqb Str.mem negb andb orb].
  destruct (Ascii.eqb a "."); [|done].
  by destruct s.
Qed.

Lemma with_name_ok (p : path) (n : string) :
  PurePath.name p <> EmptyString -> PurePath.valid_name n = true ->
  PurePath.with_name p n = Ok (Path (root p) (List.removelast (parts p) ++ [n])).
Proof.
  intros Hp Hn. unfold PurePath.with_name.
  apply string_eqb_false in Hp. by rewrite Hp, Hn.
Qed.

Lemma with_suffix_json_ok (p : path) :
  PurePath.name p <> EmptyString -> Str.mem "/" (PurePath.name p) = false ->
  PurePath.with_suffix p ".json" =
    Ok (Path (root p)
          (List.removelast (parts p) ++ [String.append (PurePath.stem p) ".json"])).
Proof.
  intros Hp Hm. unfold PurePath.with_suffix. simpl.
  apply with_name_ok; [done|].
  apply valid_name_json; [by apply stem_of_nonempty|by apply stem_of_mem].
Qed.

Lemma get_variant_metadata_file_ok (portrait_file : path) (variant : option string) :
  let new_name := variant_name (PurePath.stem portrait_file) variant "_" in
  PurePath.name portrait_file <> EmptyString ->
  PurePath.valid_name new_name = true ->
  _get_variant_metadata_file portrait_file variant "_" =
    Ok (Path (root portrait_file)
          (List.removelast (parts portrait_file)
             ++ [String.append (PurePath.stem_of new_name) ".json"])).
Proof.
  intros new_name Hp Hn. unfold _get_variant_metadata_file. fold new_name.
  rewrite with_name_ok by done. simpl.
  destruct (valid_name_inv _ Hn) as (Hne & Hm & _).
  rewrite with_suffix_json_ok; simpl.
  - unfold PurePath.stem, PurePath.name. simpl.
    by rewrite removelast_snoc, last_snoc.
  - unfold PurePath.name. simpl. by rewrite last_snoc.
  - unfold PurePath.name. simpl. by rewrite last_snoc.
Qed.

(** C6. The metadata file of a portrait file is its sibling named after
    [variant_name]: the stem of the portrait file when there is no
    variant or the stem ends with the variant, otherwise the stem, the
    separator and the variant; the name carries the suffix [".json"] the
    way [with_suffix] gives it: in the place of the last suffix of that
    name, which for a name without a suffix of its own is the name
    followed by [".json"].  With the variant of the
    target stem [Abigail_Witch], the portrait files [Abigail_Witch.png]
    and [Abigail.png] both resolve to [Abigail_Witch.json]. *)
Theorem variant_metadata_file_resolution :
  (forall (portrait_file : path) (variant : option string),
     let stem := PurePath.stem portrait_file in
     let new_name := variant_name stem variant "_" in
     PurePath.name portrait_file <> EmptyString ->
     PurePath.valid_name new_name = true ->
     exists metadata_file,
       _get_variant_metadata_file portrait_file variant "_" = Ok metadata_file
       /\ PurePath.parent metadata_file = PurePath.parent portrait_file
       /\ PurePath.name metadata_file
          = String.append (PurePath.stem_of new_name) ".json"
       /\ (PurePath.suffix_of new_name = EmptyString ->
           PurePath.name metadata_file = String.append new_name ".json")
       /\ (variant = None -> new_name = stem)
       /\ (forall v, variant = Some v -> Str.endswith stem v = true ->
           new_name = stem)
       /\ (forall v, variant = Some v -> Str.endswith stem v = false ->
           new_name = String.append stem (String.append "_" v)))
  /\ target_variant_of "Abigail_Witch" = Some "Witch"%string
  /\ _get_variant_metadata_file (PurePath.parse "Mod/assets/Abigail_Witch.png")
       (target_variant_of "Abigail_Witch") "_"
     = Ok (PurePath.parse "Mod/assets/Abigail_Witch.json")
  /\ _get_variant_metadata_file (PurePath.parse "Mod/assets/Abigail.png")
       (target_variant_of "Abigail_Witch") "_"
     = Ok (PurePath.parse "Mod/assets/Abigail_Witch.json").
Proof.
  split; [|repeat split; reflexivity].
  intros portrait_file variant stem new_name Hp Hn.
  eexists. split; [by apply get_variant_metadata_file_ok|].
  assert (Hparts : parts portrait_file <> []).
  { intros E. apply Hp. unfold PurePath.name. by rewrite E. }
  repeat split.
  - unfold PurePath.parent. simpl.
    destruct (parts portrait_file) as [|x l] eqn:E; [done|].
    destruct (List.removelast (x :: l) ++ _) eqn:E2.
    + by destruct (List.removelast (x :: l)).
    + rewrite <- E2. by rewrite removelast_snoc.
  - unfold PurePath.name. simpl. by rewrite last_snoc.
  - intros Hs. unfold PurePath.name. simpl. rewrite last_snoc.
    fold stem. fold new_name. by rewrite stem_of_no_suffix.
  - intros ->. done.
  - intros v -> Hv. unfold new_name. simpl. by rewrite Hv.
  - intros v -> Hv. unfold new_name. simpl. by rewrite Hv.
Qed.

Lemma variant_metadata_file_resolution_witness :
  exists metadata_file,
    _get_variant_metadata_file (PurePath.parse "Mod/assets/Abigail.png")
      (Some "Witch"%string) "_" = Ok metadata_file
    /\ PurePath.name metadata_file = "Abigail_Witch.json"%string.
Proof.
  destruct (proj1 variant_metadata_file_resolution
              (PurePath.parse "Mod/assets/Abigail.png") (Some "Witch"%string))
    as (m & Hm & _ & Hname & _).
  - vm_compute. discriminate.
  - reflexivity.
  - exists m. split; [exact Hm|exact Hname].
Defined.

(** C6 as stated fails on a stem with a dot in it: [with_suffix] takes
    the part after the last dot of the new name for a suffix and
    replaces it.  For [Abigail.v2.png] the metadata file is
    [Abigail.json], with the variant [Witch] and without a variant. *)
Lemma variant_lost_after_dotted_stem :
  PurePath.stem (PurePath.parse "Mod/assets/Abigail.v2.png") = "Abigail.v2"%string
  /\ Str.endswith "Abigail.v2" "Witch" = false
  /\ _get_variant_metadata_file (PurePath.parse "Mod/assets/Abigail.v2.png")
       (Some "Witch"%string) "_"
     = Ok (PurePath.parse "Mod/assets/Abigail.json")
  /\ PurePath.parse "Mod/assets/Abigail.json"
     <> PurePath.parse "Mod/assets/Abigail.v2_Witch.json"
  /\ _get_variant_metadata_file (PurePath.parse "Mod/assets/Abigail.v2.png")
       None "_"
     = Ok (PurePath.parse "Mod/assets/Abigail.json")
  /\ PurePath.parse "Mod/assets/Abigail.json"
     <> PurePath.parse "Mod/assets/Abigail.v2.json".
Proof. repeat split; try reflexivity; by vm_compute. Qed.

(** ** The dependency list of the manifest *)

Module DictFacts.

Lemma get_set_eq {V} (k : string) (v : V) (d : list (string * V)) :
  Dict.get k (Dict.set k v d) = Some v.
Proof.
  induction d as [|[k' v'] d IH]; simpl.
  - by rewrite String.eqb_refl.
  - destruct (String.eqb k k') eqn:E; simpl; rewrite ?String.eqb_refl, ?E; done.
Qed.

Lemma get_set_ne {V} (k k' : string) (v : V) (d : list (string * V)) :
  k <> k' -> Dict.get k (Dict.set k' v d) = Dict.get k d.
Proof.
  intros Hk. apply string_eqb_false in Hk.
  induction d as [|[k0 v0] d IH]; simpl.
  - by rewrite Hk.
  - destruct (String.eqb k' k0) eqn:E; simpl.
    + apply string_eqb_true in E as <-. by rewrite Hk.
    + by rewrite IH.
Qed.

Lemma get_pop_eq {V} (k : string) (d : list (string * V)) :
  Dict.get k (Dict.pop k d) = None.
Proof.
  unfold Dict.pop. induction d as [|[k' v'] d IH]; simpl; [done|].
  destruct (String.eqb k k') eqn:E; simpl; [done|]. by rewrite E.
Qed.

Lemma get_pop_ne {V} (k k' : string) (d : list (string * V)) :
  k <> k' -> Dict.get k (Dict.pop k' d) = Dict.get k d.
Proof.
  intros Hk. unfold Dict.pop. induction d as [|[k0 v0] d IH]; simpl; [done|].
  destruct (String.eqb k' k0) eqn:E; simpl.
  - apply string_eqb_true in E as <-.
    apply string_eqb_false in Hk. by rewrite Hk.
  - by rewrite IH.
Qed.

End DictFacts.

Lemma eqb_singleton (k : string) (v : json) (d : dict) :
  PyEq.eqb (JObj [(k, v)]) (JObj d)
  = Nat.eqb 1 (length d)
    && (match Dict.get k d with
        | Some w => PyEq.eqb v w
        | None => false
        end && true).
Proof. reflexivity. Qed.

(** A value equals a dependency record exactly when it is that record. *)
Lemma eqb_dependency (id : string) (x : json) :
  PyEq.eqb (JObj [("UniqueID", JStr id)]) x = true
  <-> x = JObj [("UniqueID", JStr id)].
Proof.
  split.
  - destruct x as [| | | | |l|d]; try (simpl; done).
    rewrite eqb_singleton.
    destruct d as [|[k v] [|? ?]]; try done.
    cbn [length Nat.eqb andb Dict.get].
    destruct (String.eqb "UniqueID" k) eqn:E; [|done].
    apply string_eqb_true in E as <-.
    destruct v; try done.
    rewrite andb_true_r. cbn [PyEq.eqb]. by intros ->%string_eqb_true.
  - intros ->. rewrite eqb_singleton.
    cbn [length Nat.eqb andb Dict.get PyEq.eqb].
    by rewrite !String.eqb_refl.
Qed.

Lemma contains_occurrences (x : json) (l : list json) :
  PyEq.contains x l = false <-> occurrences x l = 0.
Proof.
  unfold PyEq.contains, occurrences.
  induction l as [|y l IH]; simpl; [done|].
  destruct (PyEq.eqb x y); simpl; [split; [done|lia]|done].
Qed.

Lemma occurrences_app (x : json) (l m : list json) :
  occurrences x (l ++ m) = occurrences x l + occurrences x m.
Proof. unfold occurrences. by rewrite List.filter_app, length_app. Qed.

Lemma remove_None (x : json) (l : list json) :
  PyEq.remove x l = None <-> PyEq.contains x l = false.
Proof.
  unfold PyEq.contains. induction l as [|y l IH]; simpl; [done|].
  destruct (PyEq.eqb x y); simpl; [done|].
  destruct (PyEq.remove x l); [|tauto].
  split; [done|]. intros H. by apply IH in H.
Qed.

(** [remove] takes out one element equal to the argument and nothing
    else. *)
Lemma remove_Some (x : json) (l r : list json) :
  PyEq.remove x l = Some r ->
  exists l1 z l2,
    l = l1 ++ z :: l2 /\ r = l1 ++ l2
    /\ PyEq.eqb x z = true /\ PyEq.contains x l1 = false.
Proof.
  revert r. induction l as [|y l IH]; simpl; [done|]. intros r.
  destruct (PyEq.eqb x y) eqn:E.
  - intros [= <-]. by exists [], y, l.
  - destruct (PyEq.remove x l) as [r'|]; [|done]. intros [= <-].
    destruct (IH r' eq_refl) as (l1 & z & l2 & -> & -> & Hz & Hl1).
    exists (y :: l1), z, l2. repeat split; [done|].
    unfold PyEq.contains in *. simpl. by rewrite E.
Qed.

Lemma occurrences_remove (y : json) (l r : list json) :
  PyEq.remove (JObj [("UniqueID", JStr "Platonymous.Toolkit")]) l = Some r ->
  occurrences y l
  = occurrences y r + occurrences y [PYTK_DEPENDENCY].
Proof.
  intros (l1 & z & l2 & -> & -> & Hz & _)%remove_Some.
  apply eqb_dependency in Hz as ->.
  change (JObj [("UniqueID", JStr "Platonymous.Toolkit")] :: l2)
    with ([PYTK_DEPENDENCY] ++ l2).
  rewrite !occurrences_app. lia.
Qed.

Lemma set_same {V} (k : string) (v : V) (d : list (string * V)) :
  Dict.get k d = Some v -> Dict.set k v d = d.
Proof.
  induction d as [|[k' v'] d IH]; simpl; [done|].
  destruct (String.eqb k k') eqn:E.
  - apply string_eqb_true in E as ->. by intros [= ->].
  - intros H. by rewrite IH.
Qed.

Lemma occurrences_hd_pytk :
  occurrences HD_PORTRAITS_DEPENDENCY [PYTK_DEPENDENCY] = 0
  /\ occurrences PYTK_DEPENDENCY [HD_PORTRAITS_DEPENDENCY] = 0
  /\ occurrences HD_PORTRAITS_DEPENDENCY [HD_PORTRAITS_DEPENDENCY] = 1
  /\ occurrences PYTK_DEPENDENCY [PYTK_DEPENDENCY] = 1.
Proof. repeat split; reflexivity. Qed.

(** What one rewrite does to the number of occurrences of a record. *)
Lemma rewrite_dependencies_occurrences (y : json) (deps : list json) :
  occurrences y (rewrite_dependencies deps)
  + (if PyEq.contains PYTK_DEPENDENCY deps
     then occurrences y [PYTK_DEPENDENCY] else 0)
  = occurrences y deps
    + (if PyEq.contains HD_PORTRAITS_DEPENDENCY deps
       then 0 else occurrences y [HD_PORTRAITS_DEPENDENCY]).
Proof.
  unfold rewrite_dependencies.
  set (appended := if PyEq.contains HD_PORTRAITS_DEPENDENCY deps
                   then deps else deps ++ [HD_PORTRAITS_DEPENDENCY]).
  assert (Happ : occurrences y appended
                 = occurrences y deps
                   + (if PyEq.contains HD_PORTRAITS_DEPENDENCY deps
                      then 0 else occurrences y [HD_PORTRAITS_DEPENDENCY])).
  { unfold appended. destruct (PyEq.contains HD_PORTRAITS_DEPENDENCY deps).
    - lia.
    - by rewrite occurrences_app. }
  assert (Hpytk : PyEq.contains PYTK_DEPENDENCY appended
                  = PyEq.contains PYTK_DEPENDENCY deps).
  { unfold appended. destruct (PyEq.contains HD_PORTRAITS_DEPENDENCY deps); [done|].
    unfold PyEq.contains. rewrite List.existsb_app.
    change (List.existsb (PyEq.eqb PYTK_DEPENDENCY) [HD_PORTRAITS_DEPENDENCY])
      with false.
    by rewrite orb_false_r. }
  rewrite <- Happ, <- Hpytk.
  destruct (PyEq.remove PYTK_DEPENDENCY appended) as [r|] eqn:E.
  - pose proof (occurrences_remove y _ _ E) as Hr.
    destruct (PyEq.contains PYTK_DEPENDENCY appended) eqn:Ec; [lia|].
    apply remove_None in Ec. congruence.
  - apply remove_None in E. rewrite E. lia.
Qed.

Lemma contains_true_occurrences (x : json) (l : list json) :
  PyEq.contains x l = true <-> 0 < occurrences x l.
Proof.
  destruct (PyEq.contains x l) eqn:E.
  - split; [intros _|done].
    destruct (occurrences x l) eqn:E2; [|lia].
    apply contains_occurrences in E2. congruence.
  - apply contains_occurrences in E. split; [done|lia].
Qed.

Lemma rewrite_dependencies_hd (deps : list json) :
  occurrences HD_PORTRAITS_DEPENDENCY (rewrite_dependencies deps)
  = Nat.max 1 (occurrences HD_PORTRAITS_DEPENDENCY deps).
Proof.
  pose proof (rewrite_dependencies_occurrences HD_PORTRAITS_DEPENDENCY deps) as H.
  destruct occurrences_hd_pytk as (H1 & _ & H2 & _). rewrite H1, H2 in H.
  destruct (PyEq.contains HD_PORTRAITS_DEPENDENCY deps) eqn:E.
  - apply contains_true_occurrences in E.
    destruct (PyEq.contains PYTK_DEPENDENCY deps); lia.
  - apply contains_occurrences in E.
    destruct (PyEq.contains PYTK_DEPENDENCY deps); lia.
Qed.

Lemma rewrite_dependencies_pytk (deps : list json) :
  occurrences PYTK_DEPENDENCY (rewrite_dependencies deps)
  = Nat.pred (occurrences PYTK_DEPENDENCY deps).
Proof.
  pose proof (rewrite_dependencies_occurrences PYTK_DEPENDENCY deps) as H.
  destruct occurrences_hd_pytk as (_ & H1 & _ & H2). rewrite H1, H2 in H.
  destruct (PyEq.contains PYTK_DEPENDENCY deps) eqn:E.
  - apply contains_true_occurrences in E.
    destruct (PyEq.contains HD_PORTRAITS_DEPENDENCY deps); lia.
  - apply contains_occurrences in E.
    destruct (PyEq.contains HD_PORTRAITS_DEPENDENCY deps); lia.
Qed.

(** A list with the new record and without the old one is left as it is. *)
Lemma rewrite_dependencies_fixed (deps : list json) :
  0 < occurrences HD_PORTRAITS_DEPENDENCY deps ->
  occurrences PYTK_DEPENDENCY deps = 0 ->
  rewrite_dependencies deps = deps.
Proof.
  intros H1%contains_true_occurrences H2%contains_occurrences.
  unfold rewrite_dependencies. rewrite H1.
  apply remove_None in H2. by rewrite H2.
Qed.

Lemma update_manifest_ok (d : dict) (deps : list json) :
  Dict.get "Dependencies" d = Some (JArr deps) ->
  update_manifest (JObj d)
  = Ok (Dict.set "GeneratedBy" (JStr generated_by)
          (Dict.set "Dependencies" (JArr (rewrite_dependencies deps)) d)).
Proof.
  intros H. unfold update_manifest, Dict.has.
  cbn [mbind result_bind]. rewrite H. cbn [mbind result_bind]. by rewrite H.
Qed.

Lemma update_manifest_dependencies (d : dict) (v : json) :
  Dict.get "Dependencies"
    (Dict.set "GeneratedBy" (JStr generated_by) (Dict.set "Dependencies" v d))
  = Some v.
Proof. rewrite DictFacts.get_set_ne by done. apply DictFacts.get_set_eq. Qed.

Lemma remove_app_Some (x : json) (l m r : list json) :
  PyEq.remove x l = Some r -> PyEq.remove x (l ++ m) = Some (r ++ m).
Proof.
  revert r. induction l as [|y l IH]; simpl; [done|]. intros r.
  destruct (PyEq.eqb x y); [by intros [= <-]|].
  destruct (PyEq.remove x l) as [r'|]; [|done].
  intros [= <-]. by rewrite (IH r' eq_refl).
Qed.

Lemma remove_app_None (x : json) (l m : list json) :
  PyEq.remove x l = None -> PyEq.remove x m = None ->
  PyEq.remove x (l ++ m) = None.
Proof.
  intros Hl Hm. induction l as [|y l IH]; simpl in *; [done|].
  destruct (PyEq.eqb x y); [done|].
  destruct (PyEq.remove x l); [done|]. by rewrite IH.
Qed.

(** The rewrite, read off the list: the first Toolkit record goes if
    there is one, and the HDPortraits record is added at the end exactly
    when the list does not hold it. *)
Lemma rewrite_dependencies_shape (deps : list json) :
  let kept := match PyEq.remove PYTK_DEPENDENCY deps with
              | Some r => r
              | None => deps
              end in
  rewrite_dependencies deps
  = if PyEq.contains HD_PORTRAITS_DEPENDENCY deps then kept
    else kept ++ [HD_PORTRAITS_DEPENDENCY].
Proof.
  intros kept. unfold rewrite_dependencies, kept.
  destruct (PyEq.contains HD_PORTRAITS_DEPENDENCY deps); [done|].
  destruct (PyEq.remove PYTK_DEPENDENCY deps) as [r|] eqn:E.
  - by rewrite (remove_app_Some _ _ _ _ E).
  - by rewrite (remove_app_None _ _ _ E).
Qed.

(** C5, as the code has it.  [update_dependencies] adds the HDPortraits
    record at the end of the Dependencies list exactly when the list does
    not hold it, and takes out the first Toolkit record if there is one,
    leaving the list alone otherwise.  Applied to its own result, it
    leaves the HDPortraits record exactly once in a list that held it at
    most once, and changes nothing when the original list held the
    Toolkit record at most once. *)
Theorem update_dependencies_rewrite
    (fs : fsys) (manifest_file : path) (d : dict) (deps : list json) :
  FS.read fs manifest_file = Ok (Json5 (JObj d)) ->
  Dict.get "Dependencies" d = Some (JArr deps) ->
  let kept := match PyEq.remove PYTK_DEPENDENCY deps with
              | Some r => r
              | None => deps
              end in
  exists d1 deps1,
    update_dependencies fs manifest_file = Ok d1
    /\ Dict.get "Dependencies" d1 = Some (JArr deps1)
    /\ (PyEq.contains HD_PORTRAITS_DEPENDENCY deps = false ->
        deps1 = kept ++ [HD_PORTRAITS_DEPENDENCY])
    /\ (PyEq.contains HD_PORTRAITS_DEPENDENCY deps = true -> deps1 = kept)
    /\ (PyEq.contains PYTK_DEPENDENCY deps = false -> kept = deps)
    /\ occurrences PYTK_DEPENDENCY deps1
       = Nat.pred (occurrences PYTK_DEPENDENCY deps)
    /\ forall (fs' : fsys) (manifest_file' : path),
         FS.read fs' manifest_file' = Ok (Json5 (JObj d1)) ->
         exists d2 deps2,
           update_dependencies fs' manifest_file' = Ok d2
           /\ Dict.get "Dependencies" d2 = Some (JArr deps2)
           /\ (occurrences HD_PORTRAITS_DEPENDENCY deps <= 1 ->
               occurrences HD_PORTRAITS_DEPENDENCY deps2 = 1)
           /\ (occurrences PYTK_DEPENDENCY deps <= 1 -> d2 = d1).
Proof.
  intros Hread Hdeps kept.
  pose proof (rewrite_dependencies_shape deps) as Hshape. cbv zeta in Hshape.
  fold kept in Hshape.
  eexists _, (rewrite_dependencies deps).
  split; [unfold update_dependencies; rewrite Hread; cbn [mbind result_bind json5_load];
          by apply update_manifest_ok|].
  split; [apply update_manifest_dependencies|].
  split; [intros E; by rewrite Hshape, E|].
  split; [intros E; by rewrite Hshape, E|].
  split; [intros E%remove_None; unfold kept; by rewrite E|].
  split; [apply rewrite_dependencies_pytk|].
  intros fs' f' Hread'.
  eexists _, (rewrite_dependencies (rewrite_dependencies deps)).
  split; [unfold update_dependencies; rewrite Hread';
          cbn [mbind result_bind json5_load];
          apply update_manifest_ok, update_manifest_dependencies|].
  split; [apply update_manifest_dependencies|].
  split.
  - intros Hle. rewrite !rewrite_dependencies_hd. lia.
  - intros Hle.
    rewrite rewrite_dependencies_fixed.
    + rewrite (set_same "Dependencies").
      * apply set_same. apply DictFacts.get_set_eq.
      * apply update_manifest_dependencies.
    + rewrite rewrite_dependencies_hd. lia.
    + rewrite rewrite_dependencies_pytk. lia.
Qed.

Lemma update_dependencies_rewrite_witness :
  exists d1,
    update_dependencies
      {[ PurePath.parse "Mod/manifest.json" :=
           File (Json5 (JObj [("Name", JStr "Portraits");
                              ("Dependencies", JArr [PYTK_DEPENDENCY])])) ]}
      (PurePath.parse "Mod/manifest.json") = Ok d1
    /\ Dict.get "Dependencies" d1 = Some (JArr [HD_PORTRAITS_DEPENDENCY]).
Proof.
  destruct (update_dependencies_rewrite
              {[ PurePath.parse "Mod/manifest.json" :=
                   File (Json5 (JObj [("Name", JStr "Portraits");
                                      ("Dependencies", JArr [PYTK_DEPENDENCY])])) ]}
              (PurePath.parse "Mod/manifest.json")
              [("Name", JStr "Portraits"); ("Dependencies", JArr [PYTK_DEPENDENCY])]
              [PYTK_DEPENDENCY])
    as (d1 & deps1 & H1 & H2 & H3 & _).
  - unfold FS.read. by rewrite lookup_singleton_eq.
  - reflexivity.
  - exists d1. split; [exact H1|]. rewrite H2. by rewrite H3.
Defined.

(** C5 as stated fails on a list that holds the HDPortraits record
    twice: two rewrites leave it there twice.  And on a list that holds
    the Toolkit record twice the rewrite is not idempotent. *)
Lemma update_dependencies_not_once :
  (exists d1 d2,
     update_manifest (JObj [("Dependencies",
                             JArr [HD_PORTRAITS_DEPENDENCY; HD_PORTRAITS_DEPENDENCY])])
     = Ok d1
     /\ update_manifest (JObj d1) = Ok d2
     /\ Dict.get "Dependencies" d2
        = Some (JArr [HD_PORTRAITS_DEPENDENCY; HD_PORTRAITS_DEPENDENCY])
     /\ occurrences HD_PORTRAITS_DEPENDENCY
          [HD_PORTRAITS_DEPENDENCY; HD_PORTRAITS_DEPENDENCY] <> 1)
  /\ rewrite_dependencies [PYTK_DEPENDENCY; PYTK_DEPENDENCY]
     = [PYTK_DEPENDENCY; HD_PORTRAITS_DEPENDENCY]
  /\ rewrite_dependencies
       (rewrite_dependencies [PYTK_DEPENDENCY; PYTK_DEPENDENCY])
     = [HD_PORTRAITS_DEPENDENCY].
Proof.
  split; [|split; reflexivity].
  eexists _, _. split; [reflexivity|]. split; [reflexivity|].
  split; [reflexivity|]. vm_compute. discriminate.
Qed.

(** C10. A manifest without a ["Dependencies"] key is rewritten without
    an error, and its Dependencies list is then exactly the HDPortraits
    record. *)
Theorem update_dependencies_missing_key
    (fs : fsys) (manifest_file : path) (d : dict) :
  FS.read fs manifest_file = Ok (Json5 (JObj d)) ->
  Dict.get "Dependencies" d = None ->
  exists d1,
    update_dependencies fs manifest_file = Ok d1
    /\ Dict.get "Dependencies" d1 = Some (JArr [HD_PORTRAITS_DEPENDENCY]).
Proof.
  intros Hread Hnone.
  unfold update_dependencies. rewrite Hread.
  cbn [mbind result_bind json5_load].
  unfold update_manifest, Dict.has. cbn [mbind result_bind].
  rewrite Hnone, DictFacts.get_set_eq. cbn [mbind result_bind mret result_ret].
  eexists. split; [reflexivity|].
  rewrite update_manifest_dependencies. reflexivity.
Qed.

Lemma update_dependencies_missing_key_witness :
  exists d1,
    update_dependencies
      {[ PurePath.parse "Mod/manifest.json" :=
           File (Json5 (JObj [("Name", JStr "Portraits")])) ]}
      (PurePath.parse "Mod/manifest.json") = Ok d1
    /\ Dict.get "Dependencies" d1 = Some (JArr [HD_PORTRAITS_DEPENDENCY]).
Proof.
  apply (update_dependencies_missing_key _ _ [("Name", JStr "Portraits")]).
  - unfold FS.read. by rewrite lookup_singleton_eq.
  - reflexivity.
Defined.

(** ** Reading the legacy sidecar, writing the new one *)

Lemma write_inv (fs fs' : fsys) (p : path) (c : content) :
  FS.write fs p c = Ok fs' ->
  fs' = <[p := File c]> fs /\ fs !! p <> Some Dir
  /\ FS.is_dir fs (PurePath.parent p) = true.
Proof.
  unfold FS.write.
  destruct (fs !! p) as [[|]|]; try done;
    destruct (FS.is_dir fs (PurePath.parent p)); try done; by intros [= <-].
Qed.

Lemma create_metadata_json_found
    (fs : fsys) (portrait_file pytk_file : path) (target_name : string)
    (pytk_dict scale : json) (n : Z) :
  PurePath.with_suffix portrait_file ".pytk.json" = Ok pytk_file ->
  fs !! pytk_file = Some (File (Json5 pytk_dict)) ->
  subscript pytk_dict "Scale" = Ok scale ->
  PyInt.int scale = Ok n ->
  create_metadata_json fs portrait_file target_name
  = Ok (Some [("Size", JInt (n * 64)); ("Portrait", JStr target_name)]).
Proof.
  intros Hp Hfs Hscale Hn. unfold create_metadata_json, FS.read.
  rewrite Hp. cbn [mbind result_bind]. rewrite Hfs.
  cbn [mbind result_bind json5_load]. rewrite Hscale.
  cbn [mbind result_bind]. rewrite Hn. reflexivity.
Qed.

Lemma create_metadata_json_missing
    (fs : fsys) (portrait_file pytk_file : path) (target_name : string) :
  PurePath.with_suffix portrait_file ".pytk.json" = Ok pytk_file ->
  fs !! pytk_file = None ->
  create_metadata_json fs portrait_file target_name = Ok None.
Proof.
  intros Hp Hfs. unfold create_metadata_json, FS.read.
  rewrite Hp. cbn [mbind result_bind]. by rewrite Hfs.
Qed.

(** Whatever [create_metadata_json] returns is a size and the target
    name it was given. *)
Lemma create_metadata_json_shape
    (fs : fsys) (portrait_file : path) (target_name : string) (data : dict) :
  create_metadata_json fs portrait_file target_name = Ok (Some data) ->
  exists n : Z,
    data = [("Size", JInt (n * 64)); ("Portrait", JStr target_name)].
Proof.
  unfold create_metadata_json.
  destruct (PurePath.with_suffix portrait_file ".pytk.json") as [q|]; [|done].
  cbn [mbind result_bind].
  destruct (FS.read fs q) as [text|[]]; try done.
  destruct (json5_load text) as [pytk|]; [|done]. cbn [mbind result_bind].
  destruct (subscript pytk "Scale") as [scale|]; [|done]. cbn [mbind result_bind].
  destruct (PyInt.int scale) as [n|]; [|done]. cbn [mbind result_bind].
  intros [= <-]. by exists n.
Qed.

(** With [force_rewrite] nothing is renamed: the call is one write. *)
Lemma write_and_backup_forced
    (fs fs' : fsys) (file main_dir : path) (copy_dir : option path) (data : dict) :
  _write_and_backup fs file data main_dir copy_dir true = Ok fs' ->
  exists new_file,
    write_target file main_dir copy_dir = Ok new_file
    /\ fs' = <[new_file := File (Json5 (JObj data))]> fs
    /\ fs !! new_file <> Some Dir.
Proof.
  unfold _write_and_backup.
  destruct (PurePath.with_suffix file ".bak") as [b|]; [|done].
  cbn [mbind result_bind orb negb].
  destruct (write_target file main_dir copy_dir) as [t|]; [|done].
  cbn [mbind result_bind]. intros (H1 & H2 & _)%write_inv. by exists t.
Qed.

(** ** Loops *)

Lemma for_each_app {A St} (body : St -> A -> result St) (l1 l2 : list A) (s : St) :
  for_each body (l1 ++ l2) s = s' ← for_each body l1 s; for_each body l2 s'.
Proof.
  revert s. induction l1 as [|x l1 IH]; intros s; simpl; [done|].
  destruct (body s x) as [s1|e]; simpl; [apply IH|done].
Qed.

(** A relation between states that every iteration establishes holds
    between the first and the last state of the loop. *)
Lemma for_each_rel {A St} (body : St -> A -> result St) (R : St -> St -> Prop)
    (l : list A) (s s' : St) :
  (forall s, R s s) ->
  (forall s1 s2 s3, R s1 s2 -> R s2 s3 -> R s1 s3) ->
  (forall s1 s2 x, In x l -> body s1 x = Ok s2 -> R s1 s2) ->
  for_each body l s = Ok s' -> R s s'.
Proof.
  intros Hrefl Htrans. revert s.
  induction l as [|x l IH]; intros s Hbody; simpl.
  - intros [= <-]. apply Hrefl.
  - destruct (body s x) as [s1|e] eqn:E; simpl; [|done].
    intros H. apply (Htrans _ s1).
    + apply (Hbody _ _ x); [by left|done].
    + apply IH; [|done]. intros ? ? y Hy. apply Hbody. by right.
Qed.

(** An invariant of the iterations, indexed by the number of elements
    already processed. *)
Lemma for_each_indexed {A St} (body : St -> A -> result St)
    (I : nat -> St -> Prop) (l : list A) (s s' : St) :
  I 0 s ->
  (forall k x s1 s2,
     nth_error l k = Some x -> I k s1 -> body s1 x = Ok s2 -> I (S k) s2) ->
  for_each body l s = Ok s' -> I (length l) s'.
Proof.
  revert I s. induction l as [|x l IH]; intros I s H0 Hstep; simpl.
  - by intros [= <-].
  - destruct (body s x) as [s1|e] eqn:E; simpl; [|done].
    apply (IH (fun k => I (S k))).
    + by apply (Hstep 0 x s).
    + intros k y s2 s3 Hk. by apply (Hstep (S k)).
Qed.

Lemma enumerate_seq (n : nat) :
  enumerate (seq 0 n) = map (fun i => (i, i)) (seq 0 n).
Proof.
  unfold enumerate.
  assert (H : forall k m, imap (fun i x => (k + i, x)) (seq m n)
                          = map (fun i => (k + (i - m), i)) (seq m n)).
  { induction n as [|n IH]; intros k m; simpl; [done|].
    rewrite Nat.sub_diag. f_equal.
    transitivity (imap (fun i x => (S k + i, x)) (seq (S m) n)).
    - apply imap_ext. intros i x _. simpl. f_equal. lia.
    - rewrite IH. apply map_ext_in. intros i Hi%in_seq. f_equal. lia. }
  specialize (H 0 0). simpl in H.
  rewrite <- (map_ext (fun i => (i - 0, i))).
  - exact H.
  - intros i. f_equal. lia.
Qed.

(** ** The sidecar phase of an iteration *)

Section SidecarFacts.

Variable resolve : path -> path.
Variable glob : fsys -> path -> string -> result (list path).
Variable content_patch_dir : path.
Variable copy_dir : option path.

Lemma sidecar_frame_refl (Q : sidecar_write -> Prop) (st : state) :
  sidecar_frame content_patch_dir copy_dir Q st st.
Proof. exists []. rewrite app_nil_r. repeat split; try done. Qed.

Lemma sidecar_frame_trans (Q : sidecar_write -> Prop) (st1 st2 st3 : state) :
  sidecar_frame content_patch_dir copy_dir Q st1 st2 ->
  sidecar_frame content_patch_dir copy_dir Q st2 st3 ->
  sidecar_frame content_patch_dir copy_dir Q st1 st3.
Proof.
  intros (ws1 & Hw1 & HQ1 & Hf1 & Hd1 & Hm1) (ws2 & Hw2 & HQ2 & Hf2 & Hd2 & Hm2).
  exists (ws1 ++ ws2). split; [by rewrite Hw2, Hw1, app_assoc|].
  split; [by apply Forall_app|].
  split; [|split].
  - intros q Hq. rewrite Hf2, Hf1; [done| |].
    + intros w Hw. apply Hq, elem_of_app. by left.
    + intros w Hw. apply Hq, elem_of_app. by right.
  - intros q Hq. by apply Hd2, Hd1.
  - intros q Hq. by apply Hm2, Hm1.
Qed.

Lemma sidecar_frame_weaken (Q Q' : sidecar_write -> Prop) (st st' : state) :
  (forall w, Q w -> Q' w) ->
  sidecar_frame content_patch_dir copy_dir Q st st' ->
  sidecar_frame content_patch_dir copy_dir Q' st st'.
Proof.
  intros HQ (ws & Hw & HQs & Hrest). exists ws. split; [done|].
  split; [|done]. eapply Forall_impl; [exact HQs|done].
Qed.

Lemma writes_only_refl (Q : sidecar_write -> Prop) (st : state) :
  writes_only content_patch_dir copy_dir Q st st.
Proof. repeat split. apply sidecar_frame_refl. Qed.

Lemma writes_only_trans (Q : sidecar_write -> Prop) (st1 st2 st3 : state) :
  writes_only content_patch_dir copy_dir Q st1 st2 ->
  writes_only content_patch_dir copy_dir Q st2 st3 ->
  writes_only content_patch_dir copy_dir Q st1 st3.
Proof.
  intros (Hh1 & Hc1 & H1) (Hh2 & Hc2 & H2).
  split; [congruence|]. split; [congruence|].
  by apply (sidecar_frame_trans _ _ st2).
Qed.

(** One forced write, seen as a stretch of the run. *)
Lemma writes_only_write (Q : sidecar_write -> Prop) (st : state)
    (parsed : gmap path FileParsed) (fs : fsys) (w : sidecar_write) :
  Q w ->
  _write_and_backup (files st) (sw_file w) (sw_data w)
    content_patch_dir copy_dir true = Ok fs ->
  writes_only content_patch_dir copy_dir Q st
    (State (heap st) (changes st) parsed fs (written st ++ [w])).
Proof.
  intros HQ (t & Ht & -> & Hnd)%write_and_backup_forced.
  split; [done|]. split; [done|]. exists [w].
  split; [done|]. split; [by apply Forall_singleton|]. simpl.
  split; [|split].
  - intros q Hq. apply lookup_insert_ne. intros ->.
    by apply (Hq w); [apply list_elem_of_singleton|].
  - intros q Hq. destruct (decide (t = q)) as [->|Hne]; [done|].
    by rewrite lookup_insert_ne.
  - intros q. unfold FS.is_file. destruct (decide (t = q)) as [->|Hne].
    + by rewrite lookup_insert_eq.
    + by rewrite lookup_insert_ne.
Qed.

(** A change of the tracking dict alone. *)
Lemma writes_only_parsed (Q : sidecar_write -> Prop) (st : state)
    (parsed : gmap path FileParsed) :
  writes_only content_patch_dir copy_dir Q st
    (State (heap st) (changes st) parsed (files st) (written st)).
Proof.
  repeat split. exists []. simpl. rewrite app_nil_r. repeat split; try done.
Qed.

Lemma glob_step_writes (index : nat) (variant : option string)
    (target_name : string) (st st' : state) (globbed : path) :
  glob_step resolve content_patch_dir copy_dir index variant target_name st globbed
  = Ok st' ->
  writes_only content_patch_dir copy_dir (sidecar_for index target_name) st st'.
Proof.
  unfold glob_step.
  destruct (_get_variant_metadata_file globbed variant VARIANT_SEPARATOR)
    as [gm|]; [|done].
  cbn [mbind result_bind].
  destruct (parsed_metadata_files st !! resolve gm).
  { intros [= <-]. apply writes_only_refl. }
  destruct (create_metadata_json (files st) globbed target_name)
    as [[data|]|] eqn:E; [| |done]; cbn [mbind result_bind].
  - destruct (_write_and_backup (files st) gm data content_patch_dir copy_dir true)
      as [fs|] eqn:Ew; [|done].
    cbn [mbind result_bind mret result_ret]. intros [= <-].
    apply (writes_only_write _ _ _ _
             (SidecarWrite index GLOBBED (resolve gm) gm data)); [|done].
    split; [done|]. by apply create_metadata_json_shape in E.
  - intros [= <-]. apply writes_only_parsed.
Qed.

Lemma individual_step_writes (index : nat) (portrait_file metadata_file : path)
    (target_name : string) (st st' : state) :
  individual_step resolve content_patch_dir copy_dir index portrait_file
    metadata_file target_name st = Ok st' ->
  writes_only content_patch_dir copy_dir (sidecar_for index target_name) st st'.
Proof.
  unfold individual_step. case_bool_decide.
  { intros [= <-]. apply writes_only_refl. }
  destruct (create_metadata_json (files st) portrait_file target_name)
    as [[data|]|] eqn:E; [| |done]; cbn [mbind result_bind].
  - destruct (_write_and_backup (files st) metadata_file data content_patch_dir
                copy_dir true) as [fs|] eqn:Ew; [|done].
    cbn [mbind result_bind mret result_ret]. intros [= <-].
    apply (writes_only_write _ _ _ _
             (SidecarWrite index INDIVIDUAL (resolve metadata_file)
                metadata_file data)); [|done].
    split; [done|]. by apply create_metadata_json_shape in E.
  - intros [= <-]. apply writes_only_parsed.
Qed.

Lemma sidecars_writes (index : nat) (rw : rewrite) (st st' : state) :
  sidecars resolve glob content_patch_dir copy_dir index rw st = Ok st' ->
  writes_only content_patch_dir copy_dir
    (sidecar_for index (rw_target_name rw)) st st'.
Proof.
  unfold sidecars.
  destruct (Token.search (PurePath.stem (rw_portrait_file rw))).
  - destruct (glob (files st) content_patch_dir _) as [matches|]; [|done].
    cbn [mbind result_bind]. apply for_each_rel.
    + apply writes_only_refl.
    + apply writes_only_trans.
    + intros s1 s2 x _. apply glob_step_writes.
  - destruct (FS.is_file (files st) (rw_portrait_file rw)).
    + apply individual_step_writes.
    + intros [= <-]. apply writes_only_refl.
Qed.

Lemma globbed_keys_snoc (ws : list sidecar_write) (w : sidecar_write) :
  globbed_keys (ws ++ [w])
  = globbed_keys ws
    ++ (if bool_decide (sw_how w = GLOBBED) then [sw_key w] else []).
Proof.
  unfold globbed_keys. rewrite List.filter_app, map_app. simpl.
  by destruct (bool_decide (sw_how w = GLOBBED)).
Qed.

Lemma glob_tracked_insert (st : state) (k : path) (how : FileParsed)
    (h : list json) (c : list nat) (fs : fsys) :
  glob_tracked st ->
  glob_tracked
    (State h c (<[k := how]> (parsed_metadata_files st)) fs (written st)).
Proof.
  intros [Hnd Htr]. split; [done|]. simpl. intros k' Hk'.
  destruct (decide (k = k')) as [->|Hne].
  - rewrite lookup_insert_eq. by eexists.
  - rewrite lookup_insert_ne by done. by apply Htr.
Qed.

Lemma glob_step_tracked (index : nat) (variant : option string)
    (target_name : string) (st st' : state) (globbed : path) :
  glob_step resolve content_patch_dir copy_dir index variant target_name st globbed
  = Ok st' ->
  glob_tracked st -> glob_tracked st'.
Proof.
  unfold glob_step.
  destruct (_get_variant_metadata_file globbed variant VARIANT_SEPARATOR)
    as [gm|]; [|done].
  cbn [mbind result_bind].
  destruct (parsed_metadata_files st !! resolve gm) eqn:Ek.
  { by intros [= <-]. }
  destruct (create_metadata_json (files st) globbed target_name)
    as [[data|]|]; [| |done]; cbn [mbind result_bind].
  - destruct (_write_and_backup (files st) gm data content_patch_dir copy_dir true)
      as [fs|]; [|done].
    cbn [mbind result_bind mret result_ret]. intros [= <-] [Hnd Htr].
    split; simpl.
    + rewrite globbed_keys_snoc. simpl. apply NoDup_app. split; [done|].
      split; [|apply NoDup_singleton].
      intros k Hk ->%list_elem_of_singleton.
      apply Htr in Hk. rewrite Ek in Hk. by destruct Hk.
    + rewrite globbed_keys_snoc. simpl. intros k [Hk| ->%list_elem_of_singleton]%elem_of_app.
      * destruct (decide (resolve gm = k)) as [->|Hne].
        -- rewrite lookup_insert_eq. by eexists.
        -- rewrite lookup_insert_ne by done. by apply Htr.
      * rewrite lookup_insert_eq. by eexists.
  - intros [= <-]. by apply glob_tracked_insert.
Qed.

Lemma individual_step_tracked (index : nat) (portrait_file metadata_file : path)
    (target_name : string) (st st' : state) :
  individual_step resolve content_patch_dir copy_dir index portrait_file
    metadata_file target_name st = Ok st' ->
  glob_tracked st -> glob_tracked st'.
Proof.
  unfold individual_step. case_bool_decide.
  { by intros [= <-]. }
  destruct (create_metadata_json (files st) portrait_file target_name)
    as [[data|]|]; [| |done]; cbn [mbind result_bind].
  - destruct (_write_and_backup (files st) metadata_file data content_patch_dir
                copy_dir true) as [fs|]; [|done].
    cbn [mbind result_bind mret result_ret]. intros [= <-] Htr.
    pose proof (glob_tracked_insert st (resolve metadata_file) INDIVIDUAL
                  (heap st) (changes st) fs Htr) as [Hnd Htr'].
    split; simpl in *.
    + rewrite globbed_keys_snoc. simpl. by rewrite app_nil_r.
    + rewrite globbed_keys_snoc. simpl. by rewrite app_nil_r.
  - intros [= <-]. by apply glob_tracked_insert.
Qed.

Lemma for_each_preserves {A St} (body : St -> A -> result St)
    (P : St -> Prop) (l : list A) (s s' : St) :
  (forall s1 s2 x, body s1 x = Ok s2 -> P s1 -> P s2) ->
  for_each body l s = Ok s' -> P s -> P s'.
Proof.
  intros Hbody. revert s. induction l as [|x l IH]; intros s; simpl.
  - by intros [= <-].
  - destruct (body s x) as [s1|] eqn:E; simpl; [|done].
    intros H Hs. apply (IH s1); [done|]. by apply (Hbody s _ x).
Qed.

Lemma sidecars_tracked (index : nat) (rw : rewrite) (st st' : state) :
  sidecars resolve glob content_patch_dir copy_dir index rw st = Ok st' ->
  glob_tracked st -> glob_tracked st'.
Proof.
  unfold sidecars.
  destruct (Token.search (PurePath.stem (rw_portrait_file rw))).
  - destruct (glob (files st) content_patch_dir _) as [matches|]; [|done].
    cbn [mbind result_bind].
    apply for_each_preserves. intros s1 s2 x. apply glob_step_tracked.
  - destruct (FS.is_file (files st) (rw_portrait_file rw)).
    + apply individual_step_tracked.
    + by intros [= <-].
Qed.

Variable hd_portraits hd_portraits_patch : path.

(** What an iteration of the loop comes to. *)
Lemma step_inv (st st' : state) (index ref : nat) :
  step resolve glob content_patch_dir copy_dir hd_portraits hd_portraits_patch
    st (index, ref) = Ok st' ->
  (rewrite_entry content_patch_dir hd_portraits hd_portraits_patch
     (deref (heap st) ref) = Ok None /\ st' = st)
  \/ exists rw,
       rewrite_entry content_patch_dir hd_portraits hd_portraits_patch
         (deref (heap st) ref) = Ok (Some rw)
       /\ writes_only content_patch_dir copy_dir
            (sidecar_for index (rw_target_name rw))
            (State (<[ref := JObj (rw_load rw)]> (heap st) ++ [JObj (rw_edit rw)])
                   (py_insert (2 * index) (length (heap st)) (changes st))
                   (parsed_metadata_files st) (files st) (written st))
            st'.
Proof.
  unfold step.
  destruct (rewrite_entry _ _ _ (deref (heap st) ref)) as [[rw|]|]; [| |done];
    cbn [mbind result_bind].
  - intros H. right. exists rw. split; [done|]. by apply sidecars_writes in H.
  - intros [= <-]. by left.
Qed.

Lemma step_tracked (st st' : state) (entry : nat * nat) :
  step resolve glob content_patch_dir copy_dir hd_portraits hd_portraits_patch
    st entry = Ok st' ->
  glob_tracked st -> glob_tracked st'.
Proof.
  destruct entry as [index ref]. unfold step.
  destruct (rewrite_entry _ _ _ (deref (heap st) ref)) as [[rw|]|]; [| |done];
    cbn [mbind result_bind].
  - intros H Htr. by apply (sidecars_tracked _ _ _ _ H).
  - by intros [= <-].
Qed.

End SidecarFacts.

(** ** The loop over the entries *)

Lemma deref_lookup (h : list json) (r : nat) (x : json) :
  h !! r = Some x -> deref h r = x.
Proof. intros H. unfold deref. by apply nth_lookup_Some with (d := JNull) in H. Qed.

Lemma py_insert_elem {A} (i : nat) (x y : A) (l : list A) :
  y ∈ l -> y ∈ py_insert i x l.
Proof.
  intros Hy. unfold py_insert.
  rewrite <- (take_drop i l) in Hy.
  apply elem_of_app in Hy as [Hy|Hy]; apply elem_of_app; [by left|].
  right. by apply list_elem_of_further.
Qed.

Section RunFacts.

Variable resolve : path -> path.
Variable glob : fsys -> path -> string -> result (list path).
Variable content_patch_dir : path.
Variable copy_dir : option path.
Variable hd_portraits hd_portraits_patch : path.

Local Abbreviation step' :=
  (step resolve glob content_patch_dir copy_dir hd_portraits hd_portraits_patch).
Local Abbreviation rewrite_entry' :=
  (rewrite_entry content_patch_dir hd_portraits hd_portraits_patch).
Local Abbreviation inv' :=
  (loop_inv content_patch_dir copy_dir hd_portraits hd_portraits_patch).

Lemma loop_inv_initial (items : list json) (fs : fsys) :
  inv' items fs 0 (initial_state items fs).
Proof.
  split; [done|]. split; [by intros r item H _|].
  split; [intros r Hr; simpl; apply elem_of_seq; lia|].
  split; [split; [apply NoDup_nil_2|by intros k Hk%elem_of_nil]|].
  apply sidecar_frame_refl.
Qed.

Lemma loop_inv_step (items : list json) (fs : fsys) (k : nat) (st st' : state) :
  k < length items ->
  inv' items fs k st ->
  step' st (k, k) = Ok st' ->
  inv' items fs (S k) st'.
Proof.
  intros Hk (Hlen & Hheap & Hch & Htr & Hfr) Hstep.
  pose proof (step_tracked _ _ _ _ _ _ _ _ _ Hstep Htr) as Htr'.
  destruct (lookup_lt_is_Some_2 items k Hk) as [item Hitem].
  pose proof (Hheap k item Hitem (or_introl (le_n k))) as Hk_heap.
  apply step_inv in Hstep as [[Hnone ->]|(rw & Hrw & Hh & Hc & Hw)].
  - refine (conj Hlen (conj _ (conj Hch (conj Htr Hfr)))).
    intros r item' Hr [Hle|Hn]; apply Hheap; try done; [left; lia|by right].
  - rewrite (deref_lookup _ _ _ Hk_heap) in Hrw.
    simpl in Hh, Hc.
    split; [rewrite Hh, length_app, length_insert; lia|].
    split; [|split; [|split; [done|]]].
    + intros r item' Hr Hcase. rewrite Hh.
      assert (r < length (heap st)).
      { apply lookup_lt_Some in Hr. lia. }
      rewrite lookup_app_l by (rewrite length_insert; lia).
      destruct (decide (k = r)) as [<-|Hne].
      * rewrite Hitem in Hr. injection Hr as <-.
        destruct Hcase as [Hle|Hn]; [lia|congruence].
      * rewrite list_lookup_insert_ne by done.
        apply Hheap; [done|]. destruct Hcase as [Hle|Hn]; [left; lia|by right].
    + intros r Hr. rewrite Hc. by apply py_insert_elem, Hch.
    + apply (sidecar_frame_trans _ _ _ _ st); [done|].
      destruct Hw as (ws & Hws & HQ & Hrest). exists ws.
      split; [done|]. split; [|done].
      eapply Forall_impl; [exact HQ|].
      intros w [Hi Hd]. exists item, rw. rewrite Hi. by repeat split.
Qed.

Lemma enumerate_seq_nth (n k : nat) (x : nat * nat) :
  nth_error (enumerate (seq 0 n)) k = Some x -> x = (k, k) /\ k < n.
Proof.
  rewrite enumerate_seq, nth_error_map.
  destruct (nth_error (seq 0 n) k) as [i|] eqn:E; [|done].
  intros [= <-].
  assert (k < n).
  { pose proof (proj1 (nth_error_Some (seq 0 n) k)) as Hlt.
    rewrite length_seq in Hlt. apply Hlt. congruence. }
  split; [|done].
  assert (Hi : nth k (seq 0 n) 0 = i) by (by apply nth_error_nth).
  rewrite seq_nth in Hi by done. simpl in Hi. by subst.
Qed.

(** The invariant holds when the loop is over. *)
Lemma patch_changes_inv (items : list json) (fs : fsys) (st : state) :
  patch_changes resolve glob content_patch_dir copy_dir
    hd_portraits hd_portraits_patch items fs = Ok st ->
  inv' items fs (length items) st.
Proof.
  unfold patch_changes. intros H.
  apply (for_each_indexed _ (fun k st => inv' items fs k st)) in H.
  - cbn [changes initial_state] in H.
    unfold enumerate in H. rewrite length_imap, length_seq in H. exact H.
  - apply loop_inv_initial.
  - intros k x s1 s2 Hx Hinv Hs. cbn [changes initial_state] in Hx.
    apply enumerate_seq_nth in Hx as [-> Hk]. by apply (loop_inv_step _ _ _ s1).
Qed.

End RunFacts.

(** ** Entries that are not portraits *)

Section EntryFacts.

Variable content_patch_dir hd_portraits hd_portraits_patch : path.

Local Abbreviation rewrite_entry' :=
  (rewrite_entry content_patch_dir hd_portraits hd_portraits_patch).

(** An entry whose target does not pass the test is left alone. *)
Lemma rewrite_entry_skip (item : json) (target : string) :
  subscript item "Target" = Ok (JStr target) ->
  is_portrait_target (PurePath.parse target) = false ->
  rewrite_entry' item = Ok None.
Proof.
  intros Ht Hp. unfold rewrite_entry. rewrite Ht.
  cbn [mbind result_bind as_str]. by rewrite Hp.
Qed.

(** What the rewrite of a portrait entry is made of. *)
Lemma rewrite_entry_inv (item : json) (rw : rewrite) :
  rewrite_entry' item = Ok (Some rw) ->
  exists d target from_file metadata_rel,
    item = JObj d
    /\ Dict.get "Target" d = Some (JStr target)
    /\ is_portrait_target (PurePath.parse target) = true
    /\ Dict.get "FromFile" d = Some (JStr from_file)
    /\ rw_variant rw
       = target_variant_of (PurePath.stem (PurePath.parse target))
    /\ rw_portrait_file rw
       = PurePath.join content_patch_dir (PurePath.parse from_file)
    /\ _get_variant_metadata_file (rw_portrait_file rw) (rw_variant rw) "_"
       = Ok (rw_metadata_file rw)
    /\ PurePath.relative_to (rw_metadata_file rw) content_patch_dir
       = Ok metadata_rel
    /\ PurePath.relative_to (rw_portrait_file rw) content_patch_dir
       = Ok (rw_portrait_rel rw)
    /\ rw_target_name rw
       = PurePath.as_posix
           (PurePath.join_str hd_portraits_patch
              (PurePath.stem (PurePath.parse target)))
    /\ rw_load rw
       = Dict.set "FromFile" (JStr (PurePath.as_posix metadata_rel))
           (Dict.set "Target"
              (JStr (PurePath.as_posix
                       (PurePath.join_str hd_portraits
                          (PurePath.stem (PurePath.parse target)))))
              (Dict.set "Action" (JStr "Load") (Dict.pop "PatchMode" d)))
    /\ rw_edit rw
       = Dict.set "FromFile" (JStr (PurePath.as_posix (rw_portrait_rel rw)))
           (Dict.set "Target" (JStr (rw_target_name rw))
              (Dict.set "Action" (JStr "EditImage") (Dict.pop "PatchMode" d))).
Proof.
  unfold rewrite_entry.
  destruct item as [| | | | | |d]; try done.
  unfold subscript.
  destruct (Dict.get "Target" d) as [target|] eqn:Et; [|done].
  cbn [mbind result_bind].
  destruct target as [| | | |target| |]; try done.
  cbn [as_str mbind result_bind].
  destruct (is_portrait_target (PurePath.parse target)) eqn:Ep; [|done].
  cbn [negb].
  destruct (Dict.get "FromFile" d) as [from_file|] eqn:Ef; [|done].
  cbn [mbind result_bind].
  destruct from_file as [| | | |from_file| |]; try done.
  cbn [as_str mbind result_bind].
  destruct (_get_variant_metadata_file _ _ _) as [metadata_file|] eqn:Em; [|done].
  cbn [mbind result_bind].
  destruct (PurePath.relative_to metadata_file content_patch_dir)
    as [metadata_rel|] eqn:Er1; [|done].
  cbn [mbind result_bind].
  destruct (PurePath.relative_to
              (PurePath.join content_patch_dir (PurePath.parse from_file))
              content_patch_dir)
    as [portrait_rel|] eqn:Er2; [|done].
  cbn [mbind result_bind mret result_ret].
  intros [= <-]. exists d, target, from_file, metadata_rel. by repeat split.
Qed.

End EntryFacts.

(** C3, as the code has it.  The test is on the stem of the parent
    segment of the target.  An entry whose target does not pass it goes
    through its iteration with the whole state unchanged, file system
    included; at the end of the loop the entry is still in the list,
    unchanged, and no sidecar of the run was written for it. *)
Theorem non_portrait_entry_untouched
    (resolve : path -> path) (glob : fsys -> path -> string -> result (list path))
    (content_patch_dir : path) (copy_dir : option path)
    (hd_portraits hd_portraits_patch : path)
    (items : list json) (fs : fsys) (st : state)
    (i : nat) (item : json) (target : string) :
  patch_changes resolve glob content_patch_dir copy_dir
    hd_portraits hd_portraits_patch items fs = Ok st ->
  items !! i = Some item ->
  subscript item "Target" = Ok (JStr target) ->
  PurePath.stem (PurePath.parent (PurePath.parse target)) <> "Portraits"%string ->
  (forall st0 index,
     deref (heap st0) i = item ->
     step resolve glob content_patch_dir copy_dir
       hd_portraits hd_portraits_patch st0 (index, i) = Ok st0)
  /\ i ∈ changes st
  /\ deref (heap st) i = item
  /\ item ∈ changes_of st
  /\ forall w, w ∈ written st -> sw_index w <> i.
Proof.
  intros Hrun Hitem Htarget Hstem.
  assert (Hskip : rewrite_entry content_patch_dir hd_portraits
                    hd_portraits_patch item = Ok None).
  { apply (rewrite_entry_skip _ _ _ _ target); [done|].
    unfold is_portrait_target. by apply string_eqb_false. }
  apply patch_changes_inv in Hrun as (Hlen & Hheap & Hch & _ & Hfr).
  assert (Hi : i < length items) by (by apply lookup_lt_Some in Hitem).
  assert (Hd : deref (heap st) i = item).
  { apply deref_lookup, Hheap; [done|by right]. }
  split; [|split; [by apply Hch|split; [done|split]]].
  - intros st0 index H0. unfold step. by rewrite H0, Hskip.
  - unfold changes_of. rewrite <- Hd. apply list_elem_of_fmap_2. by apply Hch.
  - destruct Hfr as (ws & Hws & HQ & _). simpl in Hws. subst ws.
    intros w Hw Hidx.
    rewrite Forall_forall in HQ.
    destruct (HQ w Hw) as (item' & rw & Hitem' & Hrw & _).
    rewrite Hidx, Hitem in Hitem'. injection Hitem' as <-. congruence.
Qed.

Lemma non_portrait_entry_untouched_witness :
  let items := [Example.other_entry "Data/Events";
                Example.portrait_entry "Portraits/Abigail" "assets/Abigail.png"] in
  Example.other_entry "Data/Events"
  ∈ changes_of (Example.final items (Example.mod_files items)).
Proof.
  intros items.
  apply (non_portrait_entry_untouched
           Platform.resolve Platform.glob Example.mod_dir None
           Example.hd_portraits Example.hd_portraits_patch
           items (Example.mod_files items)
           (Example.final items (Example.mod_files items))
           0 (Example.other_entry "Data/Events") "Data/Events").
  - vm_cast_no_check (eq_refl (Ok (Example.final items (Example.mod_files items)))).
  - reflexivity.
  - reflexivity.
  - vm_compute. discriminate.
Defined.

(** C3 as stated fails for a target whose parent segment is not
    ["Portraits"] but has that stem: the entry is rewritten and a
    sidecar is written for it. *)
Lemma non_portrait_by_name_rewritten :
  let item := Example.portrait_entry "Portraits.v2/Abigail" "assets/Abigail.png" in
  let r := Example.loop [item] (Example.mod_files [item]) in
  PurePath.name (PurePath.parent (PurePath.parse "Portraits.v2/Abigail"))
  = "Portraits.v2"%string
  /\ Example.changes_after r
     = Some [JObj [("Action", JStr "EditImage");
                   ("Target", JStr "Mods/HDPortraitsPatch/Abigail");
                   ("FromFile", JStr "assets/Abigail.png")];
             JObj [("Action", JStr "Load");
                   ("Target", JStr "Mods/HDPortraits/Abigail");
                   ("FromFile", JStr "assets/Abigail.json")]]
  /\ option_map (map sw_index) (Example.writes_after r) = Some [0]
  /\ ~ (forall st, r = Ok st -> item ∈ changes_of st).
Proof.
  cbv zeta. split; [reflexivity|].
  match goal with
  | |- ?A /\ _ => assert (Hc : A) by (vm_compute; reflexivity)
  end.
  split; [exact Hc|]. split; [vm_compute; reflexivity|].
  intros H.
  destruct (Example.loop _ _) as [st|e]; [|discriminate Hc].
  specialize (H st eq_refl).
  cbn [Example.changes_after] in Hc. injection Hc as Hc. rewrite Hc in H.
  apply elem_of_cons in H as [H|H]; [discriminate H|].
  apply elem_of_cons in H as [H|H]; [discriminate H|].
  by apply elem_of_nil in H.
Qed.

(** ** The size and the portrait of a sidecar *)

(** [int] of a finite float is the float rounded toward zero. *)
Lemma int_of_finite_float (s : bool) (m : positive) (e : Z) :
  exists q : Z,
    PyInt.int (JFloat (S754_finite s m e)) = Ok (if s then (- q)%Z else q)
    /\ (0 <= e -> q = Z.pos m * 2 ^ e)%Z
    /\ (e < 0 -> q * 2 ^ (- e) <= Z.pos m < (q + 1) * 2 ^ (- e))%Z.
Proof.
  simpl. destruct (Z.leb_spec 0 e) as [He|He].
  - eexists. split; [reflexivity|]. split; [done|lia].
  - eexists. split; [reflexivity|]. split; [lia|]. intros _.
    rewrite Z.shiftr_div_pow2 by lia.
    assert (Hpow : (0 < 2 ^ (- e))%Z) by (apply Z.pow_pos_nonneg; lia).
    pose proof (Z.mul_div_le (Z.pos m) _ Hpow).
    pose proof (Z.mul_succ_div_gt (Z.pos m) _ Hpow). lia.
Qed.

Lemma rewrite_entry_edit_target
    (content_patch_dir hd_portraits hd_portraits_patch : path)
    (item : json) (rw : rewrite) :
  rewrite_entry content_patch_dir hd_portraits hd_portraits_patch item
  = Ok (Some rw) ->
  exists target,
    subscript item "Target" = Ok (JStr target)
    /\ rw_target_name rw
       = PurePath.as_posix
           (PurePath.join_str hd_portraits_patch
              (PurePath.stem (PurePath.parse target)))
    /\ Dict.get "Target" (rw_edit rw) = Some (JStr (rw_target_name rw))
    /\ Dict.get "Action" (rw_edit rw) = Some (JStr "EditImage").
Proof.
  intros (d & target & from_file & mrel & -> & Ht & _ & _ & _ & _ & _ & _ & _
          & Hname & _ & Hedit)%rewrite_entry_inv.
  exists target. split; [simpl; by rewrite Ht|]. split; [done|].
  rewrite Hedit. split.
  - rewrite DictFacts.get_set_ne by done. apply DictFacts.get_set_eq.
  - rewrite !DictFacts.get_set_ne by done. apply DictFacts.get_set_eq.
Qed.

(** C4, as the code has it.  When the legacy sidecar of a portrait file
    exists and holds a Scale, the metadata made for it maps [Size] to
    [int(Scale) * 64] and [Portrait] to the target name handed in;
    [int] leaves an integer as it is and rounds a float toward zero.
    In a run every sidecar is written for a portrait entry of the
    document, and the target name is the target of the EditImage entry
    made from that entry: the edit prefix joined with the stem of the
    original target. *)
Theorem sidecar_size_and_portrait :
  (forall (fs : fsys) (portrait_file pytk_file : path) (target_name : string)
          (pytk_dict scale : json) (n : Z),
     PurePath.with_suffix portrait_file ".pytk.json" = Ok pytk_file ->
     fs !! pytk_file = Some (File (Json5 pytk_dict)) ->
     subscript pytk_dict "Scale" = Ok scale ->
     PyInt.int scale = Ok n ->
     create_metadata_json fs portrait_file target_name
     = Ok (Some [("Size", JInt (n * 64)); ("Portrait", JStr target_name)]))
  /\ (forall z : Z, PyInt.int (JInt z) = Ok z)
  /\ (forall (s : bool) (m : positive) (e : Z),
        exists q : Z,
          PyInt.int (JFloat (S754_finite s m e)) = Ok (if s then (- q)%Z else q)
          /\ (0 <= e -> q = Z.pos m * 2 ^ e)%Z
          /\ (e < 0 -> q * 2 ^ (- e) <= Z.pos m < (q + 1) * 2 ^ (- e))%Z)
  /\ (forall (resolve : path -> path)
             (glob : fsys -> path -> string -> result (list path))
             (content_patch_dir : path) (copy_dir : option path)
             (hd_portraits hd_portraits_patch : path)
             (items : list json) (fs : fsys) (st : state) (w : sidecar_write),
        patch_changes resolve glob content_patch_dir copy_dir
          hd_portraits hd_portraits_patch items fs = Ok st ->
        w ∈ written st ->
        exists item rw target (n : Z),
          items !! sw_index w = Some item
          /\ rewrite_entry content_patch_dir hd_portraits hd_portraits_patch item
             = Ok (Some rw)
          /\ subscript item "Target" = Ok (JStr target)
          /\ Dict.get "Target" (rw_edit rw)
             = Some (JStr (PurePath.as_posix
                             (PurePath.join_str hd_portraits_patch
                                (PurePath.stem (PurePath.parse target)))))
          /\ sw_data w
             = [("Size", JInt (n * 64));
                ("Portrait",
                 JStr (PurePath.as_posix
                         (PurePath.join_str hd_portraits_patch
                            (PurePath.stem (PurePath.parse target)))))]).
Proof.
  split; [apply create_metadata_json_found|].
  split; [done|]. split; [apply int_of_finite_float|].
  intros resolve glob dir copy hd hdp items fs st w Hrun Hw.
  apply patch_changes_inv in Hrun as (_ & _ & _ & _ & ws & Hws & HQ & _).
  simpl in Hws. subst ws. rewrite Forall_forall in HQ.
  destruct (HQ w Hw) as (item & rw & Hitem & Hrw & _ & n & Hdata).
  destruct (rewrite_entry_edit_target _ _ _ _ _ Hrw)
    as (target & Ht & Hname & Hedit & _).
  exists item, rw, target, n. rewrite <- Hname. by repeat split.
Qed.

Lemma sidecar_size_and_portrait_witness :
  create_metadata_json (Example.mod_files [])
    (PurePath.parse "Mod/assets/Abigail.png") "Mods/HDPortraitsPatch/Abigail"
  = Ok (Some [("Size", JInt 128);
              ("Portrait", JStr "Mods/HDPortraitsPatch/Abigail")]).
Proof.
  apply (proj1 sidecar_size_and_portrait (Example.mod_files [])
           (PurePath.parse "Mod/assets/Abigail.png")
           (PurePath.parse "Mod/assets/Abigail.pytk.json")
           "Mods/HDPortraitsPatch/Abigail"
           (JObj [("Scale", JInt 2)]) (JInt 2) 2%Z).
  - reflexivity.
  - vm_cast_no_check
      (eq_refl (Some (File (Json5 (JObj [("Scale", JInt 2)]))))).
  - reflexivity.
  - reflexivity.
Defined.

(** C4 as stated fails for a Scale that is not an integer: with Scale
    [2.5] the size is [128], and [128] is not [2.5 * 64]. *)
Lemma sidecar_size_not_scaled :
  let fs := <[PurePath.parse "Mod/assets/Abigail.pytk.json"
              := Example.scale (JFloat Example.two_and_a_half)]>
              (Example.mod_files []) in
  create_metadata_json fs (PurePath.parse "Mod/assets/Abigail.png")
    "Mods/HDPortraitsPatch/Abigail"
  = Ok (Some [("Size", JInt 128);
              ("Portrait", JStr "Mods/HDPortraitsPatch/Abigail")])
  /\ option_map (PyEq.eqb (JInt 160))
       (PyNum.mul (JFloat Example.two_and_a_half) (JInt 64)) = Some true
  /\ option_map (PyEq.eqb (JInt 128))
       (PyNum.mul (JFloat Example.two_and_a_half) (JInt 64)) = Some false.
Proof. repeat split; vm_compute; reflexivity. Qed.

(** ** A portrait without a legacy sidecar *)

(** C8. When the legacy sidecar of a portrait file does not exist,
    [create_metadata_json] returns [None] without raising, and the
    iteration goes on without a write: the branch of an individual file
    and the body of the loop over the glob matches both return, with
    the file system and the list of entries as they were and nothing
    added to the writes of the run. *)
Theorem missing_legacy_sidecar_skipped
    (resolve : path -> path) (glob : fsys -> path -> string -> result (list path))
    (content_patch_dir : path) (copy_dir : option path)
    (fs : fsys) (portrait_file pytk_file : path) (target_name : string) :
  PurePath.with_suffix portrait_file ".pytk.json" = Ok pytk_file ->
  fs !! pytk_file = None ->
  create_metadata_json fs portrait_file target_name = Ok None
  /\ (forall (index : nat) (rw : rewrite) (st : state),
        files st = fs ->
        rw_portrait_file rw = portrait_file ->
        rw_target_name rw = target_name ->
        Token.search (PurePath.stem portrait_file) = false ->
        exists st',
          sidecars resolve glob content_patch_dir copy_dir index rw st = Ok st'
          /\ files st' = fs /\ written st' = written st
          /\ heap st' = heap st /\ changes st' = changes st)
  /\ (forall (index : nat) (variant : option string) (st : state),
        files st = fs ->
        is_Ok (_get_variant_metadata_file portrait_file variant VARIANT_SEPARATOR) ->
        exists st',
          glob_step resolve content_patch_dir copy_dir index variant
            target_name st portrait_file = Ok st'
          /\ files st' = fs /\ written st' = written st
          /\ heap st' = heap st /\ changes st' = changes st).
Proof.
  intros Hp Hfs.
  pose proof (create_metadata_json_missing fs _ _ target_name Hp Hfs) as Hnone.
  split; [done|]. split.
  - intros index rw st Hst Hrw Htn Hsearch. unfold sidecars.
    rewrite Hrw, Hsearch.
    destruct (FS.is_file (files st) portrait_file); [|by exists st].
    unfold individual_step. case_bool_decide; [by exists st|].
    rewrite Hst, Htn, Hnone. cbn [mbind result_bind]. by eexists.
  - intros index variant st Hst [gm Hgm]. unfold glob_step. rewrite Hgm.
    cbn [mbind result_bind].
    destruct (parsed_metadata_files st !! resolve gm); [by exists st|].
    rewrite Hst, Hnone. cbn [mbind result_bind]. by eexists.
Qed.

Lemma missing_legacy_sidecar_skipped_witness :
  create_metadata_json (Example.mod_files [])
    (PurePath.parse "Mod/assets/Penny.png") "Mods/HDPortraitsPatch/Penny"
  = Ok None.
Proof.
  apply (missing_legacy_sidecar_skipped Platform.resolve Platform.glob
           Example.mod_dir None (Example.mod_files [])
           (PurePath.parse "Mod/assets/Penny.png")
           (PurePath.parse "Mod/assets/Penny.pytk.json")).
  - reflexivity.
  - vm_cast_no_check (eq_refl (@None node)).
Defined.

(** ** Names that end in [.json] and in [.bak] *)

Lemma append_cons (a : ascii) (s t : string) :
  String.append (String a s) t = String a (String.append s t).
Proof. reflexivity. Qed.

Lemma append_nil (t : string) : String.append EmptyString t = t.
Proof. reflexivity. Qed.

Lemma append_assoc (s t u : string) :
  String.append (String.append s t) u = String.append s (String.append t u).
Proof.
  induction s as [|a s IH]; [done|]. by rewrite !append_cons, IH.
Qed.

Lemma json_name_not_bak (s t : string) :
  String.append s ".json" <> String.append t ".bak".
Proof.
  revert t. induction s as [|a s IH]; intros t H.
  - rewrite append_nil in H.
    do 6 (destruct t as [|? t];
          [rewrite ?append_nil in H; discriminate H
          |rewrite append_cons in H; try discriminate H; injection H as _ H]).
  - rewrite append_cons in H. destruct t as [|c t].
    + rewrite append_nil in H. injection H as _ H.
      do 4 (destruct s as [|? s];
            [rewrite ?append_nil in H; discriminate H
            |rewrite append_cons in H; try discriminate H; injection H as _ H]).
    + rewrite append_cons in H. injection H as _ H. by apply (IH t).
Qed.

Lemma with_name_name (p q : path) (n : string) :
  PurePath.with_name p n = Ok q ->
  PurePath.name q = n /\ root q = root p
  /\ parts q = List.removelast (parts p) ++ [n].
Proof.
  unfold PurePath.with_name.
  destruct (String.eqb (PurePath.name p) ""); [done|].
  destruct (PurePath.valid_name n); [|done].
  intros [= <-]. unfold PurePath.name. simpl. by rewrite last_snoc.
Qed.

(** The name [with_suffix] gives: the stem and the new suffix. *)
Lemma with_suffix_name (p q : path) (s : string) :
  s <> EmptyString ->
  PurePath.with_suffix p s = Ok q ->
  PurePath.name q = String.append (PurePath.stem p) s
  /\ root q = root p
  /\ parts q = List.removelast (parts p) ++ [String.append (PurePath.stem p) s].
Proof.
  intros Hs. unfold PurePath.with_suffix.
  apply string_eqb_false in Hs. rewrite Hs.
  destruct (Str.startswith s "." && (1 <? Str.len s)); [|done].
  apply with_name_name.
Qed.

Lemma json_path_not_bak (p q a b : path) :
  PurePath.with_suffix p ".json" = Ok a ->
  PurePath.with_suffix q ".bak" = Ok b ->
  a <> b.
Proof.
  intros (Ha & _)%with_suffix_name (Hb & _)%with_suffix_name; try done.
  intros <-. rewrite Ha in Hb. by apply json_name_not_bak in Hb.
Qed.

Lemma write_target_not_bak
    (file main_dir : path) (copy_dir : option path) (new_file q backup : path) :
  write_target file main_dir copy_dir = Ok new_file ->
  PurePath.with_suffix q ".bak" = Ok backup ->
  new_file <> backup.
Proof.
  unfold write_target.
  destruct copy_dir as [c|].
  - destruct (PurePath.relative_to file main_dir) as [rel|]; [|done].
    cbn [mbind result_bind mret result_ret]. apply json_path_not_bak.
  - cbn [mbind result_bind]. apply json_path_not_bak.
Qed.

(** ** The sidecar of an individual file *)

(** C9, as the code has it.  Both calls that write a sidecar pass
    [force_rewrite=True], so [_write_and_backup] renames nothing and is
    one write.  For an individual source image that exists on disk the
    sidecar phase either leaves the files alone or replaces the sidecar
    in place; the backup name of the metadata file holds afterwards what
    it held before; the file is then recorded as processed individually,
    and a later visit in the same run does nothing at all. *)
Theorem individual_sidecar_overwritten
    (resolve : path -> path) (glob : fsys -> path -> string -> result (list path))
    (content_patch_dir : path) (copy_dir : option path)
    (index : nat) (rw : rewrite) (st st' : state) :
  Token.search (PurePath.stem (rw_portrait_file rw)) = false ->
  FS.is_file (files st) (rw_portrait_file rw) = true ->
  sidecars resolve glob content_patch_dir copy_dir index rw st = Ok st' ->
  let key := resolve (rw_metadata_file rw) in
  (forall (fs fs' : fsys) (file main_dir : path) (copy : option path)
          (data : dict),
     _write_and_backup fs file data main_dir copy true = Ok fs' ->
     exists new_file,
       write_target file main_dir copy = Ok new_file
       /\ fs' = <[new_file := File (Json5 (JObj data))]> fs)
  /\ (parsed_metadata_files st !! key = Some INDIVIDUAL -> st' = st)
  /\ (parsed_metadata_files st !! key <> Some INDIVIDUAL ->
      parsed_metadata_files st' !! key = Some INDIVIDUAL
      /\ ((files st' = files st /\ written st' = written st)
          \/ exists data new_file,
               write_target (rw_metadata_file rw) content_patch_dir copy_dir
               = Ok new_file
               /\ files st'
                  = <[new_file := File (Json5 (JObj data))]> (files st)
               /\ written st'
                  = written st
                    ++ [SidecarWrite index INDIVIDUAL key
                          (rw_metadata_file rw) data]))
  /\ (forall backup,
        PurePath.with_suffix (rw_metadata_file rw) ".bak" = Ok backup ->
        files st' !! backup = files st !! backup).
Proof.
  intros Hsearch Hfile. unfold sidecars. rewrite Hsearch, Hfile.
  unfold individual_step. intros Hstep. cbv zeta.
  set (key := resolve (rw_metadata_file rw)) in *.
  split.
  { intros fs fs' file main_dir copy data H.
    apply write_and_backup_forced in H as (t & Ht & Hfs & _). by exists t. }
  case_bool_decide as Hk.
  { injection Hstep as <-. by repeat split. }
  split; [by intros ?|].
  destruct (create_metadata_json (files st) (rw_portrait_file rw)
              (rw_target_name rw)) as [[data|]|]; [| |done];
    cbn [mbind result_bind] in Hstep.
  - destruct (_write_and_backup (files st) (rw_metadata_file rw) data
                content_patch_dir copy_dir true) as [fs|] eqn:Ew; [|done].
    cbn [mbind result_bind mret result_ret] in Hstep. injection Hstep as <-.
    apply write_and_backup_forced in Ew as (t & Ht & -> & _). simpl.
    split.
    + intros _. split; [apply lookup_insert_eq|]. right. by exists data, t.
    + intros backup Hb. apply lookup_insert_ne.
      by apply (write_target_not_bak _ _ _ _ _ _ Ht Hb).
  - injection Hstep as <-. simpl. split; [|done].
    intros _. split; [apply lookup_insert_eq|]. by left.
Qed.

Lemma individual_sidecar_overwritten_witness :
  files Example.after_sidecars !! PurePath.parse "Mod/assets/Abigail.bak"
  = files Example.before_sidecars !! PurePath.parse "Mod/assets/Abigail.bak".
Proof.
  apply (individual_sidecar_overwritten Platform.resolve Platform.glob
           Example.mod_dir None 0 Example.abigail
           Example.before_sidecars Example.after_sidecars).
  - reflexivity.
  - vm_cast_no_check (eq_refl true).
  - vm_cast_no_check (eq_refl (Ok Example.after_sidecars)).
  - reflexivity.
Defined.

(** C9 as stated fails: a sidecar that was there before the run is
    replaced by the first write, and no backup of it is made. *)
Lemma sidecar_overwritten_without_backup :
  let items := [Example.portrait_entry "Portraits/Abigail" "assets/Abigail.png"] in
  let old := File (Json5 (JObj [("Size", JInt 64)])) in
  let fs := <[PurePath.parse "Mod/assets/Abigail.json" := old]>
              (Example.mod_files items) in
  fs !! PurePath.parse "Mod/assets/Abigail.json" = Some old
  /\ Example.node_after (Example.run fs) "Mod/assets/Abigail.json"
     = Some (Some (File (Json5 (JObj
         [("Size", JInt 128);
          ("Portrait", JStr "Mods/HDPortraitsPatch/Abigail")]))))
  /\ Example.node_after (Example.run fs) "Mod/assets/Abigail.bak" = Some None
  /\ option_map (map sw_how) (Example.writes_after (Example.loop items fs))
     = Some [INDIVIDUAL].
Proof. repeat split; vm_compute; reflexivity. Qed.

(** ** The glob pattern *)

Module TokenFacts.

Lemma sub_from_0_cons (repl : string) (a : ascii) (s : string) :
  Token.sub_from 0 repl (String a s)
  = match Token.match_here (String a s) with
    | Some n => String.append repl (Token.sub_from (n - 1) repl s)
    | None => String a (Token.sub_from 0 repl s)
    end.
Proof. reflexivity. Qed.

Lemma sub_from_S_cons (k : nat) (repl : string) (a : ascii) (s : string) :
  Token.sub_from (S k) repl (String a s) = Token.sub_from k repl s.
Proof. reflexivity. Qed.

Lemma search_cons (a : ascii) (s : string) :
  Token.search (String a s)
  = match Token.match_here (String a s) with
    | Some _ => true
    | None => Token.search s
    end.
Proof. reflexivity. Qed.

Lemma span_class_cons (a : ascii) (s : string) :
  Token.span_class (String a s)
  = if Token.is_token_char a
    then (S (fst (Token.span_class s)), snd (Token.span_class s))
    else (0, String a s).
Proof. simpl. destruct (Token.is_token_char a); [|done]. by destruct (Token.span_class s). Qed.

(** The run [span_class] takes off is made of class characters, and
    what follows does not start with one. *)
Lemma span_class_spec (s : string) :
  exists w,
    s = String.append w (snd (Token.span_class s))
    /\ Str.len w = fst (Token.span_class s)
    /\ Token.all_class w = true.
Proof.
  induction s as [|a s (w & Hs & Hlen & Hall)].
  - by exists EmptyString.
  - rewrite span_class_cons. destruct (Token.is_token_char a) eqn:Ea.
    + exists (String a w). simpl. rewrite append_cons, <- Hs.
      split; [done|]. split; [by rewrite <- Hlen|]. by rewrite Ea.
    + by exists EmptyString.
Qed.

Lemma span_class_app (w r : string) :
  Token.all_class w = true ->
  match r with
  | String c _ => Token.is_token_char c = false
  | EmptyString => True
  end ->
  Token.span_class (String.append w r) = (Str.len w, r).
Proof.
  intros Hw Hr. induction w as [|a w IH].
  - rewrite append_nil. destruct r as [|c r]; [done|]. simpl. by rewrite Hr.
  - simpl in Hw. apply andb_true_iff in Hw as [Ha Hw].
    rewrite append_cons, span_class_cons, Ha, (IH Hw). done.
Qed.

(** What a match at the head of [s] looks like. *)
Lemma match_here_shape (s : string) (n : nat) :
  Token.match_here s = Some n ->
  exists w rest,
    s = String "{" (String "{" (String.append w (String "}" (String "}" rest))))
    /\ Token.all_class w = true /\ w <> EmptyString /\ n = Str.len w + 4.
Proof.
  destruct s as [|a [|b s1]]; try done. unfold Token.match_here.
  destruct (Ascii.eqb a "{") eqn:Ea; [|done].
  destruct (Ascii.eqb b "{") eqn:Eb; [|done].
  apply Ascii.eqb_eq in Ea as ->, Eb as ->. cbn [andb].
  destruct (span_class_spec s1) as (w & Hs1 & Hlen & Hall).
  destruct (Token.span_class s1) as [m r]. simpl in Hs1, Hlen.
  destruct m as [|m]; [done|]. destruct r as [|c [|d rest]]; try done.
  destruct (Ascii.eqb c "}") eqn:Ec; [|done].
  destruct (Ascii.eqb d "}") eqn:Ed; [|done].
  apply Ascii.eqb_eq in Ec as ->, Ed as ->. cbn [andb]. intros [= <-].
  exists w, rest. split; [by rewrite Hs1|]. split; [done|].
  split; [by destruct w|]. by rewrite Hlen.
Qed.

Lemma match_here_intro (w rest : string) :
  Token.all_class w = true -> w <> EmptyString ->
  Token.match_here
    (String "{" (String "{" (String.append w (String "}" (String "}" rest)))))
  = Some (Str.len w + 4).
Proof.
  intros Hall Hw. unfold Token.match_here. cbn [Ascii.eqb Bool.eqb andb].
  rewrite span_class_app; [|done|done].
  destruct w as [|a w]; [done|]. done.
Qed.

Lemma all_class_no_star (w : string) :
  Token.all_class w = true -> Str.mem "*" w = false.
Proof.
  induction w as [|a w IH]; [done|]. simpl.
  intros [Ha Hw]%andb_true_iff. rewrite (IH Hw), orb_false_r.
  destruct (Ascii.eqb a "*") eqn:E; [|done].
  apply Ascii.eqb_eq in E as ->. done.
Qed.

(** A stretch at the head of the result that holds no wildcard was
    copied from the head of the argument. *)
Lemma sub_prefix (u r s : string) :
  Token.sub_from 0 "*" s = String.append u r ->
  Str.mem "*" u = false ->
  exists r', s = String.append u r'.
Proof.
  revert s. induction u as [|c u IH]; intros s H Hu; [by exists s|].
  rewrite append_cons in H. simpl in Hu.
  apply orb_false_iff in Hu as [Hc Hu].
  destruct s as [|a s]; [done|].
  rewrite sub_from_0_cons in H.
  destruct (Token.match_here (String a s)).
  - change (String.append "*" ?x) with (String "*" x) in H.
    injection H as <- _. done.
  - injection H as -> H. destruct (IH s H Hu) as [r' ->]. by exists r'.
Qed.

(** A match at the head of the result is a match at the head of the
    argument. *)
Lemma match_here_sub (a : ascii) (s : string) (n : nat) :
  Token.match_here (String a (Token.sub_from 0 "*" s)) = Some n ->
  Token.match_here (String a s) = Some n.
Proof.
  intros (w & rest & H & Hall & Hw & ->)%match_here_shape.
  injection H as -> H.
  destruct (sub_prefix (String "{" (String.append w "}}")) rest s) as [r' ->].
  - rewrite H, append_cons, append_assoc. done.
  - simpl. rewrite mem_append, (all_class_no_star w Hall). done.
  - rewrite append_cons, append_assoc.
    by apply match_here_intro.
Qed.

Lemma match_here_star (s : string) : Token.match_here (String "*" s) = None.
Proof. by destruct s. Qed.

(** After the substitution no token is left. *)
Lemma search_sub_from (s : string) (skip : nat) :
  Token.search (Token.sub_from skip "*" s) = false.
Proof.
  revert skip. induction s as [|a s IH]; intros skip; [by destruct skip|].
  destruct skip as [|k]; [|by rewrite sub_from_S_cons].
  rewrite sub_from_0_cons.
  destruct (Token.match_here (String a s)) as [n|] eqn:E.
  - change (String.append "*" ?x) with (String "*" x).
    rewrite search_cons, match_here_star. apply IH.
  - rewrite search_cons.
    destruct (Token.match_here (String a (Token.sub_from 0 "*" s))) as [m|] eqn:E2.
    + apply match_here_sub in E2. congruence.
    + apply IH.
Qed.

(** Text without a token is left as it is. *)
Lemma sub_without_token (s : string) :
  Token.search s = false -> Token.sub "*" s = s.
Proof.
  unfold Token.sub. induction s as [|a s IH]; [done|].
  rewrite search_cons, sub_from_0_cons.
  destruct (Token.match_here (String a s)); [done|].
  intros H. by rewrite IH.
Qed.

End TokenFacts.

Lemma sub_from_skip (u r repl : string) :
  Token.sub_from (Str.len u) repl (String.append u r) = Token.sub_from 0 repl r.
Proof.
  induction u as [|a u IH]; [by rewrite append_nil|].
  rewrite append_cons. simpl Str.len. by rewrite TokenFacts.sub_from_S_cons.
Qed.

Lemma match_here_not_brace (a : ascii) (s : string) :
  Ascii.eqb a "{" = false -> Token.match_here (String a s) = None.
Proof. intros Ha. destruct s as [|b s]; [done|]. unfold Token.match_here. by rewrite Ha. Qed.

(** A token after text without an opening brace becomes the wildcard,
    and the substitution goes on behind it. *)
Lemma sub_token (pre w rest : string) :
  Str.mem "{" pre = false ->
  Token.all_class w = true -> w <> EmptyString ->
  Token.sub "*"
    (String.append pre
       (String "{" (String "{" (String.append w (String "}" (String "}" rest))))))
  = String.append pre (String "*" (Token.sub "*" rest)).
Proof.
  intros Hpre Hw Hne. unfold Token.sub.
  induction pre as [|a pre IH].
  - rewrite !append_nil, TokenFacts.sub_from_0_cons.
    rewrite TokenFacts.match_here_intro by done.
    change (String.append "*" ?x) with (String "*" x). f_equal.
    replace (Str.len w + 4 - 1) with (Str.len (String "{" (String.append w "}}"))).
    + change (String "{" (String.append w (String "}" (String "}" rest))))
        with (String "{" (String.append w (String.append "}}" rest))).
      rewrite <- append_assoc, <- append_cons. apply sub_from_skip.
    + simpl. rewrite len_append. simpl. lia.
  - simpl in Hpre. apply orb_false_iff in Hpre as [Ha Hpre].
    rewrite !append_cons, TokenFacts.sub_from_0_cons.
    rewrite match_here_not_brace by done. by rewrite IH.
Qed.

(** One match is one write at most, and a write is for a key the
    tracking dict did not hold. *)
Lemma glob_step_inv
    (resolve : path -> path) (content_patch_dir : path) (copy_dir : option path)
    (index : nat) (variant : option string) (target_name : string)
    (st st' : state) (globbed : path) :
  glob_step resolve content_patch_dir copy_dir index variant target_name st globbed
  = Ok st' ->
  written st' = written st
  \/ exists gm data,
       _get_variant_metadata_file globbed variant VARIANT_SEPARATOR = Ok gm
       /\ parsed_metadata_files st !! resolve gm = None
       /\ written st'
          = written st ++ [SidecarWrite index GLOBBED (resolve gm) gm data].
Proof.
  unfold glob_step.
  destruct (_get_variant_metadata_file globbed variant VARIANT_SEPARATOR)
    as [gm|]; [|done].
  cbn [mbind result_bind].
  destruct (parsed_metadata_files st !! resolve gm) eqn:Ek.
  { intros [= <-]. by left. }
  destruct (create_metadata_json (files st) globbed target_name)
    as [[data|]|]; [| |done]; cbn [mbind result_bind].
  - destruct (_write_and_backup (files st) gm data content_patch_dir copy_dir true)
      as [fs|]; [|done].
    cbn [mbind result_bind mret result_ret]. intros [= <-].
    right. by exists gm, data.
  - intros [= <-]. by left.
Qed.




(** Two tokens side by side become [**] inside a segment, a pattern
    [Path.glob] refuses: the run stops there. *)
Lemma adjacent_tokens_refused :
  glob_string_of (PurePath.parse "assets/Abigail_{{season}}{{weather}}.png")
  = "assets/Abigail_**.png"%string
  /\ Example.loop
       [Example.portrait_entry "Portraits/Abigail"
          "assets/Abigail_{{season}}{{weather}}.png"]
       (Example.mod_files [])
     = Raise ValueError.
Proof. split; vm_compute; reflexivity. Qed.

(** ** Where the EditImage entry lands *)

(** C1 at work.  [insert(2 * index, portrait_item)] counts every earlier
    entry twice, also the ones the loop skipped.  After two entries that
    are not portraits, the EditImage entry of the third goes to position
    4 of a list of 4: behind the entry that follows the portrait, not
    before the Load entry.  After one skipped entry the pair is adjacent
    but in the other order.  When no earlier entry was skipped the
    EditImage entry stands right before the Load entry. *)
Theorem edit_image_entry_misplaced :
  let skipped1 := Example.other_entry "Data/Events" in
  let skipped2 := Example.other_entry "Data/Festivals" in
  let skipped3 := Example.other_entry "Data/Mail" in
  let abigail := Example.portrait_entry "Portraits/Abigail" "assets/Abigail.png" in
  let penny := Example.portrait_entry "Portraits/Penny" "assets/Penny.png" in
  let load (who : string) :=
    JObj [("Action", JStr "Load");
          ("Target", JStr (String.append "Mods/HDPortraits/" who));
          ("FromFile",
           JStr (String.append "assets/" (String.append who ".json")))] in
  let edit (who : string) :=
    JObj [("Action", JStr "EditImage");
          ("Target", JStr (String.append "Mods/HDPortraitsPatch/" who));
          ("FromFile",
           JStr (String.append "assets/" (String.append who ".png")))] in
  let run items :=
    Example.changes_after (Example.loop items (Example.mod_files items)) in
  run [skipped1; skipped2; abigail; skipped3]
  = Some [skipped1; skipped2; load "Abigail"; skipped3; edit "Abigail"]
  /\ run [skipped1; abigail]
     = Some [skipped1; load "Abigail"; edit "Abigail"]
  /\ run [abigail; penny]
     = Some [edit "Abigail"; load "Abigail"; edit "Penny"; load "Penny"].
Proof. repeat split; vm_compute; reflexivity. Qed.

(** ** The documents and their backups *)

Lemma with_suffix_snoc (r : string) (ps : list string) (n s : string) :
  n <> EmptyString -> s <> EmptyString ->
  Str.startswith s "." && (1 <? Str.len s) = true ->
  PurePath.valid_name (String.append (PurePath.stem_of n) s) = true ->
  PurePath.with_suffix (Path r (ps ++ [n])) s
  = Ok (Path r (ps ++ [String.append (PurePath.stem_of n) s])).
Proof.
  intros Hn Hs Hdot Hvalid. unfold PurePath.with_suffix.
  apply string_eqb_false in Hs. rewrite Hs, Hdot.
  unfold PurePath.with_name, PurePath.stem, PurePath.name. simpl.
  rewrite last_snoc, removelast_snoc.
  apply string_eqb_false in Hn. by rewrite Hn, Hvalid.
Qed.

Lemma join_str_name (d : path) (n : string) :
  PurePath.parse n = Path "" [n] ->
  PurePath.join_str d n = Path (root d) (parts d ++ [n]).
Proof. intros H. unfold PurePath.join_str, PurePath.join. by rewrite H. Qed.

Lemma snoc_path_ne (r : string) (ps : list string) (a b : string) :
  a <> b -> Path r (ps ++ [a]) <> Path r (ps ++ [b]).
Proof. intros Hab [= H]. by apply app_inv_head in H as [= ?]. Qed.

Lemma rename_inv (fs fs' : fsys) (src dst : path) :
  FS.rename fs src dst = Ok fs' ->
  exists c, fs !! src = Some (File c)
            /\ fs' = <[dst := File c]> (delete src fs).
Proof.
  unfold FS.rename. destruct (fs !! src) as [[c|]|]; try done.
  destruct (fs !! dst) as [[|]|]; try done;
    destruct (FS.is_dir fs (PurePath.parent dst)); try done;
    intros [= <-]; by exists c.
Qed.

(** A write that is not forced, without a copy directory: the target
    gets the document, and when there was no backup yet the file goes to
    the backup name first. *)
Lemma write_and_backup_inv
    (fs fs' : fsys) (file main_dir b t : path) (data : dict) :
  PurePath.with_suffix file ".bak" = Ok b ->
  PurePath.with_suffix file ".json" = Ok t ->
  _write_and_backup fs file data main_dir None false = Ok fs' ->
  (FS.is_file fs b = true
   /\ fs' = <[t := File (Json5 (JObj data))]> fs)
  \/ (FS.is_file fs b = false
      /\ exists c,
           fs !! file = Some (File c)
           /\ fs' = <[t := File (Json5 (JObj data))]>
                      (<[b := File c]> (delete file fs))).
Proof.
  intros Hb Ht. unfold _write_and_backup, write_target. rewrite Hb.
  cbn [mbind result_bind orb]. rewrite Ht.
  replace (bool_decide (is_Some (@None path))) with false
    by (symmetry; apply bool_decide_eq_false; by intros [? ?]).
  cbn [orb]. destruct (FS.is_file fs b) eqn:E; cbn [negb mbind result_bind].
  - intros (-> & _)%write_inv. by left.
  - destruct (FS.rename fs file b) as [fs1|] eqn:Er; [|done].
    cbn [mbind result_bind]. intros (-> & _)%write_inv.
    apply rename_inv in Er as (c & Hc & ->). right. split; [done|]. by exists c.
Qed.

(** The file and its backup after a write that is not forced: [j] is the
    document, [b] its backup name, [file] the one of the two that
    [_get_file_or_backup] chose and that holds [orig]. *)
Lemma backup_step
    (fs fs' : fsys) (main_dir j b file : path) (orig : content) (data : dict) :
  PurePath.with_suffix j ".bak" = Ok b ->
  PurePath.with_suffix b ".bak" = Ok b ->
  PurePath.with_suffix j ".json" = Ok j ->
  PurePath.with_suffix b ".json" = Ok j ->
  j <> b ->
  file = (if FS.is_file fs b then b else j) ->
  fs !! file = Some (File orig) ->
  _write_and_backup fs file data main_dir None false = Ok fs' ->
  fs' !! j = Some (File (Json5 (JObj data)))
  /\ fs' !! b = Some (File orig)
  /\ forall q, q <> j -> q <> b -> fs' !! q = fs !! q.
Proof.
  intros Hjb Hbb Hjj Hbj Hne Hfile Horig Hw.
  destruct (FS.is_file fs b) eqn:E; subst file.
  - apply (write_and_backup_inv _ _ _ _ b j) in Hw as [[_ ->]|[E2 _]];
      [|congruence|done|done].
    split; [apply lookup_insert_eq|].
    split; [by rewrite lookup_insert_ne|].
    intros q Hq _. by rewrite lookup_insert_ne.
  - apply (write_and_backup_inv _ _ _ _ b j) in Hw as [[E2 _]|[_ (c & Hc & ->)]];
      [congruence| |done|done].
    rewrite Horig in Hc. injection Hc as <-.
    split; [apply lookup_insert_eq|].
    split; [rewrite lookup_insert_ne by done; apply lookup_insert_eq|].
    intros q Hq Hq'. rewrite !lookup_insert_ne by done.
    by apply lookup_delete_ne.
Qed.

Section DocumentFacts.

Variable resolve : path -> path.
Variable glob : fsys -> path -> string -> result (list path).
Variable copytree_dirs : fsys -> path -> path -> bool -> result fsys.
Variable content_patch_dir : path.
Variable copy_dir : option path.
Variable hd_portraits hd_portraits_patch : path.

Local Abbreviation step' :=
  (step resolve glob content_patch_dir copy_dir hd_portraits hd_portraits_patch).
Local Abbreviation doc_step' :=
  (doc_step content_patch_dir hd_portraits hd_portraits_patch).

(** The list of entries evolves as in the loop without sidecars. *)
Lemma for_each_step_doc (l : list (nat * nat)) (st st' : state) :
  for_each step' l st = Ok st' ->
  for_each doc_step' l (heap st, changes st) = Ok (heap st', changes st').
Proof.
  revert st. induction l as [|[index ref] l IH]; intros st; cbn [for_each].
  - by intros [= <-].
  - destruct (step' st (index, ref)) as [st1|] eqn:E; [|done].
    cbn [mbind result_bind]. intros H. apply IH in H.
    apply step_inv in E as [[Hnone ->]|(rw & Hrw & Hh & Hc & _)].
    + unfold doc_step. cbn [fst snd]. rewrite Hnone. by cbn [mbind result_bind].
    + unfold doc_step. cbn [fst snd]. rewrite Hrw. cbn [mbind result_bind].
      cbn [heap changes] in Hh, Hc. by rewrite <- Hh, <- Hc.
Qed.

(** The new value of [content_dict["Changes"]] depends on the loaded
    document only. *)
Lemma patch_document_doc (content_dict new_changes : json) (fs : fsys) (st : state) :
  patch_document resolve glob content_patch_dir copy_dir
    hd_portraits hd_portraits_patch content_dict fs = Ok (new_changes, st) ->
  rewrite_document content_patch_dir hd_portraits hd_portraits_patch content_dict
  = Ok new_changes.
Proof.
  unfold patch_document, rewrite_document.
  destruct (subscript content_dict "Changes") as [changes_json|]; [|done].
  cbn [mbind result_bind].
  destruct changes_json as [| | | | |items|[|? ?]]; try done.
  - destruct (patch_changes _ _ _ _ _ _ items fs) as [st1|] eqn:E; [|done].
    cbn [mbind result_bind mret result_ret]. intros [= <- <-].
    unfold patch_changes in E. apply for_each_step_doc in E.
    unfold rewrite_changes. cbn [initial_state heap changes] in E.
    rewrite E. by cbn [mbind result_bind].
  - by intros [= <- <-].
Qed.

(** The files after the loop: what no sidecar write opened is as it
    was, and what was a file still is one. *)
Lemma patch_document_files (content_dict new_changes : json) (fs : fsys) (st : state) :
  patch_document resolve glob content_patch_dir copy_dir
    hd_portraits hd_portraits_patch content_dict fs = Ok (new_changes, st) ->
  (forall q,
     (forall w, w ∈ written st ->
        write_target (sw_file w) content_patch_dir copy_dir <> Ok q) ->
     files st !! q = fs !! q)
  /\ (forall q, FS.is_file fs q = true -> FS.is_file (files st) q = true).
Proof.
  unfold patch_document.
  destruct (subscript content_dict "Changes") as [changes_json|]; [|done].
  cbn [mbind result_bind].
  destruct changes_json as [| | | | |items|[|? ?]]; try done.
  - destruct (patch_changes _ _ _ _ _ _ items fs) as [st1|] eqn:E; [|done].
    cbn [mbind result_bind mret result_ret]. intros [= _ <-].
    apply patch_changes_inv in E as (_ & _ & _ & _ & ws & Hws & _ & Hf & _ & Hm).
    simpl in Hws, Hf, Hm. subst ws. done.
  - by intros [= _ <-].
Qed.

(** The steps of a run without a copy directory. *)
Lemma content_patcher_portraits_inv (fs fs2 : fsys) (ws : list sidecar_write) :
  copy_dir = None ->
  content_patcher_portraits resolve glob copytree_dirs content_patch_dir
    copy_dir hd_portraits hd_portraits_patch fs = Ok (fs2, ws) ->
  exists content_file d new_changes st fs1 manifest_file manifest manifest_dict,
    _get_file_or_backup fs (PurePath.join_str content_patch_dir "content.json")
    = Ok content_file
    /\ fs !! content_file = Some (File (Json5 (JObj d)))
    /\ patch_document resolve glob content_patch_dir copy_dir
         hd_portraits hd_portraits_patch (JObj d) fs = Ok (new_changes, st)
    /\ ws = written st
    /\ _write_and_backup (files st) content_file
         (Dict.set "Format" (JStr "1.28.0") (Dict.set "Changes" new_changes d))
         content_patch_dir None false = Ok fs1
    /\ _get_file_or_backup fs1 (PurePath.join_str content_patch_dir "manifest.json")
       = Ok manifest_file
    /\ fs1 !! manifest_file = Some (File (Json5 manifest))
    /\ update_manifest manifest = Ok manifest_dict
    /\ _write_and_backup fs1 manifest_file manifest_dict
         content_patch_dir None false = Ok fs2.
Proof.
  intros ->. unfold content_patcher_portraits. cbn [mbind result_bind].
  destruct (_get_file_or_backup fs _) as [content_file|]; [|done].
  cbn [mbind result_bind]. unfold FS.read at 1.
  destruct (fs !! content_file) as [[[content_dict|]|]|] eqn:Ec; try done.
  cbn [mbind result_bind json5_load].
  destruct (patch_document _ _ _ _ _ _ content_dict fs) as [[new_changes st]|] eqn:Ep;
    [|done].
  cbn [mbind result_bind].
  destruct content_dict as [| | | | | |d]; try done.
  cbn [mbind result_bind].
  destruct (_write_and_backup (files st) content_file _ _ _ _) as [fs1|] eqn:Ew;
    [|done].
  cbn [mbind result_bind].
  destruct (_get_file_or_backup fs1 _) as [manifest_file|] eqn:Em; [|done].
  cbn [mbind result_bind]. unfold update_dependencies, FS.read.
  destruct (fs1 !! manifest_file) as [[[manifest|]|]|] eqn:Ef; try done.
  cbn [mbind result_bind json5_load].
  destruct (update_manifest manifest) as [manifest_dict|] eqn:Eu; [|done].
  cbn [mbind result_bind].
  destruct (_write_and_backup fs1 manifest_file manifest_dict _ _ _) as [fs2'|] eqn:Ew2;
    [|done].
  cbn [mbind result_bind mret result_ret]. intros [= <- <-].
  by exists content_file, d, new_changes, st, fs1, manifest_file, manifest,
    manifest_dict.
Qed.

End DocumentFacts.

(** The patch document, the manifest and their backup names in a mod
    directory. *)
Lemma document_paths (d : path) (n : string) :
  n = "content"%string \/ n = "manifest"%string ->
  let j := PurePath.join_str d (String.append n ".json") in
  let b := Path (root d) (parts d ++ [String.append n ".bak"]) in
  j = Path (root d) (parts d ++ [String.append n ".json"])
  /\ PurePath.with_suffix j ".bak" = Ok b
  /\ PurePath.with_suffix b ".bak" = Ok b
  /\ PurePath.with_suffix j ".json" = Ok j
  /\ PurePath.with_suffix b ".json" = Ok j
  /\ j <> b.
Proof.
  intros [-> | ->]; cbv zeta; rewrite join_str_name by reflexivity;
    (split; [reflexivity|]);
    rewrite !with_suffix_snoc by done;
    (repeat split; try reflexivity); by apply snoc_path_ne.
Qed.

Lemma get_file_or_backup_inv (fs : fsys) (j b file : path) :
  PurePath.with_suffix j ".bak" = Ok b ->
  _get_file_or_backup fs j = Ok file ->
  file = if FS.is_file fs b then b else j.
Proof.
  intros Hb. unfold _get_file_or_backup. rewrite Hb.
  cbn [mbind result_bind mret result_ret]. by intros [= <-].
Qed.

Lemma is_file_lookup (fs fs' : fsys) (p : path) :
  fs' !! p = fs !! p -> FS.is_file fs' p = FS.is_file fs p.
Proof. intros H. unfold FS.is_file. by rewrite H. Qed.

(** ** Two runs in a row *)

(** One document of a run, seen from both ends: [_get_file_or_backup]
    chose [file] in [fs], where it holds [orig]; until the write the
    file system changed by sidecar writes only, none of them to the
    chosen file; then the document was written. *)
Lemma document_step
    (fs fs_loop fs' : fsys) (main_dir j b file : path)
    (orig : content) (data : dict) :
  PurePath.with_suffix j ".bak" = Ok b ->
  PurePath.with_suffix b ".bak" = Ok b ->
  PurePath.with_suffix j ".json" = Ok j ->
  PurePath.with_suffix b ".json" = Ok j ->
  j <> b ->
  file = (if FS.is_file fs b then b else j) ->
  fs !! file = Some (File orig) ->
  fs_loop !! b = fs !! b ->
  fs_loop !! file = fs !! file ->
  _write_and_backup fs_loop file data main_dir None false = Ok fs' ->
  fs' !! j = Some (File (Json5 (JObj data)))
  /\ fs' !! b = Some (File orig)
  /\ forall q, q <> j -> q <> b -> fs' !! q = fs_loop !! q.
Proof.
  intros Hjb Hbb Hjj Hbj Hne Hfile Horig Hb Hf Hw.
  apply (backup_step fs_loop fs' main_dir j b file orig data); try done.
  - by rewrite (is_file_lookup _ _ _ Hb).
  - by rewrite Hf.
Qed.

(** ** Files that hold what they held or a sidecar *)

Lemma sidecars_only_refl (fs : fsys) : sidecars_only fs fs.
Proof. intros q. by left. Qed.

Lemma sidecars_only_trans (fs1 fs2 fs3 : fsys) :
  sidecars_only fs1 fs2 -> sidecars_only fs2 fs3 -> sidecars_only fs1 fs3.
Proof.
  intros H1 H2 q. destruct (H2 q) as [E|Hs]; [|by right].
  rewrite E. apply H1.
Qed.

Section SidecarsOnly.

Variable resolve : path -> path.
Variable glob : fsys -> path -> string -> result (list path).
Variable content_patch_dir : path.
Variable copy_dir : option path.
Variable hd_portraits hd_portraits_patch : path.

Lemma forced_write_sidecar (fs fs' : fsys) (portrait_file file : path)
    (target_name : string) (data : dict) :
  create_metadata_json fs portrait_file target_name = Ok (Some data) ->
  _write_and_backup fs file data content_patch_dir copy_dir true = Ok fs' ->
  sidecars_only fs fs'.
Proof.
  intros [n ->]%create_metadata_json_shape (t & _ & -> & _)%write_and_backup_forced.
  intros q. destruct (decide (t = q)) as [->|Hne].
  - right. exists n, target_name. by rewrite lookup_insert_eq.
  - left. by rewrite lookup_insert_ne.
Qed.

Lemma glob_step_sidecars (index : nat) (variant : option string)
    (target_name : string) (st st' : state) (globbed : path) :
  glob_step resolve content_patch_dir copy_dir index variant target_name
    st globbed = Ok st' ->
  sidecars_only (files st) (files st').
Proof.
  unfold glob_step.
  destruct (_get_variant_metadata_file globbed variant VARIANT_SEPARATOR)
    as [gm|]; [|done].
  cbn [mbind result_bind].
  destruct (parsed_metadata_files st !! resolve gm).
  { intros [= <-]. apply sidecars_only_refl. }
  destruct (create_metadata_json (files st) globbed target_name)
    as [[data|]|] eqn:E; [| |done]; cbn [mbind result_bind].
  - destruct (_write_and_backup (files st) gm data content_patch_dir copy_dir true)
      as [fs|] eqn:Ew; [|done].
    cbn [mbind result_bind mret result_ret]. intros [= <-]. cbn [files].
    exact (forced_write_sidecar _ _ _ _ _ _ E Ew).
  - intros [= <-]. apply sidecars_only_refl.
Qed.

Lemma individual_step_sidecars (index : nat) (portrait_file metadata_file : path)
    (target_name : string) (st st' : state) :
  individual_step resolve content_patch_dir copy_dir index portrait_file
    metadata_file target_name st = Ok st' ->
  sidecars_only (files st) (files st').
Proof.
  unfold individual_step. case_bool_decide.
  { intros [= <-]. apply sidecars_only_refl. }
  destruct (create_metadata_json (files st) portrait_file target_name)
    as [[data|]|] eqn:E; [| |done]; cbn [mbind result_bind].
  - destruct (_write_and_backup (files st) metadata_file data content_patch_dir
                copy_dir true) as [fs|] eqn:Ew; [|done].
    cbn [mbind result_bind mret result_ret]. intros [= <-]. cbn [files].
    exact (forced_write_sidecar _ _ _ _ _ _ E Ew).
  - intros [= <-]. apply sidecars_only_refl.
Qed.

Lemma sidecars_sidecars (index : nat) (rw : rewrite) (st st' : state) :
  sidecars resolve glob content_patch_dir copy_dir index rw st = Ok st' ->
  sidecars_only (files st) (files st').
Proof.
  unfold sidecars.
  destruct (Token.search (PurePath.stem (rw_portrait_file rw))).
  - destruct (glob (files st) content_patch_dir _) as [matches|]; [|done].
    cbn [mbind result_bind]. intros H.
    refine (for_each_rel _ (fun s s' => sidecars_only (files s) (files s'))
              _ _ _ _ _ _ H).
    + intros s. apply sidecars_only_refl.
    + intros s1 s2 s3. apply sidecars_only_trans.
    + intros s1 s2 x _. apply glob_step_sidecars.
  - destruct (FS.is_file (files st) (rw_portrait_file rw)).
    + apply individual_step_sidecars.
    + intros [= <-]. apply sidecars_only_refl.
Qed.

Lemma step_sidecars (st st' : state) (entry : nat * nat) :
  step resolve glob content_patch_dir copy_dir hd_portraits hd_portraits_patch
    st entry = Ok st' ->
  sidecars_only (files st) (files st').
Proof.
  destruct entry as [index ref]. unfold step.
  destruct (rewrite_entry _ _ _ (deref (heap st) ref)) as [[rw|]|]; [| |done];
    cbn [mbind result_bind].
  - intros H%sidecars_sidecars. exact H.
  - intros [= <-]. apply sidecars_only_refl.
Qed.

(** The files after the loop hold what they held or a sidecar. *)
Lemma patch_document_sidecars (content_dict new_changes : json)
    (fs : fsys) (st : state) :
  patch_document resolve glob content_patch_dir copy_dir
    hd_portraits hd_portraits_patch content_dict fs = Ok (new_changes, st) ->
  sidecars_only fs (files st).
Proof.
  unfold patch_document.
  destruct (subscript content_dict "Changes") as [changes_json|]; [|done].
  cbn [mbind result_bind].
  destruct changes_json as [| | | | |items|[|? ?]]; try done.
  - destruct (patch_changes _ _ _ _ _ _ items fs) as [st1|] eqn:E; [|done].
    cbn [mbind result_bind mret result_ret]. intros [= _ <-].
    unfold patch_changes in E.
    refine (for_each_rel _ (fun s s' => sidecars_only (files s) (files s'))
              _ _ _ _ _ _ E).
    + intros s. apply sidecars_only_refl.
    + intros s1 s2 s3. apply sidecars_only_trans.
    + intros s1 s2 x _. apply step_sidecars.
  - intros [= _ <-]. apply sidecars_only_refl.
Qed.

(** A sidecar is no patch document: the loop cannot start on it. *)
Lemma patch_document_of_sidecar (n : Z) (target_name : string) (fs : fsys) :
  patch_document resolve glob content_patch_dir copy_dir
    hd_portraits hd_portraits_patch
    (JObj [("Size", JInt (n * 64)); ("Portrait", JStr target_name)]) fs
  = Raise KeyError.
Proof. reflexivity. Qed.

End SidecarsOnly.




(** * More of the program *)

(** ** Splitting and joining text *)

Lemma split_no_sep (c : ascii) (s : string) :
  Str.mem c s = false -> Str.split c s = [s].
Proof.
  induction s as [|a s IH]; simpl; [done|].
  intros [Ha Hs]%orb_false_iff. rewrite Ha. by rewrite (IH Hs).
Qed.

Lemma split_sep (c : ascii) (a v : string) :
  Str.mem c a = false ->
  Str.split c (String.append a (String c v)) = a :: Str.split c v.
Proof.
  induction a as [|x a IH]; simpl.
  - intros _. by rewrite Ascii.eqb_refl.
  - intros [Hx Ha]%orb_false_iff. rewrite Hx. by rewrite (IH Ha).
Qed.

Lemma split_not_nil (c : ascii) (s : string) : Str.split c s <> [].
Proof.
  destruct s as [|a s]; simpl; [done|].
  destruct (Ascii.eqb a c); [done|]. by destruct (Str.split c s).
Qed.

Lemma join_split (c : ascii) (s : string) :
  Str.join (String c EmptyString) (Str.split c s) = s.
Proof.
  unfold Str.join. induction s as [|a s IH]; simpl; [done|].
  destruct (Ascii.eqb a c) eqn:E.
  - apply Ascii.eqb_eq in E as ->.
    pose proof (split_not_nil c s) as Hne.
    destruct (Str.split c s) as [|w ws] eqn:Es; [done|].
    simpl in *. by rewrite IH.
  - destruct (Str.split c s) as [|w ws] eqn:Es; [by destruct (split_not_nil c s)|].
    simpl in *. destruct ws; simpl in *; by rewrite <- IH.
Qed.

(** X1. The variant of a target stem is what follows its first underscore. *)
Theorem target_variant_after_first_underscore (a v : string) :
  Str.mem "_" a = false ->
  target_variant_of a = None
  /\ target_variant_of (String.append a (String "_" v))
     = if String.eqb v "" then None else Some v.
Proof.
  intros Ha. unfold target_variant_of. split.
  - by rewrite split_no_sep.
  - rewrite split_sep by done. cbn [tail]. unfold VARIANT_SEPARATOR.
    by rewrite join_split.
Qed.

Lemma target_variant_after_first_underscore_witness :
  target_variant_of "Abigail" = None
  /\ target_variant_of "Abigail_Beach_Winter" = Some "Beach_Winter"%string.
Proof.
  apply (target_variant_after_first_underscore "Abigail" "Beach_Winter").
  reflexivity.
Defined.

Lemma leading_slashes_cons (a : ascii) (s : string) :
  PurePath.leading_slashes (String a s)
  = if Ascii.eqb a "/" then S (PurePath.leading_slashes s) else 0.
Proof.
  destruct a as [[] [] [] [] [] [] [] []]; reflexivity.
Qed.

(** A valid name is a path of one part. *)
Lemma parse_valid_name (n : string) :
  PurePath.valid_name n = true -> PurePath.parse n = Path "" [n].
Proof.
  intros (Hne & Hm & Hdot)%valid_name_inv. unfold PurePath.parse.
  rewrite split_no_sep by done. cbn [List.filter].
  unfold PurePath.real_part.
  apply string_eqb_false in Hne, Hdot. rewrite Hne, Hdot. cbn [negb andb].
  f_equal. unfold PurePath.parse_root.
  destruct n as [|a n]; [done|]. rewrite leading_slashes_cons.
  simpl in Hm. apply orb_false_iff in Hm as [-> _]. done.
Qed.

Lemma join_str_valid (d : path) (n : string) :
  PurePath.valid_name n = true ->
  PurePath.join_str d n = Path (root d) (parts d ++ [n]).
Proof. intros H. by apply join_str_name, parse_valid_name. Qed.

Section CopyDir.

Variable resolve : path -> path.
Variable copytree_dirs : fsys -> path -> path -> bool -> result fsys.

(** X2. Where the copies of a mod go and how its directory tree is cloned:
    without the copy mode there is no copy directory, whatever
    [--copy_dir] says; with it the copy directory is the entry of the
    base directory named after the stem of the mod folder; and
    [_clone_dir_tree] lets [copytree] use directories that exist unless
    the name of the mod folder is among the parts of the base directory
    or has no suffix, since then the name is a part of the destination.
    Run on a single mod folder without [--copy_dir], the destination
    lies inside the mod folder and existing directories are refused. *)
Theorem clone_into_copy_dir
    (fs : fsys) (copy_dir : option path) (main_directory subdirectory : path) :
  PurePath.valid_name (PurePath.stem subdirectory) = true ->
  let base := copy_base copy_dir main_directory in
  let destination := Path (root base) (parts base ++ [PurePath.stem subdirectory]) in
  _get_copy_dir copy_dir false main_directory subdirectory = None
  /\ _get_copy_dir copy_dir true main_directory subdirectory = Some destination
  /\ _clone_dir_tree resolve copytree_dirs fs subdirectory destination
     = copytree_dirs fs (resolve subdirectory) (resolve destination)
         (negb (bool_decide (PurePath.name subdirectory ∈ parts base
                             \/ PurePath.suffix subdirectory = EmptyString)))
  /\ (copy_dir = None -> subdirectory = main_directory ->
      _clone_dir_tree resolve copytree_dirs fs subdirectory destination
      = copytree_dirs fs (resolve subdirectory) (resolve destination) false).
Proof.
  intros Hv base destination.
  assert (Hname : PurePath.name subdirectory <> EmptyString).
  { intros E. unfold PurePath.stem in Hv. by rewrite E in Hv. }
  assert (Hstem : PurePath.name subdirectory = PurePath.stem subdirectory
                  <-> PurePath.suffix subdirectory = EmptyString).
  { unfold PurePath.stem, PurePath.suffix. split.
    - unfold PurePath.stem_of, PurePath.suffix_of.
      destruct (PurePath.suffix_index (PurePath.name subdirectory)) as [i|] eqn:E;
        [|done].
      intros Hn. exfalso. unfold PurePath.suffix_index in E.
      destruct (Str.rfind "." (PurePath.name subdirectory)) as [j|]; [|done].
      destruct ((0 <? j) && (j <? Str.len (PurePath.name subdirectory) - 1)) eqn:E2;
        [|done].
      injection E as <-. apply andb_true_iff in E2 as [_ Hj%Nat.ltb_lt].
      assert (Hlen : Str.len (Str.take j (PurePath.name subdirectory)) <= j).
      { clear. generalize (PurePath.name subdirectory). induction j as [|j IH];
          intros [|a s]; simpl; try lia. specialize (IH s). unfold Str.len in *. lia. }
      rewrite <- Hn in Hlen. lia.
    - intros Hs. symmetry. by apply stem_of_no_suffix. }
  split; [done|]. split.
  { unfold _get_copy_dir. fold (copy_base copy_dir main_directory). fold base.
    by rewrite join_str_valid. }
  assert (Hdec : bool_decide (PurePath.name subdirectory ∈ parts destination)
                 = bool_decide (PurePath.name subdirectory ∈ parts base
                                \/ PurePath.suffix subdirectory = EmptyString)).
  { apply bool_decide_ext. unfold destination. cbn [parts].
    rewrite elem_of_app, list_elem_of_singleton. by rewrite Hstem. }
  split.
  { unfold _clone_dir_tree. by rewrite Hdec. }
  intros Hc Hs. unfold _clone_dir_tree. rewrite Hdec. f_equal.
  apply negb_false_iff, bool_decide_eq_true. left.
  unfold base, copy_base. rewrite Hc, Hs.
  rewrite join_str_valid by reflexivity. cbn [parts].
  apply elem_of_app. left. rewrite <- Hs.
  unfold PurePath.name in *.
  destruct (parts subdirectory) as [|x l] using rev_ind; [done|].
  rewrite last_snoc. apply elem_of_app. right. by apply list_elem_of_singleton.
Qed.

End CopyDir.

(** The keys of a [dict] after [d[k] = v] depend on the keys before. *)
Lemma keys_set {V} (k : string) (v w : V) (d e : list (string * V)) :
  map fst d = map fst e ->
  map fst (Dict.set k v d) = map fst (Dict.set k w e).
Proof.
  revert e. induction d as [|[k1 v1] d IH]; intros [|[k2 v2] e]; simpl; try done.
  intros [= <- H]. destruct (String.eqb k k1); simpl; [by rewrite H|].
  f_equal. by apply IH.
Qed.

Section EntryFields.

Variable content_patch_dir hd_portraits hd_portraits_patch : path.

(** X3. The two entries made from a portrait entry: their actions, the key
    they lose, and the fields they keep. *)
Theorem rewrite_entry_fields (d : dict) (rw : rewrite) :
  rewrite_entry content_patch_dir hd_portraits hd_portraits_patch (JObj d)
  = Ok (Some rw) ->
  Dict.get "Action" (rw_load rw) = Some (JStr "Load")
  /\ Dict.get "Action" (rw_edit rw) = Some (JStr "EditImage")
  /\ Dict.get "PatchMode" (rw_load rw) = None
  /\ Dict.get "PatchMode" (rw_edit rw) = None
  /\ Dict.get "Target" (rw_edit rw) = Some (JStr (rw_target_name rw))
  /\ Dict.get "FromFile" (rw_edit rw)
     = Some (JStr (PurePath.as_posix (rw_portrait_rel rw)))
  /\ (exists metadata_rel,
        PurePath.relative_to (rw_metadata_file rw) content_patch_dir
        = Ok metadata_rel
        /\ Dict.get "FromFile" (rw_load rw)
           = Some (JStr (PurePath.as_posix metadata_rel)))
  /\ map fst (rw_load rw) = map fst (rw_edit rw)
  /\ forall k : string,
       k <> "Action"%string -> k <> "Target"%string ->
       k <> "FromFile"%string -> k <> "PatchMode"%string ->
       Dict.get k (rw_load rw) = Dict.get k d
       /\ Dict.get k (rw_edit rw) = Dict.get k d.
Proof.
  intros (d' & target & from_file & metadata_rel & [= <-] & Ht & Hp & Hf & Hv
          & Hpf & Hm & Hmr & Hpr & Htn & Hl & He)%rewrite_entry_inv.
  rewrite Hl, He.
  repeat split.
  - rewrite !DictFacts.get_set_ne by done. apply DictFacts.get_set_eq.
  - rewrite !DictFacts.get_set_ne by done. apply DictFacts.get_set_eq.
  - rewrite !DictFacts.get_set_ne by done. apply DictFacts.get_pop_eq.
  - rewrite !DictFacts.get_set_ne by done. apply DictFacts.get_pop_eq.
  - rewrite DictFacts.get_set_ne by done. apply DictFacts.get_set_eq.
  - apply DictFacts.get_set_eq.
  - exists metadata_rel. split; [done|]. apply DictFacts.get_set_eq.
  - by do 3 apply keys_set.
  - rewrite !DictFacts.get_set_ne by done. by apply DictFacts.get_pop_ne.
  - rewrite !DictFacts.get_set_ne by done. by apply DictFacts.get_pop_ne.
Qed.

End EntryFields.

Lemma strip_prefix_app (l r : list string) :
  PurePath.strip_prefix l (l ++ r) = Some r.
Proof. induction l as [|x l IH]; simpl; [done|]. by rewrite String.eqb_refl. Qed.

Lemma strip_prefix_inv (l m r : list string) :
  PurePath.strip_prefix l m = Some r -> m = l ++ r.
Proof.
  revert m. induction l as [|x l IH]; intros m; simpl; [by intros [= ->]|].
  destruct m as [|y m]; [done|].
  destruct (String.eqb x y) eqn:E; [|done].
  apply string_eqb_true in E as ->. intros H. by rewrite (IH _ H).
Qed.

(** [(d / q).relative_to(d)] for a relative [q] is [q]. *)
Lemma relative_to_join (d q : path) :
  root q = EmptyString ->
  PurePath.relative_to (PurePath.join d q) d = Ok q.
Proof.
  intros Hq. unfold PurePath.join, PurePath.relative_to. rewrite Hq. simpl.
  rewrite String.eqb_refl, strip_prefix_app. destruct q. simpl in *. by subst.
Qed.

Lemma relative_to_inv (p d rel : path) :
  PurePath.relative_to p d = Ok rel ->
  root rel = EmptyString /\ p = Path (root d) (parts d ++ parts rel).
Proof.
  unfold PurePath.relative_to.
  destruct (String.eqb (root p) (root d)) eqn:E; [|done].
  apply string_eqb_true in E.
  destruct (PurePath.strip_prefix (parts d) (parts p)) as [rest|] eqn:Es; [|done].
  intros [= <-]. split; [done|]. apply strip_prefix_inv in Es.
  destruct p. simpl in *. by subst.
Qed.

Lemma last_app_ne {A} (l m : list A) (x : A) :
  m <> [] -> List.last (l ++ m) x = List.last m x.
Proof.
  intros Hm. destruct m as [|y m] using rev_ind; [done|].
  by rewrite app_assoc, !last_snoc.
Qed.

Lemma removelast_app_ne {A} (l m : list A) :
  m <> [] -> List.removelast (l ++ m) = l ++ List.removelast m.
Proof. apply List.removelast_app. Qed.

Section EntryRelative.

Variable content_patch_dir hd_portraits hd_portraits_patch : path.

(** X4. A portrait entry with a relative [FromFile] is rewritten, and the
    paths it is rewritten with are these. *)
Theorem rewrite_entry_relative (d : dict) (target from_file : string) :
  let rel := PurePath.parse from_file in
  let variant := target_variant_of (PurePath.stem (PurePath.parse target)) in
  let new_name := variant_name (PurePath.stem rel) variant "_" in
  let metadata_rel :=
    Path "" (List.removelast (parts rel)
             ++ [String.append (PurePath.stem_of new_name) ".json"]) in
  Dict.get "Target" d = Some (JStr target) ->
  is_portrait_target (PurePath.parse target) = true ->
  Dict.get "FromFile" d = Some (JStr from_file) ->
  root rel = EmptyString ->
  PurePath.name rel <> EmptyString ->
  PurePath.valid_name new_name = true ->
  exists rw,
    rewrite_entry content_patch_dir hd_portraits hd_portraits_patch (JObj d)
    = Ok (Some rw)
    /\ rw_variant rw = variant
    /\ rw_portrait_file rw = PurePath.join content_patch_dir rel
    /\ rw_portrait_rel rw = rel
    /\ rw_metadata_file rw = PurePath.join content_patch_dir metadata_rel
    /\ Dict.get "FromFile" (rw_edit rw) = Some (JStr (PurePath.as_posix rel))
    /\ Dict.get "FromFile" (rw_load rw)
       = Some (JStr (PurePath.as_posix metadata_rel)).
Proof.
  intros rel variant new_name metadata_rel Ht Hp Hf Hroot Hname Hvalid.
  assert (Hparts : parts rel <> []).
  { intros E. apply Hname. unfold PurePath.name. by rewrite E. }
  set (pf := PurePath.join content_patch_dir rel).
  assert (Hpf : pf = Path (root content_patch_dir)
                       (parts content_patch_dir ++ parts rel)).
  { unfold pf, PurePath.join. by rewrite Hroot. }
  assert (Hpn : PurePath.name pf = PurePath.name rel).
  { rewrite Hpf. unfold PurePath.name. simpl. by apply last_app_ne. }
  assert (Hm : _get_variant_metadata_file pf variant "_"
               = Ok (PurePath.join content_patch_dir metadata_rel)).
  { rewrite get_variant_metadata_file_ok.
    - unfold PurePath.stem. rewrite Hpn. fold (PurePath.stem rel). fold new_name.
      rewrite Hpf. simpl. rewrite removelast_app_ne by done.
      unfold PurePath.join, metadata_rel. simpl. by rewrite app_assoc.
    - by rewrite Hpn.
    - unfold PurePath.stem. by rewrite Hpn. }
  unfold rewrite_entry, subscript. rewrite Ht.
  cbn [mbind result_bind as_str]. rewrite Hp. cbn [negb]. rewrite Hf.
  cbn [mbind result_bind as_str]. fold rel. fold pf. fold variant.
  unfold VARIANT_SEPARATOR. rewrite Hm. cbn [mbind result_bind].
  rewrite relative_to_join by done. cbn [mbind result_bind].
  unfold pf. rewrite relative_to_join by done.
  cbn [mbind result_bind mret result_ret].
  eexists. split; [reflexivity|]. cbn [rw_variant rw_portrait_file rw_portrait_rel
    rw_metadata_file rw_edit rw_load].
  repeat split; apply DictFacts.get_set_eq.
Qed.

End EntryRelative.

Section RunEntries.

Variable resolve : path -> path.
Variable glob : fsys -> path -> string -> result (list path).
Variable content_patch_dir : path.
Variable copy_dir : option path.
Variable hd_portraits hd_portraits_patch : path.

Local Abbreviation step' :=
  (step resolve glob content_patch_dir copy_dir hd_portraits hd_portraits_patch).
Local Abbreviation rewrite_entry' :=
  (rewrite_entry content_patch_dir hd_portraits hd_portraits_patch).
Local Abbreviation inv' :=
  (loop_inv content_patch_dir copy_dir hd_portraits hd_portraits_patch).

Lemma rewrite_entry_readable (item : json) :
  is_Ok (rewrite_entry' item) -> entry_readable item.
Proof.
  intros [r Hr]. revert Hr. unfold rewrite_entry.
  destruct item as [| | | | | |d]; try done.
  unfold subscript.
  destruct (Dict.get "Target" d) as [target|] eqn:Et; [|done].
  cbn [mbind result_bind].
  destruct target as [| | | |target| |]; try done.
  cbn [as_str mbind result_bind].
  destruct (is_portrait_target (PurePath.parse target)) eqn:Ep.
  - cbn [negb].
    destruct (Dict.get "FromFile" d) as [from_file|] eqn:Ef; [|done].
    cbn [mbind result_bind].
    destruct from_file as [| | | |from_file| |]; try done.
    intros _. exists d, target. repeat split; try done. by exists from_file.
  - intros _. exists d, target. repeat split; try done. intros ?. congruence.
Qed.

(** The errors of an entry the loop cannot read. *)
Lemma rewrite_entry_unreadable (d : dict) (target : string) :
  (Dict.get "Target" d = None -> rewrite_entry' (JObj d) = Raise KeyError)
  /\ (Dict.get "Target" d = Some (JStr target) ->
      is_portrait_target (PurePath.parse target) = true ->
      Dict.get "FromFile" d = None ->
      rewrite_entry' (JObj d) = Raise KeyError).
Proof.
  split.
  - intros Ht. unfold rewrite_entry, subscript. by rewrite Ht.
  - intros Ht Hp Hf. unfold rewrite_entry, subscript. rewrite Ht.
    cbn [mbind result_bind as_str]. rewrite Hp. cbn [negb]. by rewrite Hf.
Qed.

Lemma patch_changes_entries (items : list json) (fs : fsys) (st : state) :
  patch_changes resolve glob content_patch_dir copy_dir
    hd_portraits hd_portraits_patch items fs = Ok st ->
  forall r item, items !! r = Some item -> is_Ok (rewrite_entry' item).
Proof.
  unfold patch_changes. intros H.
  apply (for_each_indexed _
           (fun k st => inv' items fs k st
                        /\ forall r item, r < k -> items !! r = Some item ->
                                          is_Ok (rewrite_entry' item))) in H.
  - destruct H as [_ H]. intros r item Hr. apply (H r); [|done].
    cbn [changes initial_state]. unfold enumerate.
    rewrite length_imap, length_seq. by apply lookup_lt_Some in Hr.
  - split; [apply loop_inv_initial|]. intros r item Hr. lia.
  - intros k x s1 s2 Hx [Hinv Hok] Hs. cbn [changes initial_state] in Hx.
    apply enumerate_seq_nth in Hx as [-> Hk].
    split; [exact (loop_inv_step resolve glob _ _ _ _ _ _ _ _ _ Hk Hinv Hs)|].
    intros r item Hr Hitem.
    destruct (decide (r = k)) as [->|Hne]; [|apply (Hok r); [lia|done]].
    destruct Hinv as (_ & Hheap & _).
    pose proof (Hheap k item Hitem (or_introl (le_n k))) as Hk_heap.
    apply step_inv in Hs as [[Hnone _]|(rw & Hrw & _)];
      rewrite (deref_lookup _ _ _ Hk_heap) in *; by eexists.
Qed.

(** X5. A run of the loop that completes has read every entry: each is an
    object with a text under ["Target"], and each portrait entry has a
    text under ["FromFile"]. *)
Theorem completed_run_read_every_entry
    (items : list json) (fs : fsys) (st : state) :
  patch_changes resolve glob content_patch_dir copy_dir
    hd_portraits hd_portraits_patch items fs = Ok st ->
  Forall entry_readable items.
Proof.
  intros H. apply Forall_lookup. intros r item Hr.
  apply rewrite_entry_readable. by apply (patch_changes_entries _ _ _ H r).
Qed.

Lemma for_each_skip {A St} (body : St -> A -> result St) (l : list A) (s : St) :
  (forall x, x ∈ l -> body s x = Ok s) -> for_each body l s = Ok s.
Proof.
  induction l as [|x l IH]; intros H; cbn [for_each]; [done|].
  rewrite H by apply list_elem_of_here. cbn [mbind result_bind].
  apply IH. intros y Hy. apply H. by apply list_elem_of_further.
Qed.

(** The loop stops with the error of the first entry that is not
    skipped and cannot be rewritten. *)
Lemma patch_changes_raises
    (pre post : list json) (item : json) (e : pyerr) (fs : fsys) :
  Forall (fun x => rewrite_entry' x = Ok None) pre ->
  rewrite_entry' item = Raise e ->
  patch_changes resolve glob content_patch_dir copy_dir
    hd_portraits hd_portraits_patch (pre ++ item :: post) fs = Raise e.
Proof.
  intros Hpre Hitem. unfold patch_changes.
  set (items := pre ++ item :: post).
  cbn [changes initial_state].
  rewrite enumerate_seq.
  assert (Hlen : length items = length pre + S (length post)).
  { unfold items. rewrite length_app. simpl. lia. }
  rewrite Hlen, seq_app, map_app, for_each_app.
  rewrite for_each_skip.
  - cbn [mbind result_bind seq map for_each plus].
    assert (H0 : step' (initial_state items fs) (length pre, length pre)
                 = Raise e).
    { unfold step. cbn [heap initial_state].
      replace (deref items (length pre)) with item; [by rewrite Hitem|].
      symmetry. apply deref_lookup. unfold items.
      rewrite lookup_app_r by lia. by rewrite Nat.sub_diag. }
    by rewrite H0.
  - intros [i j] Hx. apply list_elem_of_fmap in Hx as (r & [= -> ->] & Hr).
    apply elem_of_seq in Hr. unfold step. cbn [heap initial_state].
    destruct (lookup_lt_is_Some_2 pre r ltac:(lia)) as [x Hx].
    rewrite (deref_lookup _ _ x).
    + rewrite Forall_lookup in Hpre. by rewrite (Hpre _ _ Hx).
    + unfold items. by rewrite lookup_app_l by lia.
Qed.

(** X6. An entry without a target stops the run when the loop comes to it,
    whatever its action: [metadata_item["Target"]] is read before the
    entry is known to be a portrait. *)
Theorem entry_without_target_raises
    (pre post : list json) (d : dict) (fs : fsys) :
  Forall (fun x => rewrite_entry' x = Ok None) pre ->
  Dict.get "Target" d = None ->
  patch_changes resolve glob content_patch_dir copy_dir
    hd_portraits hd_portraits_patch (pre ++ JObj d :: post) fs = Raise KeyError.
Proof.
  intros Hpre Ht. apply patch_changes_raises; [done|].
  by apply (proj1 (rewrite_entry_unreadable d EmptyString)).
Qed.

End RunEntries.

Lemma map_deref_seq (h : list json) (n : nat) :
  n <= length h -> map (deref h) (seq 0 n) = take n h.
Proof.
  intros Hn. apply list_eq. intros i.
  rewrite list_lookup_fmap.
  destruct (decide (i < n)) as [Hi|Hi].
  - rewrite lookup_seq_lt by done. simpl.
    rewrite lookup_take_lt by done.
    destruct (lookup_lt_is_Some_2 h i ltac:(lia)) as [x Hx].
    rewrite Hx. f_equal. by apply deref_lookup.
  - rewrite lookup_seq_ge by lia. simpl.
    symmetry. apply lookup_ge_None. rewrite length_take. lia.
Qed.

Lemma py_insert_perm {A} (i : nat) (x : A) (l : list A) :
  py_insert i x l ≡ₚ x :: l.
Proof.
  unfold py_insert. rewrite <- Permutation_middle. by rewrite take_drop.
Qed.

Lemma py_insert_filter {A} (f : A -> bool) (i : nat) (x : A) (l : list A) :
  f x = false -> List.filter f (py_insert i x l) = List.filter f l.
Proof.
  intros Hx. unfold py_insert. rewrite List.filter_app. simpl. rewrite Hx.
  by rewrite <- List.filter_app, take_drop.
Qed.

Section DocLoop.

Variable content_patch_dir hd_portraits hd_portraits_patch : path.

Local Abbreviation rewrite_entry' :=
  (rewrite_entry content_patch_dir hd_portraits hd_portraits_patch).
Local Abbreviation doc_step' :=
  (doc_step content_patch_dir hd_portraits hd_portraits_patch).
Local Abbreviation load_of' :=
  (load_of content_patch_dir hd_portraits hd_portraits_patch).
Local Abbreviation edit_of' :=
  (edit_of content_patch_dir hd_portraits hd_portraits_patch).
Local Abbreviation doc_inv' :=
  (doc_inv content_patch_dir hd_portraits hd_portraits_patch).

Lemma doc_inv_length (items : list json) (k : nat) (hc : list json * list nat) :
  k <= length items -> doc_inv' items k hc -> length items <= length (fst hc).
Proof.
  intros Hk (H1 & _). apply (f_equal length) in H1.
  rewrite length_take, length_app, length_map, length_take, length_drop in H1.
  lia.
Qed.

Lemma doc_inv_lookup (items : list json) (k : nat) (hc : list json * list nat)
    (item : json) :
  doc_inv' items k hc -> items !! k = Some item -> fst hc !! k = Some item.
Proof.
  intros (H1 & _) Hitem. pose proof (lookup_lt_Some _ _ _ Hitem) as Hk.
  rewrite <- (lookup_take_lt (fst hc) (length items) k) by done. rewrite H1.
  rewrite lookup_app_r; rewrite length_map, length_take; [|lia].
  replace (k - k `min` length items) with 0 by lia.
  by rewrite lookup_drop, Nat.add_0_r.
Qed.

Lemma doc_inv_initial (items : list json) :
  doc_inv' items 0 (items, seq 0 (length items)).
Proof.
  unfold doc_inv. cbn [fst snd take map omap drop app].
  rewrite firstn_all, drop_all. repeat split; try done.
  apply forallb_filter_id. apply forallb_forall. intros r Hr%in_seq.
  apply Nat.ltb_lt. lia.
Qed.

(** One iteration: the invariant goes on, and the list of entries is as
    it was or has the new object at position [2 * k]. *)
Lemma doc_inv_step (items : list json) (k : nat) (hc hc' : list json * list nat)
    (item : json) :
  items !! k = Some item ->
  doc_inv' items k hc ->
  doc_step' hc (k, k) = Ok hc' ->
  doc_inv' items (S k) hc'
  /\ ((rewrite_entry' item = Ok None /\ hc' = hc)
      \/ exists rw,
           rewrite_entry' item = Ok (Some rw)
           /\ snd hc' = py_insert (2 * k) (length (fst hc)) (snd hc)
           /\ length (fst hc') = S (length (fst hc))).
Proof.
  intros Hitem Hinv Hstep.
  pose proof (lookup_lt_Some _ _ _ Hitem) as Hk.
  pose proof (doc_inv_length items k hc ltac:(lia) Hinv) as Hlen.
  pose proof (doc_inv_lookup _ _ _ _ Hinv Hitem) as Hheap.
  destruct Hinv as (H1 & H2 & H3 & H4).
  unfold doc_step in Hstep. rewrite (deref_lookup _ _ _ Hheap) in Hstep.
  assert (Htake : take (S k) items = take k items ++ [item])
    by (by apply take_S_r).
  assert (Hdrop : drop k items = item :: drop (S k) items)
    by (by apply drop_S).
  assert (Hload : map load_of' [item] = [load_of' item]) by done.
  assert (Hedit : omap edit_of' [item]
                  = match edit_of' item with Some e => [e] | None => [] end).
  { cbn [omap list_omap]. by destruct (edit_of' item). }
  unfold doc_inv. rewrite Htake, map_app, omap_app, Hload, Hedit.
  unfold load_of, edit_of.
  destruct (rewrite_entry' item) as [[rw|]|] eqn:E; [| |done];
    cbn [mbind result_bind] in Hstep; injection Hstep as <-.
  - split.
    + cbn [fst snd].
      split; [|split; [|split]].
      * rewrite take_app_le by (rewrite length_insert; lia).
        rewrite take_insert_lt by done. rewrite H1, Hdrop.
        rewrite insert_app_r_alt; rewrite length_map, length_take; [|lia].
        replace (k - k `min` length items) with 0 by lia.
        cbn [insert list_insert]. by rewrite <- app_assoc.
      * rewrite drop_app_le by (rewrite length_insert; lia).
        rewrite drop_insert_lt by done. by rewrite H2.
      * rewrite py_insert_perm, H3, length_app, length_insert. simpl.
        rewrite Nat.add_1_r, seq_S. simpl.
        by rewrite Permutation_cons_append.
      * rewrite py_insert_filter; [done|]. apply Nat.ltb_ge. lia.
    + right. exists rw. cbn [fst snd]. split; [done|]. split; [done|].
      rewrite length_app, length_insert. simpl. lia.
  - split; [|by left].
    rewrite app_nil_r, <- app_assoc. cbn [app]. by rewrite <- Hdrop.
Qed.

End DocLoop.

Lemma pair_refs_S (n k : nat) : pair_refs n (S k) = pair_refs n k ++ [n + k; k].
Proof. unfold pair_refs. rewrite seq_S, flat_map_app. simpl. done. Qed.

Lemma pair_refs_length (n k : nat) : length (pair_refs n k) = 2 * k.
Proof.
  induction k as [|k IH]; [done|]. rewrite pair_refs_S, length_app, IH. simpl. lia.
Qed.

Lemma py_insert_take {A} (i j : nat) (x : A) (l : list A) :
  j <= i -> j <= length l -> take j (py_insert i x l) = take j l.
Proof.
  intros Hji Hjl. unfold py_insert.
  rewrite take_app_le by (rewrite length_take; lia).
  rewrite take_take. f_equal. lia.
Qed.

Section DocRun.

Variable resolve : path -> path.
Variable glob : fsys -> path -> string -> result (list path).
Variable content_patch_dir : path.
Variable copy_dir : option path.
Variable hd_portraits hd_portraits_patch : path.

Local Abbreviation rewrite_entry' :=
  (rewrite_entry content_patch_dir hd_portraits hd_portraits_patch).
Local Abbreviation doc_step' :=
  (doc_step content_patch_dir hd_portraits hd_portraits_patch).
Local Abbreviation load_of' :=
  (load_of content_patch_dir hd_portraits hd_portraits_patch).
Local Abbreviation edit_of' :=
  (edit_of content_patch_dir hd_portraits hd_portraits_patch).
Local Abbreviation pair_of' :=
  (pair_of content_patch_dir hd_portraits hd_portraits_patch).
Local Abbreviation doc_inv' :=
  (doc_inv content_patch_dir hd_portraits hd_portraits_patch).
Local Abbreviation patch_changes' :=
  (patch_changes resolve glob content_patch_dir copy_dir
     hd_portraits hd_portraits_patch).

Lemma patch_changes_doc (items : list json) (fs : fsys) (st : state) :
  patch_changes' items fs = Ok st ->
  for_each doc_step' (enumerate (seq 0 (length items)))
    (items, seq 0 (length items)) = Ok (heap st, changes st).
Proof.
  unfold patch_changes. intros H.
  by apply (for_each_step_doc resolve glob content_patch_dir copy_dir) in H.
Qed.

Lemma doc_loop_inv (items : list json) (hc : list json * list nat) :
  for_each doc_step' (enumerate (seq 0 (length items)))
    (items, seq 0 (length items)) = Ok hc ->
  doc_inv' items (length items) hc.
Proof.
  intros H.
  apply (for_each_indexed _ (fun k hc => doc_inv' items k hc)) in H.
  - unfold enumerate in H. by rewrite length_imap, length_seq in H.
  - apply doc_inv_initial.
  - intros k x s1 s2 Hx Hinv Hs.
    apply enumerate_seq_nth in Hx as [-> Hk].
    destruct (lookup_lt_is_Some_2 items k Hk) as [item Hitem].
    by destruct (doc_inv_step _ _ _ _ _ _ _ _ Hitem Hinv Hs).
Qed.

(** X7. When the loop is over the list holds every object once: the objects
    of the loaded array, portrait entries rewritten in place, in the
    order of the loaded array, and one new entry for each portrait
    entry. *)
Theorem rewritten_changes_are_entries_and_copies
    (items : list json) (fs : fsys) (st : state) :
  patch_changes' items fs = Ok st ->
  changes_of st ≡ₚ map load_of' items ++ omap edit_of' items
  /\ length (changes_of st) = length items + length (omap edit_of' items)
  /\ map (deref (heap st))
       (List.filter (fun r => r <? length items) (changes st))
     = map load_of' items.
Proof.
  intros H%patch_changes_doc%doc_loop_inv.
  pose proof (doc_inv_length _ _ _ _ _ _ (le_n _) H) as Hlen.
  destruct H as (H1 & H2 & H3 & H4). cbn [fst snd] in *.
  rewrite firstn_all, drop_all, app_nil_r in H1.
  rewrite firstn_all in H2.
  assert (Hperm : changes_of st ≡ₚ map load_of' items ++ omap edit_of' items).
  { unfold changes_of. rewrite H3.
    rewrite map_deref_seq by done. rewrite firstn_all.
    by rewrite <- (take_drop (length items) (heap st)), H1, H2. }
  split; [done|]. split.
  - by rewrite Hperm, length_app, length_map.
  - rewrite H4. rewrite map_deref_seq by done. done.
Qed.

(** The first [m] iterations when the first [m] entries are portrait
    entries. *)
Lemma doc_loop_pairs (items : list json) (m : nat) (hc : list json * list nat) :
  m <= length items ->
  Forall (fun item => exists rw, rewrite_entry' item = Ok (Some rw))
         (take m items) ->
  for_each doc_step' (map (fun i => (i, i)) (seq 0 m))
    (items, seq 0 (length items)) = Ok hc ->
  doc_inv' items m hc
  /\ length (fst hc) = length items + m
  /\ snd hc = pair_refs (length items) m ++ seq m (length items - m).
Proof.
  intros Hm Hall H.
  apply (for_each_indexed _
           (fun k hc => k <= m ->
              doc_inv' items k hc
              /\ length (fst hc) = length items + k
              /\ snd hc = pair_refs (length items) k
                          ++ seq k (length items - k))) in H.
  - assert (Hl : length (map (fun i => (i, i)) (seq 0 m)) = m)
      by (by rewrite length_map, length_seq).
    by rewrite Hl in H.
  - intros _. split; [apply doc_inv_initial|]. cbn [fst snd pair_refs].
    split; [lia|]. simpl. by rewrite Nat.sub_0_r.
  - intros k x [h c] hc' Hx Hinv Hs.
    rewrite nth_error_map in Hx.
    destruct (nth_error (seq 0 m) k) as [i|] eqn:Ei; [|done].
    injection Hx as <-.
    assert (Hk : k < m).
    { pose proof (proj1 (nth_error_Some (seq 0 m) k)) as Hlt.
      rewrite length_seq in Hlt. apply Hlt. congruence. }
    assert (i = k) as ->.
    { apply nth_error_nth with (d := 0) in Ei. rewrite seq_nth in Ei by done.
      simpl in Ei. by subst. }
    intros _. destruct (Hinv ltac:(lia)) as (Hdoc & Hlen & Hc).
    cbn [fst snd] in Hlen, Hc.
    destruct (lookup_lt_is_Some_2 items k ltac:(lia)) as [item Hitem].
    destruct (doc_inv_step _ _ _ _ _ _ _ _ Hitem Hdoc Hs)
      as [Hdoc' [[Hnone _]|(rw & Hrw & Hc' & Hlen')]].
    + rewrite Forall_lookup in Hall.
      destruct (Hall k item) as [rw Hrw]; [|congruence].
      by rewrite lookup_take_lt.
    + split; [done|]. cbn [fst snd] in Hc', Hlen'.
      split; [lia|]. rewrite Hc', Hlen, Hc, pair_refs_S.
      unfold py_insert.
      rewrite take_app_length' by (symmetry; apply pair_refs_length).
      rewrite drop_app_length' by (symmetry; apply pair_refs_length).
      replace (length items - k) with (S (length items - S k)) by lia.
      cbn [seq]. by rewrite <- app_assoc.
  - by rewrite length_map, length_seq.
Qed.

(** The iterations after them leave the first [2 * m] places alone. *)
Lemma doc_loop_prefix (items : list json) (m : nat) (l : list nat)
    (hc hc' : list json * list nat) :
  (forall i, i ∈ l -> m <= i) ->
  for_each doc_step' (map (fun i => (i, i)) l) hc = Ok hc' ->
  2 * m <= length (snd hc) ->
  2 * m <= length (snd hc') /\ take (2 * m) (snd hc') = take (2 * m) (snd hc).
Proof.
  intros Hl H.
  refine (for_each_rel _
            (fun s s' => 2 * m <= length (snd s) ->
                         2 * m <= length (snd s')
                         /\ take (2 * m) (snd s') = take (2 * m) (snd s))
            _ _ _ _ _ _ H).
  - done.
  - intros s1 s2 s3 H12 H23 H1. destruct (H12 H1) as [H2 E12].
    destruct (H23 H2) as [H3 E23]. split; [done|congruence].
  - intros [h c] s2 [i j] Hx Hs Hc. apply in_map_iff in Hx as (r & [= -> ->] & Hr).
    apply list_elem_of_In, Hl in Hr.
    unfold doc_step in Hs. cbn [fst snd] in *.
    destruct (rewrite_entry' (deref h j)) as [[rw|]|]; [| |done];
      cbn [mbind result_bind] in Hs; injection Hs as <-; cbn [snd]; [|done].
    split.
    + unfold py_insert. rewrite length_app, length_take. simpl.
      rewrite length_drop. lia.
    + apply py_insert_take; lia.
Qed.

Lemma omap_length_all {A B} (f : A -> option B) (l : list A) :
  Forall (fun x => is_Some (f x)) l -> length (omap f l) = length l.
Proof.
  induction 1 as [|x l [y Hy] _ IH]; [done|].
  cbn [omap list_omap]. rewrite Hy. simpl. by rewrite IH.
Qed.

(** The objects behind the references of the pairs. *)
Lemma pair_refs_objects (h items : list json) (m : nat) :
  m <= length items ->
  Forall (fun item => exists rw, rewrite_entry' item = Ok (Some rw))
         (take m items) ->
  take (length items) h = map load_of' items ->
  drop (length items) h = omap edit_of' items ->
  map (deref h) (pair_refs (length items) m) = flat_map pair_of' (take m items).
Proof.
  intros Hm Hall H1 H2. induction m as [|m IH]; [done|].
  destruct (lookup_lt_is_Some_2 items m ltac:(lia)) as [item Hitem].
  rewrite (take_S_r _ _ _ Hitem) in *.
  apply Forall_app in Hall as [Hall Hitem'].
  apply Forall_singleton in Hitem' as [rw Hrw].
  rewrite pair_refs_S, map_app, flat_map_app, IH by (done || lia).
  f_equal. cbn [flat_map map app]. unfold pair_of at 1. rewrite Hrw.
  cbn [app].
  assert (Hlen : length items <= length h).
  { apply (f_equal length) in H1. rewrite length_take, length_map in H1. lia. }
  assert (Hl : length (omap edit_of' (take m items)) = m).
  { rewrite omap_length_all, length_take; [lia|].
    eapply Forall_impl; [exact Hall|]. intros x [rw' Hx].
    unfold edit_of. rewrite Hx. by eexists. }
  f_equal; [|f_equal].
  - apply deref_lookup.
    rewrite <- (lookup_drop h (length items) m), H2.
    rewrite <- (take_drop m items) at 1. rewrite omap_app.
    rewrite lookup_app_r by lia. rewrite Hl, Nat.sub_diag.
    rewrite (drop_S _ _ _ Hitem). cbn [omap list_omap].
    unfold edit_of at 1. by rewrite Hrw.
  - apply deref_lookup.
    rewrite <- (lookup_take_lt h (length items) m) by lia. rewrite H1.
    rewrite list_lookup_fmap, Hitem. simpl. unfold load_of. by rewrite Hrw.
Qed.

(** X8. Where the loop keeps the two entries of a portrait entry together:
    as long as the loaded array starts with portrait entries, the list
    starts with their pairs, the EditImage entry of each before its Load
    entry. *)
Theorem leading_portraits_become_pairs
    (items : list json) (m : nat) (fs : fsys) (st : state) :
  m <= length items ->
  Forall (fun item => exists rw, rewrite_entry' item = Ok (Some rw))
         (take m items) ->
  patch_changes' items fs = Ok st ->
  take (2 * m) (changes_of st) = flat_map pair_of' (take m items).
Proof.
  intros Hm Hall H.
  pose proof (patch_changes_doc _ _ _ H) as Hdoc.
  pose proof (doc_loop_inv _ _ Hdoc) as Hfinal.
  rewrite enumerate_seq in Hdoc.
  replace (length items) with (m + (length items - m)) in Hdoc at 1 by lia.
  rewrite seq_app, map_app, for_each_app in Hdoc.
  destruct (for_each doc_step' (map (fun i => (i, i)) (seq 0 m)) _)
    as [mid|] eqn:Emid; [|done].
  cbn [mbind result_bind] in Hdoc.
  destruct (doc_loop_pairs _ _ _ Hm Hall Emid) as (_ & Hlen & Hc).
  apply (doc_loop_prefix items m) in Hdoc.
  - destruct Hdoc as [_ Htake]. cbn [snd] in Htake.
    rewrite Hc in Htake.
    rewrite take_app_length' in Htake by (symmetry; apply pair_refs_length).
    unfold changes_of. rewrite firstn_map, Htake.
    pose proof (doc_inv_length _ _ _ _ _ _ (le_n _) Hfinal) as Hn.
    destruct Hfinal as (H1 & H2 & _). cbn [fst] in *.
    rewrite firstn_all, drop_all, app_nil_r in H1. rewrite firstn_all in H2.
    by apply pair_refs_objects.
  - intros i Hi%elem_of_seq. lia.
  - rewrite Hc, length_app, pair_refs_length, length_seq. lia.
Qed.

End DocRun.

(** ** The manifest *)

(** X9. The dependencies that are neither the HDPortraits record nor the
    Toolkit record stay as they are, in their order. *)
Theorem rewrite_dependencies_keeps_others (deps : list json) :
  List.filter other_dependency (rewrite_dependencies deps)
  = List.filter other_dependency deps.
Proof.
  rewrite rewrite_dependencies_shape.
  set (kept := match PyEq.remove PYTK_DEPENDENCY deps with
               | Some r => r
               | None => deps
               end).
  assert (Hkept : List.filter other_dependency kept
                  = List.filter other_dependency deps).
  { unfold kept. destruct (PyEq.remove PYTK_DEPENDENCY deps) as [r|] eqn:E; [|done].
    apply remove_Some in E as (l1 & z & l2 & -> & -> & Hz & _).
    assert (Hoth : other_dependency z = false).
    { unfold other_dependency. rewrite Hz. apply andb_false_r. }
    rewrite !List.filter_app. cbn [List.filter]. by rewrite Hoth. }
  destruct (PyEq.contains HD_PORTRAITS_DEPENDENCY deps); [done|].
  by rewrite List.filter_app, Hkept, app_nil_r.
Qed.

(** X10. [update_dependencies] on a manifest that is an object: it fails
    exactly when ["Dependencies"] is there and is not a list; otherwise
    the manifest keeps every other field, gets the rewritten list and the
    signature of the patcher. *)
Theorem update_dependencies_keeps_fields
    (fs : fsys) (manifest_file : path) (d : dict) :
  FS.read fs manifest_file = Ok (Json5 (JObj d)) ->
  match Dict.get "Dependencies" d with
  | Some (JArr _) | None =>
      exists md,
        update_dependencies fs manifest_file = Ok md
        /\ Dict.get "GeneratedBy" md = Some (JStr generated_by)
        /\ Dict.get "Dependencies" md
           = Some (JArr (rewrite_dependencies
                           match Dict.get "Dependencies" d with
                           | Some (JArr deps) => deps
                           | _ => []
                           end))
        /\ forall k : string,
             k <> "Dependencies"%string -> k <> "GeneratedBy"%string ->
             Dict.get k md = Dict.get k d
  | Some _ => update_dependencies fs manifest_file = Raise TypeError
  end.
Proof.
  intros Hread. unfold update_dependencies. rewrite Hread.
  cbn [mbind result_bind json5_load].
  unfold update_manifest, Dict.has. cbn [mbind result_bind].
  destruct (Dict.get "Dependencies" d) as [v|] eqn:E.
  - rewrite E.
    destruct v as [| | | | |deps|]; try done.
    cbn [mbind result_bind mret result_ret]. eexists. split; [done|].
    split; [apply DictFacts.get_set_eq|].
    split; [apply update_manifest_dependencies|].
    intros k Hk1 Hk2. by rewrite !DictFacts.get_set_ne.
  - rewrite DictFacts.get_set_eq.
    cbn [mbind result_bind mret result_ret]. eexists. split; [done|].
    split; [apply DictFacts.get_set_eq|].
    split; [apply update_manifest_dependencies|].
    intros k Hk1 Hk2. by rewrite !DictFacts.get_set_ne.
Qed.

(** ** The legacy sidecar *)

Lemma stem_of_ext (s t : string) :
  s <> EmptyString -> t <> EmptyString -> Str.mem "." t = false ->
  PurePath.stem_of (String.append s (String "." t)) = s.
Proof.
  intros Hs Ht Hm. unfold PurePath.stem_of, PurePath.suffix_index.
  rewrite (rfind_append_dot s t) by done.
  rewrite len_append.
  assert (0 < Str.len s) by (destruct s; [done|simpl; lia]).
  assert (0 < Str.len t) by (destruct t; [done|simpl; lia]).
  replace ((0 <? Str.len s)
           && (Str.len s <? Str.len s + Str.len (String "." t) - 1))
    with true.
  - apply take_append.
  - symmetry. apply andb_true_iff. split; apply Nat.ltb_lt; [lia|].
    change (Str.len (String "." t)) with (S (Str.len t)). lia.
Qed.

Lemma valid_name_ext (s t : string) :
  s <> EmptyString -> Str.mem "/" s = false -> Str.mem "/" t = false ->
  PurePath.valid_name (String.append s (String "." t)) = true.
Proof.
  intros Hs Hm Ht. unfold PurePath.valid_name.
  rewrite mem_append, Hm.
  destruct s as [|a s]; [done|].
  change (String.append (String a s) (String "." t))
    with (String a (String.append s (String "." t))).
  cbn [String.eqb Str.mem negb andb orb Ascii.eqb]. rewrite Ht.
  destruct (Ascii.eqb a "."); [|done].
  by destruct s.
Qed.

(** X11. A legacy sidecar without ["Scale"] stops the run.  When the loop
    comes to a portrait entry whose portrait file is there, without a
    token in its stem, and the file named after it with [".pytk.json"]
    holds an object without ["Scale"], the run ends with [KeyError]:
    only a sidecar that is not there is passed over. *)
Theorem legacy_sidecar_without_scale_raises
    (resolve : path -> path) (glob : fsys -> path -> string -> result (list path))
    (content_patch_dir : path) (copy_dir : option path)
    (hd_portraits hd_portraits_patch : path)
    (pre post : list json) (item : json) (rw : rewrite)
    (pytk_file : path) (pytk_dict : dict) (fs : fsys) :
  Forall (fun x =>
            rewrite_entry content_patch_dir hd_portraits hd_portraits_patch x
            = Ok None) pre ->
  rewrite_entry content_patch_dir hd_portraits hd_portraits_patch item
  = Ok (Some rw) ->
  Token.search (PurePath.stem (rw_portrait_file rw)) = false ->
  FS.is_file fs (rw_portrait_file rw) = true ->
  PurePath.with_suffix (rw_portrait_file rw) ".pytk.json" = Ok pytk_file ->
  fs !! pytk_file = Some (File (Json5 (JObj pytk_dict))) ->
  Dict.get "Scale" pytk_dict = None ->
  patch_changes resolve glob content_patch_dir copy_dir
    hd_portraits hd_portraits_patch (pre ++ item :: post) fs = Raise KeyError.
Proof.
  intros Hpre Hitem Hsearch Hfile Hpytk Hfs Hscale. unfold patch_changes.
  set (items := pre ++ item :: post).
  cbn [changes initial_state].
  rewrite enumerate_seq.
  assert (Hlen : length items = length pre + S (length post)).
  { unfold items. rewrite length_app. simpl. lia. }
  rewrite Hlen, seq_app, map_app, for_each_app.
  rewrite for_each_skip.
  - cbn [mbind result_bind seq map for_each plus].
    assert (H0 : step resolve glob content_patch_dir copy_dir
                   hd_portraits hd_portraits_patch
                   (initial_state items fs) (length pre, length pre)
                 = Raise KeyError).
    { unfold step. cbn [heap initial_state].
      replace (deref items (length pre)) with item.
      - rewrite Hitem. cbn [mbind result_bind].
        unfold sidecars. cbn [files initial_state]. rewrite Hsearch, Hfile.
        unfold individual_step. cbn [parsed_metadata_files files initial_state].
        rewrite lookup_empty.
        rewrite bool_decide_eq_false_2 by done.
        unfold create_metadata_json, FS.read. rewrite Hpytk.
        cbn [mbind result_bind]. rewrite Hfs.
        cbn [mbind result_bind json5_load]. unfold subscript.
        by rewrite Hscale.
      - symmetry. apply deref_lookup. unfold items.
        rewrite lookup_app_r by lia. by rewrite Nat.sub_diag. }
    by rewrite H0.
  - intros [i j] Hx. apply list_elem_of_fmap in Hx as (r & [= -> ->] & Hr).
    apply elem_of_seq in Hr. unfold step. cbn [heap initial_state].
    destruct (lookup_lt_is_Some_2 pre r ltac:(lia)) as [x Hx].
    rewrite (deref_lookup _ _ x).
    + rewrite Forall_lookup in Hpre. by rewrite (Hpre _ _ Hx).
    + unfold items. by rewrite lookup_app_l by lia.
Qed.

(** ** A document and its backup *)

Lemma append_ext_ne (s t u : string) :
  t <> u -> String.append s t <> String.append s u.
Proof.
  intros Htu. induction s as [|a s IH]; [done|].
  rewrite !append_cons. intros [= H]. by apply IH.
Qed.

(** A document [n.json] in a directory and its backup [n.bak]. *)
Lemma backup_paths (r : string) (ps : list string) (n : string) :
  n <> EmptyString -> Str.mem "/" n = false ->
  let j := Path r (ps ++ [String.append n ".json"]) in
  let b := Path r (ps ++ [String.append n ".bak"]) in
  PurePath.with_suffix j ".bak" = Ok b
  /\ PurePath.with_suffix b ".bak" = Ok b
  /\ PurePath.with_suffix j ".json" = Ok j
  /\ PurePath.with_suffix b ".json" = Ok j
  /\ j <> b.
Proof.
  intros Hn Hm j b.
  assert (Hj : PurePath.stem_of (String.append n ".json") = n)
    by (by apply (stem_of_ext n "json")).
  assert (Hb : PurePath.stem_of (String.append n ".bak") = n)
    by (by apply (stem_of_ext n "bak")).
  assert (Hnj : String.append n ".json" <> EmptyString) by (by destruct n).
  assert (Hnb : String.append n ".bak" <> EmptyString) by (by destruct n).
  assert (Hvj : PurePath.valid_name (String.append n ".json") = true)
    by (by apply (valid_name_ext n "json")).
  assert (Hvb : PurePath.valid_name (String.append n ".bak") = true)
    by (by apply (valid_name_ext n "bak")).
  unfold j, b.
  rewrite !with_suffix_snoc; rewrite ?Hj, ?Hb; try done.
  repeat split. apply snoc_path_ne. by apply append_ext_ne.
Qed.

(** X12. The backup of a document holds what the document held before the
    first write that was not forced: the write moves the document to the
    backup name when no backup is there, a later write finds the backup
    and leaves it alone, and [_get_file_or_backup] reads it from then
    on. *)
Theorem backup_keeps_first_original
    (fs fs1 fs2 : fsys) (main_dir : path) (r : string) (ps : list string)
    (n : string) (file1 file2 : path) (orig : content) (data1 data2 : dict) :
  let j := Path r (ps ++ [String.append n ".json"]) in
  let b := Path r (ps ++ [String.append n ".bak"]) in
  n <> EmptyString -> Str.mem "/" n = false ->
  _get_file_or_backup fs j = Ok file1 ->
  fs !! file1 = Some (File orig) ->
  _write_and_backup fs file1 data1 main_dir None false = Ok fs1 ->
  _get_file_or_backup fs1 j = Ok file2 ->
  _write_and_backup fs1 file2 data2 main_dir None false = Ok fs2 ->
  file2 = b
  /\ fs1 !! b = Some (File orig)
  /\ fs2 !! b = Some (File orig)
  /\ fs1 !! j = Some (File (Json5 (JObj data1)))
  /\ fs2 !! j = Some (File (Json5 (JObj data2)))
  /\ forall q, q <> j -> q <> b -> fs2 !! q = fs !! q.
Proof.
  intros j b Hn Hm Hg1 Horig Hw1 Hg2 Hw2.
  destruct (backup_paths r ps n Hn Hm) as (Hjb & Hbb & Hjj & Hbj & Hne).
  fold j b in Hjb, Hbb, Hjj, Hbj, Hne.
  apply (get_file_or_backup_inv _ _ b) in Hg1; [|done].
  apply (get_file_or_backup_inv _ _ b) in Hg2; [|done].
  destruct (backup_step fs fs1 main_dir j b file1 orig data1
              Hjb Hbb Hjj Hbj Hne Hg1 Horig Hw1) as (H1j & H1b & H1o).
  assert (Hisf : FS.is_file fs1 b = true) by (unfold FS.is_file; by rewrite H1b).
  rewrite Hisf in Hg2. subst file2.
  destruct (backup_step fs1 fs2 main_dir j b b orig data2
              Hjb Hbb Hjj Hbj Hne) as (H2j & H2b & H2o);
    [by rewrite Hisf|done|done|].
  repeat split; try done.
  intros q Hq1 Hq2. rewrite H2o by done. by apply H1o.
Qed.

(** ** Paths inside a directory *)

Lemma plain_app (l1 l2 : list string) : plain (l1 ++ l2) = plain l1 && plain l2.
Proof. apply forallb_app. Qed.

Lemma plain_removelast (l : list string) :
  plain l = true -> plain (List.removelast l) = true.
Proof.
  induction l as [|x l IH]; [done|].
  destruct l as [|y l]; [done|].
  change (List.removelast (x :: y :: l)) with (x :: List.removelast (y :: l)).
  change (plain (x :: y :: l)) with (negb (String.eqb x "..") && plain (y :: l)).
  change (plain (x :: List.removelast (y :: l)))
    with (negb (String.eqb x "..") && plain (List.removelast (y :: l))).
  intros [Hx H]%andb_true_iff. rewrite Hx. by apply IH.
Qed.

Lemma plain_singleton (n : string) : n <> ".."%string -> plain [n] = true.
Proof.
  intros Hn%string_eqb_false. unfold plain. simpl. by rewrite Hn.
Qed.

Lemma inside_inv (d q : path) :
  inside d q = true ->
  exists rest,
    rest <> [] /\ plain rest = true /\ q = Path (root d) (parts d ++ rest).
Proof.
  unfold inside. intros [Hr Hs]%andb_true_iff. apply string_eqb_true in Hr.
  destruct (PurePath.strip_prefix (parts d) (parts q)) as [[|x rest]|] eqn:E;
    try done.
  apply strip_prefix_inv in E. exists (x :: rest).
  split; [done|]. split; [done|].
  destruct q. simpl in *. by subst.
Qed.

Lemma inside_intro (d : path) (rest : list string) :
  rest <> [] -> plain rest = true ->
  inside d (Path (root d) (parts d ++ rest)) = true.
Proof.
  intros Hrest Hp. unfold inside. simpl.
  rewrite String.eqb_refl, strip_prefix_app. by destruct rest.
Qed.

Lemma inside_irrefl (d : path) : inside d d = false.
Proof.
  unfold inside. rewrite String.eqb_refl.
  rewrite <- (app_nil_r (parts d)) at 2. by rewrite strip_prefix_app.
Qed.

Lemma inside_trans (d e q : path) :
  inside d e = true -> inside e q = true -> inside d q = true.
Proof.
  intros (r1 & H1 & P1 & ->)%inside_inv (r2 & H2 & P2 & ->)%inside_inv. simpl.
  rewrite <- app_assoc. apply inside_intro; [by destruct r1|].
  by rewrite plain_app, P1, P2.
Qed.

Lemma inside_plain (d q : path) :
  plain (parts d) = true -> inside d q = true -> plain (parts q) = true.
Proof.
  intros Hd (rest & _ & Hrest & ->)%inside_inv. simpl.
  by rewrite plain_app, Hd, Hrest.
Qed.

Lemma inside_child (d : path) (n : string) :
  n <> ".."%string -> inside d (Path (root d) (parts d ++ [n])) = true.
Proof. intros Hn. apply inside_intro; [done|by apply plain_singleton]. Qed.

Lemma child_inv (d p : path) :
  child d p = true ->
  exists n, n <> ".."%string /\ p = Path (root d) (parts d ++ [n]).
Proof.
  unfold child.
  intros [(rest & Hne & Hp & ->)%inside_inv Hl%Nat.eqb_eq]%andb_true_iff.
  simpl in Hl. rewrite length_app in Hl.
  destruct rest as [|n [|? ?]]; simpl in Hl; try done; try lia.
  exists n. split; [|done].
  unfold plain in Hp. simpl in Hp. rewrite andb_true_r in Hp.
  apply negb_true_iff in Hp. by apply string_eqb_false in Hp.
Qed.

Lemma child_inside (d p : path) : child d p = true -> inside d p = true.
Proof. unfold child. by intros [H _]%andb_true_iff. Qed.

(** A path with the last segment of a path inside [d] replaced by a
    name. *)
Lemma inside_sibling (d p q : path) (n : string) :
  inside d p = true ->
  root q = root p -> parts q = List.removelast (parts p) ++ [n] ->
  n <> ".."%string ->
  inside d q = true.
Proof.
  intros (rest & Hrest & Hp & ->)%inside_inv Hr Hq Hn. simpl in *.
  rewrite removelast_app_ne in Hq by done.
  rewrite <- app_assoc in Hq.
  destruct q as [r ps]. simpl in *. subst.
  apply inside_intro; [by destruct (List.removelast rest)|].
  by rewrite plain_app, plain_removelast, plain_singleton.
Qed.

Lemma append_not_dots (s ext : string) :
  2 < String.length ext -> String.append s ext <> ".."%string.
Proof.
  intros H E. apply (f_equal Str.len) in E. rewrite len_append in E.
  unfold Str.len in E. simpl in E. lia.
Qed.

Lemma with_suffix_inside (d p q : path) (s : string) :
  inside d p = true -> 2 < String.length s ->
  PurePath.with_suffix p s = Ok q -> inside d q = true.
Proof.
  intros Hp Hs Hw.
  assert (Hne : s <> EmptyString) by (intros ->; simpl in Hs; lia).
  destruct (with_suffix_name _ _ _ Hne Hw) as (_ & Hr & Hparts).
  apply (inside_sibling d p q (String.append (PurePath.stem p) s) Hp Hr Hparts).
  by apply append_not_dots.
Qed.

(** The metadata file of a file inside [d] lies inside [d]: its name
    ends with [".json"]. *)
Lemma metadata_file_inside (d portrait_file metadata_file : path)
    (variant : option string) (sep : string) :
  inside d portrait_file = true ->
  _get_variant_metadata_file portrait_file variant sep = Ok metadata_file ->
  inside d metadata_file = true.
Proof.
  intros Hp. unfold _get_variant_metadata_file.
  destruct (PurePath.with_name portrait_file _) as [p1|] eqn:E; [|done].
  cbn [mbind result_bind]. intros Hw.
  apply with_name_name in E as (_ & Hr1 & Hp1).
  assert (Hne : ".json"%string <> EmptyString) by done.
  destruct (with_suffix_name _ _ _ Hne Hw) as (_ & Hr & Hparts).
  rewrite Hp1, removelast_snoc in Hparts.
  apply (inside_sibling d portrait_file metadata_file
           (String.append (PurePath.stem p1) ".json") Hp);
    [congruence|exact Hparts|].
  apply append_not_dots. simpl. lia.
Qed.

Lemma relative_inside (d p rel : path) :
  PurePath.relative_to p d = Ok rel -> p <> d ->
  plain (parts rel) = true -> inside d p = true.
Proof.
  intros (_ & ->)%relative_to_inv Hne Hp. apply inside_intro; [|done].
  intros E. apply Hne. rewrite E, app_nil_r. by destruct d.
Qed.

(** The path of a [FromFile] without [..], relative to the directory it
    was joined to. *)
Lemma join_relative_plain (d q rel : path) :
  PurePath.relative_to (PurePath.join d q) d = Ok rel ->
  plain (parts q) = true -> plain (parts rel) = true.
Proof.
  unfold PurePath.join. destruct (String.eqb (root q) "").
  - intros (_ & [= H%app_inv_head])%relative_to_inv Hq. by rewrite <- H.
  - intros (_ & H)%relative_to_inv Hq. rewrite H in Hq. simpl in Hq.
    rewrite plain_app in Hq. by apply andb_true_iff in Hq as [_ ?].
Qed.

Lemma unchanged_outside_refl (d : path) (fs : fsys) : unchanged_outside d fs fs.
Proof. by intros q. Qed.

Lemma unchanged_outside_trans (d : path) (fs1 fs2 fs3 : fsys) :
  unchanged_outside d fs1 fs2 -> unchanged_outside d fs2 fs3 ->
  unchanged_outside d fs1 fs3.
Proof. intros H1 H2 q Hp Hq. by rewrite H2, H1. Qed.

Lemma unchanged_outside_insert (d t : path) (x : node) (fs : fsys) :
  inside d t = true -> unchanged_outside d fs (<[t := x]> fs).
Proof. intros Ht q _ Hq. apply lookup_insert_ne. congruence. Qed.

Lemma unchanged_outside_delete (d t : path) (fs : fsys) :
  inside d t = true -> unchanged_outside d fs (delete t fs).
Proof. intros Ht q _ Hq. apply lookup_delete_ne. congruence. Qed.

(** The file [_write_and_backup] opens lies inside the output directory
    when the file it is called for lies inside the mod directory. *)
Lemma write_target_inside (d file t : path) (copy_dir : option path) :
  inside d file = true ->
  write_target file d copy_dir = Ok t ->
  inside (output_dir d copy_dir) t = true.
Proof.
  intros Hfile. unfold write_target. destruct copy_dir as [c|]; simpl.
  - destruct (PurePath.relative_to file d) as [rel|] eqn:E; [|done].
    cbn [mbind result_bind mret result_ret].
    intros Hw.
    apply (with_suffix_inside c (PurePath.join c rel) t ".json");
      [|simpl; lia|done].
    apply relative_to_inv in E as [Hroot E].
    apply inside_inv in Hfile as (rest & Hrest & Hplain & Hfile).
    rewrite Hfile in E. injection E as E%app_inv_head. subst rest.
    unfold PurePath.join. rewrite Hroot. simpl. by apply inside_intro.
  - intros Hw.
    apply (with_suffix_inside d file t ".json" Hfile); [simpl; lia|done].
Qed.

(** A forced write touches the file it opens and nothing else. *)
Lemma forced_write_frame (d file : path) (copy_dir : option path)
    (data : dict) (fs fs' : fsys) :
  inside d file = true ->
  _write_and_backup fs file data d copy_dir true = Ok fs' ->
  unchanged_outside (output_dir d copy_dir) fs fs'.
Proof.
  intros Hfile (t & Ht & -> & _)%write_and_backup_forced.
  apply unchanged_outside_insert. by apply (write_target_inside _ _ _ _ Hfile Ht).
Qed.

(** With a copy directory nothing is renamed either. *)
Lemma write_and_backup_copy
    (fs fs' : fsys) (file main_dir c : path) (data : dict) (force : bool) :
  _write_and_backup fs file data main_dir (Some c) force = Ok fs' ->
  exists new_file,
    write_target file main_dir (Some c) = Ok new_file
    /\ fs' = <[new_file := File (Json5 (JObj data))]> fs.
Proof.
  unfold _write_and_backup.
  destruct (PurePath.with_suffix file ".bak") as [b|]; [|done].
  cbn [mbind result_bind].
  replace (bool_decide (is_Some (Some c))) with true
    by (symmetry; by apply bool_decide_eq_true).
  rewrite orb_true_r. cbn [orb negb mbind result_bind].
  destruct (write_target file main_dir (Some c)) as [t|]; [|done].
  cbn [mbind result_bind]. intros (H1 & _)%write_inv. by exists t.
Qed.

(** A write that is not forced: in place the file, its backup name and
    the name with [".json"]; with a copy directory the file it opens. *)
Lemma write_frame (d file : path) (copy_dir : option path)
    (data : dict) (fs fs' : fsys) :
  inside d file = true ->
  _write_and_backup fs file data d copy_dir false = Ok fs' ->
  unchanged_outside (output_dir d copy_dir) fs fs'.
Proof.
  intros Hfile Hw. destruct copy_dir as [c|].
  { apply write_and_backup_copy in Hw as (t & Ht & ->).
    apply unchanged_outside_insert. by apply (write_target_inside _ _ _ _ Hfile Ht). }
  simpl.
  destruct (PurePath.with_suffix file ".bak") as [b|] eqn:Eb;
    [|by unfold _write_and_backup in Hw; rewrite Eb in Hw].
  destruct (PurePath.with_suffix file ".json") as [t|] eqn:Et.
  - assert (Hb : inside d b = true).
    { apply (with_suffix_inside d file b ".bak" Hfile); [simpl; lia|done]. }
    assert (Ht : inside d t = true).
    { apply (with_suffix_inside d file t ".json" Hfile); [simpl; lia|done]. }
    destruct (write_and_backup_inv _ _ _ _ _ _ _ Eb Et Hw)
      as [[_ Hfs]|[_ (c & _ & Hfs)]]; rewrite Hfs.
    + by apply unchanged_outside_insert.
    + apply (unchanged_outside_trans _ _ (delete file fs));
        [by apply unchanged_outside_delete|].
      apply (unchanged_outside_trans _ _ (<[b := File c]> (delete file fs)));
        by apply unchanged_outside_insert.
  - unfold _write_and_backup, write_target in Hw. rewrite Eb in Hw.
    cbn [mbind result_bind] in Hw.
    destruct (if negb _ then _ else _) in Hw; [|done].
    cbn [mbind result_bind] in Hw. by rewrite Et in Hw.
Qed.

Section Frame.

Variable resolve : path -> path.
Variable glob : fsys -> path -> string -> result (list path).
Variable copytree_dirs : fsys -> path -> path -> bool -> result fsys.
Variable content_patch_dir : path.
Variable copy_dir : option path.
Variable hd_portraits hd_portraits_patch : path.

(** What [Path.glob] lists lies inside the directory it is called on. *)
Hypothesis glob_inside :
  forall fs pattern matches p,
    glob fs content_patch_dir pattern = Ok matches ->
    p ∈ matches -> inside content_patch_dir p = true.

(** The mod directory is named without [..], and it is not inside the
    directory the run writes to. *)
Hypothesis dir_plain : plain (parts content_patch_dir) = true.
Hypothesis output_apart :
  inside (output_dir content_patch_dir copy_dir) content_patch_dir = false.

Local Abbreviation frame' :=
  (unchanged_outside (output_dir content_patch_dir copy_dir)).

Lemma glob_step_frame (index : nat) (variant : option string)
    (target_name : string) (st st' : state) (globbed : path) :
  inside content_patch_dir globbed = true ->
  glob_step resolve content_patch_dir copy_dir index variant target_name
    st globbed = Ok st' ->
  frame' (files st) (files st').
Proof.
  intros Hg. unfold glob_step.
  destruct (_get_variant_metadata_file globbed variant VARIANT_SEPARATOR)
    as [gm|] eqn:Em; [|done].
  cbn [mbind result_bind].
  destruct (parsed_metadata_files st !! resolve gm).
  { intros [= <-]. apply unchanged_outside_refl. }
  destruct (create_metadata_json (files st) globbed target_name)
    as [[data|]|]; [| |done]; cbn [mbind result_bind].
  - destruct (_write_and_backup (files st) gm data content_patch_dir copy_dir true)
      as [fs|] eqn:Ew; [|done].
    cbn [mbind result_bind mret result_ret]. intros [= <-]. cbn [files].
    apply (forced_write_frame _ gm _ data); [|done].
    by apply (metadata_file_inside _ _ _ _ _ Hg Em).
  - intros [= <-]. apply unchanged_outside_refl.
Qed.

Lemma individual_step_frame (index : nat) (portrait_file metadata_file : path)
    (target_name : string) (st st' : state) :
  inside content_patch_dir metadata_file = true ->
  individual_step resolve content_patch_dir copy_dir index portrait_file
    metadata_file target_name st = Ok st' ->
  frame' (files st) (files st').
Proof.
  intros Hm. unfold individual_step. case_bool_decide.
  { intros [= <-]. apply unchanged_outside_refl. }
  destruct (create_metadata_json (files st) portrait_file target_name)
    as [[data|]|]; [| |done]; cbn [mbind result_bind].
  - destruct (_write_and_backup (files st) metadata_file data content_patch_dir
                copy_dir true) as [fs|] eqn:Ew; [|done].
    cbn [mbind result_bind mret result_ret]. intros [= <-]. cbn [files].
    by apply (forced_write_frame _ metadata_file _ data).
  - intros [= <-]. apply unchanged_outside_refl.
Qed.

Lemma sidecars_frame (index : nat) (rw : rewrite) (rel : path) (st st' : state) :
  files st !! content_patch_dir = Some Dir ->
  PurePath.relative_to (rw_portrait_file rw) content_patch_dir = Ok rel ->
  plain (parts rel) = true ->
  _get_variant_metadata_file (rw_portrait_file rw) (rw_variant rw) "_"
  = Ok (rw_metadata_file rw) ->
  sidecars resolve glob content_patch_dir copy_dir index rw st = Ok st' ->
  frame' (files st) (files st').
Proof.
  intros Hdir Hrel Hplain Hm. unfold sidecars.
  destruct (Token.search (PurePath.stem (rw_portrait_file rw))).
  - destruct (glob (files st) content_patch_dir _) as [l|] eqn:Eg; [|done].
    cbn [mbind result_bind].
    assert (Hl : forall p, In p l -> inside content_patch_dir p = true).
    { intros p Hp%list_elem_of_In. by apply (glob_inside _ _ _ _ Eg). }
    intros H.
    refine (for_each_rel _ (fun s s' => frame' (files s) (files s'))
              _ _ _ _ _ _ H).
    + intros s. apply unchanged_outside_refl.
    + intros s1 s2 s3. apply unchanged_outside_trans.
    + intros s1 s2 x Hx. apply glob_step_frame. by apply Hl.
  - destruct (FS.is_file (files st) (rw_portrait_file rw)) eqn:Ef.
    + apply individual_step_frame.
      assert (Hne : rw_portrait_file rw <> content_patch_dir).
      { intros E. unfold FS.is_file in Ef. by rewrite E, Hdir in Ef. }
      apply (metadata_file_inside _ _ _ _ _
               (relative_inside _ _ _ Hrel Hne Hplain) Hm).
    + intros [= <-]. apply unchanged_outside_refl.
Qed.

Lemma step_frame (fs : fsys) (st st' : state) (index ref : nat) :
  fs !! content_patch_dir = Some Dir ->
  plain_entry (deref (heap st) ref) = true ->
  step resolve glob content_patch_dir copy_dir hd_portraits hd_portraits_patch
    st (index, ref) = Ok st' ->
  frame' fs (files st) -> frame' fs (files st').
Proof.
  intros Hdir Hplain Hstep Hfr. unfold step in Hstep.
  destruct (rewrite_entry _ _ _ (deref (heap st) ref)) as [[rw|]|] eqn:E;
    [| |done]; cbn [mbind result_bind] in Hstep.
  - apply rewrite_entry_inv in E
      as (d & t & f & mrel & Hitem & _ & _ & Hf & _ & Hpf & Hm & _ & Hrel & _).
    apply (unchanged_outside_trans _ _ (files st)); [done|].
    assert (Hdir' : files st !! content_patch_dir = Some Dir)
      by (by rewrite Hfr).
    rewrite Hitem in Hplain. cbn [plain_entry] in Hplain. rewrite Hf in Hplain.
    assert (Hprel : plain (parts (rw_portrait_rel rw)) = true).
    { apply (join_relative_plain content_patch_dir (PurePath.parse f));
        [by rewrite <- Hpf|done]. }
    by apply (sidecars_frame _ _ (rw_portrait_rel rw)) in Hstep.
  - by injection Hstep as <-.
Qed.

Lemma patch_changes_frame (items : list json) (fs : fsys) (st : state) :
  fs !! content_patch_dir = Some Dir ->
  forallb plain_entry items = true ->
  patch_changes resolve glob content_patch_dir copy_dir
    hd_portraits hd_portraits_patch items fs = Ok st ->
  frame' fs (files st).
Proof.
  intros Hdir Hplain H. unfold patch_changes in H.
  apply (for_each_indexed _
           (fun k st =>
              loop_inv content_patch_dir copy_dir hd_portraits
                hd_portraits_patch items fs k st
              /\ frame' fs (files st))) in H.
  - by destruct H.
  - split; [apply loop_inv_initial|apply unchanged_outside_refl].
  - intros k x s1 s2 Hx [Hinv Hfr] Hs. cbn [changes initial_state] in Hx.
    apply enumerate_seq_nth in Hx as [-> Hk].
    split; [exact (loop_inv_step resolve glob _ _ _ _ _ _ _ _ _ Hk Hinv Hs)|].
    destruct (lookup_lt_is_Some_2 items k Hk) as [item Hitem].
    destruct Hinv as (_ & Hheap & _).
    pose proof (Hheap k item Hitem (or_introl (le_n k))) as Hk_heap.
    apply (step_frame fs s1 s2 k k); try done.
    rewrite (deref_lookup _ _ _ Hk_heap).
    rewrite forallb_forall in Hplain. apply Hplain.
    apply list_elem_of_In. by apply (list_elem_of_lookup_2 _ k).
Qed.

Lemma patch_document_frame (content_dict new_changes : json)
    (fs : fsys) (st : state) :
  fs !! content_patch_dir = Some Dir ->
  plain_document content_dict = true ->
  patch_document resolve glob content_patch_dir copy_dir
    hd_portraits hd_portraits_patch content_dict fs = Ok (new_changes, st) ->
  frame' fs (files st).
Proof.
  intros Hdir Hplain. unfold patch_document.
  destruct content_dict as [| | | | | |d]; try done.
  unfold subscript. cbn [plain_document] in Hplain.
  destruct (Dict.get "Changes" d) as [changes_json|]; [|done].
  cbn [mbind result_bind].
  destruct changes_json as [| | | | |items|[|? ?]]; try done.
  - destruct (patch_changes _ _ _ _ _ _ items fs) as [st1|] eqn:E; [|done].
    cbn [mbind result_bind mret result_ret]. intros [= _ <-].
    by apply (patch_changes_frame items).
  - intros [= _ <-]. apply unchanged_outside_refl.
Qed.

(** The steps of a run, with or without a copy directory. *)
Lemma content_patcher_portraits_steps (fs fs2 : fsys) (ws : list sidecar_write) :
  content_patcher_portraits resolve glob copytree_dirs content_patch_dir
    copy_dir hd_portraits hd_portraits_patch fs = Ok (fs2, ws) ->
  exists fs0 content_file content_dict new_changes st data fs1
         manifest_file manifest_dict,
    match copy_dir with
    | Some c => _clone_dir_tree resolve copytree_dirs fs content_patch_dir c
    | None => Ok fs
    end = Ok fs0
    /\ _get_file_or_backup fs0 (PurePath.join_str content_patch_dir "content.json")
       = Ok content_file
    /\ fs0 !! content_file = Some (File (Json5 content_dict))
    /\ patch_document resolve glob content_patch_dir copy_dir
         hd_portraits hd_portraits_patch content_dict fs0 = Ok (new_changes, st)
    /\ ws = written st
    /\ _write_and_backup (files st) content_file data
         content_patch_dir copy_dir false = Ok fs1
    /\ _get_file_or_backup fs1 (PurePath.join_str content_patch_dir "manifest.json")
       = Ok manifest_file
    /\ _write_and_backup fs1 manifest_file manifest_dict
         content_patch_dir copy_dir false = Ok fs2.
Proof.
  unfold content_patcher_portraits.
  destruct (match copy_dir with Some c => _ | None => _ end) as [fs0|] eqn:Ec;
    [|done].
  cbn [mbind result_bind].
  destruct (_get_file_or_backup fs0 _) as [content_file|] eqn:Eg; [|done].
  cbn [mbind result_bind]. unfold FS.read at 1.
  destruct (fs0 !! content_file) as [[[content_dict|]|]|] eqn:Er; try done.
  cbn [mbind result_bind json5_load].
  destruct (patch_document _ _ _ _ _ _ content_dict fs0)
    as [[new_changes st]|] eqn:Ep; [|done].
  cbn [mbind result_bind].
  destruct content_dict as [| | | | | |d]; try done.
  cbn [mbind result_bind].
  destruct (_write_and_backup (files st) content_file _ _ _ _) as [fs1|] eqn:Ew;
    [|done].
  cbn [mbind result_bind].
  destruct (_get_file_or_backup fs1 _) as [manifest_file|] eqn:Em; [|done].
  cbn [mbind result_bind].
  destruct (update_dependencies fs1 manifest_file) as [manifest_dict|]; [|done].
  cbn [mbind result_bind].
  destruct (_write_and_backup fs1 manifest_file manifest_dict _ _ _)
    as [fs2'|] eqn:Ew2; [|done].
  cbn [mbind result_bind mret result_ret]. intros [= <- <-].
  exists fs0, content_file, (JObj d), new_changes, st,
    (Dict.set "Format" (JStr "1.28.0") (Dict.set "Changes" new_changes d)), fs1,
    manifest_file, manifest_dict.
  done.
Qed.

(** The documents of a mod directory lie inside it. *)
Lemma document_inside (fs : fsys) (n : string) (file : path) :
  n = "content"%string \/ n = "manifest"%string ->
  _get_file_or_backup fs
    (PurePath.join_str content_patch_dir (String.append n ".json")) = Ok file ->
  inside content_patch_dir file = true.
Proof.
  intros Hn Hg.
  destruct (document_paths content_patch_dir n Hn) as (Hj & Hjb & _).
  apply (get_file_or_backup_inv _ _ _ _ Hjb) in Hg. rewrite Hg.
  destruct (FS.is_file fs _); [|rewrite Hj]; apply inside_child;
    by destruct Hn as [-> | ->].
Qed.

(** From the start of the loop to the end of the run nothing changes
    but inside the directory the run writes to. *)
Lemma run_frame (fs fs' : fsys) (ws : list sidecar_write) :
  content_patcher_portraits resolve glob copytree_dirs content_patch_dir
    copy_dir hd_portraits hd_portraits_patch fs = Ok (fs', ws) ->
  exists fs0,
    match copy_dir with
    | Some c => _clone_dir_tree resolve copytree_dirs fs content_patch_dir c
    | None => Ok fs
    end = Ok fs0
    /\ (fs0 !! content_patch_dir = Some Dir ->
        plain_mod fs0 content_patch_dir ->
        frame' fs0 fs').
Proof.
  intros (fs0 & file & cd & nc & st & data & fs1 & mfile & md
          & Hclone & Hg & Hr & Hp & _ & Hw & Hgm & Hwm)%content_patcher_portraits_steps.
  exists fs0. split; [done|]. intros Hdir Hplain.
  specialize (Hplain file cd Hg Hr).
  apply (document_inside _ "content" _ (or_introl eq_refl)) in Hg.
  apply (document_inside _ "manifest" _ (or_intror eq_refl)) in Hgm.
  apply (unchanged_outside_trans _ _ (files st));
    [by apply (patch_document_frame _ _ _ _ Hdir Hplain Hp)|].
  apply (unchanged_outside_trans _ _ fs1);
    [exact (write_frame _ _ _ _ _ _ Hg Hw)
    |exact (write_frame _ _ _ _ _ _ Hgm Hwm)].
Qed.

End Frame.



(** ** What a run in place leaves *)

(** A write that is not forced, of the document [j] with backup name
    [b]. *)
Lemma document_write
    (fs fs' : fsys) (main_dir j b file : path) (data : dict) :
  PurePath.with_suffix j ".bak" = Ok b ->
  PurePath.with_suffix b ".bak" = Ok b ->
  PurePath.with_suffix j ".json" = Ok j ->
  PurePath.with_suffix b ".json" = Ok j ->
  j <> b ->
  file = (if FS.is_file fs b then b else j) ->
  _write_and_backup fs file data main_dir None false = Ok fs' ->
  fs' !! j = Some (File (Json5 (JObj data)))
  /\ FS.is_file fs' b = true
  /\ forall q, q <> j -> q <> b -> fs' !! q = fs !! q.
Proof.
  intros Hjb Hbb Hjj Hbj Hne Hfile Hw.
  assert (Horig : exists orig, fs !! file = Some (File orig)).
  { destruct (FS.is_file fs b) eqn:E; subst file.
    - unfold FS.is_file in E. destruct (fs !! b) as [[c|]|]; try done. by exists c.
    - destruct (write_and_backup_inv _ _ _ _ _ _ _ Hjb Hjj Hw)
        as [[E2 _]|[_ (c & Hc & _)]]; [congruence|by exists c]. }
  destruct Horig as [orig Horig].
  destruct (backup_step fs fs' main_dir j b file orig data
              Hjb Hbb Hjj Hbj Hne Hfile Horig Hw) as (H1 & H2 & H3).
  split; [done|]. split; [|done]. unfold FS.is_file. by rewrite H2.
Qed.

Lemma update_manifest_inv (manifest : json) (md : dict) :
  update_manifest manifest = Ok md ->
  Dict.get "GeneratedBy" md = Some (JStr generated_by)
  /\ exists deps,
       Dict.get "Dependencies" md = Some (JArr deps)
       /\ PyEq.contains HD_PORTRAITS_DEPENDENCY deps = true.
Proof.
  unfold update_manifest.
  destruct manifest as [| | | | | |d]; try done. cbn [mbind result_bind].
  destruct (Dict.get "Dependencies" _) as [[| | | | |deps|]|]; try done.
  cbn [mbind result_bind mret result_ret]. intros [= <-].
  split; [apply DictFacts.get_set_eq|].
  exists (rewrite_dependencies deps).
  split; [apply update_manifest_dependencies|].
  apply contains_true_occurrences. rewrite rewrite_dependencies_hd. lia.
Qed.

Section AfterRun.

Variable resolve : path -> path.
Variable glob : fsys -> path -> string -> result (list path).
Variable copytree_dirs : fsys -> path -> path -> bool -> result fsys.
Variable content_patch_dir : path.
Variable hd_portraits hd_portraits_patch : path.

(** X15. After a run in place the patch document is the one read, with the
    entries rewritten and the format stamped, every other field as it
    was; the manifest carries the signature and the HDPortraits record;
    both backups are there; and the folder is still a Content Patcher
    mod for [identify_folder]. *)
Theorem run_in_place_leaves_patched_mod
    (fs fs' : fsys) (ws : list sidecar_write) :
  let content_json := PurePath.join_str content_patch_dir "content.json" in
  let content_bak := PurePath.join_str content_patch_dir "content.bak" in
  let manifest_json := PurePath.join_str content_patch_dir "manifest.json" in
  let manifest_bak := PurePath.join_str content_patch_dir "manifest.bak" in
  content_patcher_portraits resolve glob copytree_dirs content_patch_dir
    None hd_portraits hd_portraits_patch fs = Ok (fs', ws) ->
  exists (file : path) (original new_content new_manifest : dict)
         (new_changes : json) (deps : list json),
    _get_file_or_backup fs content_json = Ok file
    /\ fs !! file = Some (File (Json5 (JObj original)))
    /\ rewrite_document content_patch_dir hd_portraits hd_portraits_patch
         (JObj original) = Ok new_changes
    /\ fs' !! content_json = Some (File (Json5 (JObj new_content)))
    /\ Dict.get "Format" new_content = Some (JStr "1.28.0")
    /\ Dict.get "Changes" new_content = Some new_changes
    /\ (forall k : string, k <> "Format"%string -> k <> "Changes"%string ->
        Dict.get k new_content = Dict.get k original)
    /\ fs' !! manifest_json = Some (File (Json5 (JObj new_manifest)))
    /\ Dict.get "GeneratedBy" new_manifest = Some (JStr generated_by)
    /\ Dict.get "Dependencies" new_manifest = Some (JArr deps)
    /\ PyEq.contains HD_PORTRAITS_DEPENDENCY deps = true
    /\ FS.is_file fs' content_bak = true
    /\ FS.is_file fs' manifest_bak = true
    /\ identify_folder fs' content_patch_dir = Some CONTENT_PATCHER.
Proof.
  intros cj cb0 mj mb0 Hrun.
  destruct (document_paths content_patch_dir "content" (or_introl eq_refl))
    as (Hcj & Hcjb & Hcbb & Hcjj & Hcbj & Hcne).
  destruct (document_paths content_patch_dir "manifest" (or_intror eq_refl))
    as (Hmj & Hmjb & Hmbb & Hmjj & Hmbj & Hmne).
  change (PurePath.join_str content_patch_dir (String.append "content" ".json"))
    with cj in *.
  change (PurePath.join_str content_patch_dir (String.append "manifest" ".json"))
    with mj in *.
  assert (Hcb0 : cb0 = Path (root content_patch_dir)
                         (parts content_patch_dir ++ ["content.bak"%string]))
    by (by apply join_str_name).
  assert (Hmb0 : mb0 = Path (root content_patch_dir)
                         (parts content_patch_dir ++ ["manifest.bak"%string]))
    by (by apply join_str_name).
  change (String.append "content" ".bak") with "content.bak"%string in *.
  change (String.append "manifest" ".bak") with "manifest.bak"%string in *.
  change (String.append "content" ".json") with "content.json"%string in *.
  change (String.append "manifest" ".json") with "manifest.json"%string in *.
  rewrite <- Hcb0 in *. rewrite <- Hmb0 in *.
  set (cb := cb0) in *. set (mb := mb0) in *.
  assert (Hdiff : cj <> mj /\ cj <> mb /\ cb <> mj /\ cb <> mb).
  { rewrite Hcj, Hmj, Hcb0, Hmb0. repeat split; by apply snoc_path_ne. }
  destruct Hdiff as (Hd1 & Hd2 & Hd3 & Hd4).
  apply content_patcher_portraits_inv in Hrun
    as (file & d & nc & st & fs1 & mfile & man & md
        & Hg & Hr & Hp & _ & Hw & Hgm & _ & Hu & Hwm); [|done].
  pose proof Hg as Hg'.
  apply (get_file_or_backup_inv _ _ cb) in Hg'; [|done].
  apply (get_file_or_backup_inv _ _ mb) in Hgm; [|done].
  (* the file chosen in [fs] is the one chosen after the loop *)
  destruct (patch_document_files _ _ _ _ _ _ _ _ _ _ Hp) as [Hfr Hkeep].
  assert (Hcb : FS.is_file (files st) cb = FS.is_file fs cb).
  { apply is_file_lookup, Hfr. intros w _ Hw'.
    by apply (write_target_not_bak _ _ _ _ _ _ Hw' Hcbb). }
  rewrite <- Hcb in Hg'.
  destruct (document_write _ _ _ _ _ _ _ Hcjb Hcbb Hcjj Hcbj Hcne Hg' Hw)
    as (H1j & H1b & _).
  destruct (document_write _ _ _ _ _ _ _ Hmjb Hmbb Hmjj Hmbj Hmne Hgm Hwm)
    as (H2j & H2b & H2o).
  apply update_manifest_inv in Hu as (Hgen & deps & Hdeps & Hhd).
  assert (H2cj : fs' !! cj = Some (File (Json5 (JObj
             (Dict.set "Format" (JStr "1.28.0") (Dict.set "Changes" nc d)))))).
  { by rewrite H2o. }
  exists file, d,
    (Dict.set "Format" (JStr "1.28.0") (Dict.set "Changes" nc d)), md, nc, deps.
  split; [done|]. split; [done|].
  split; [by apply patch_document_doc in Hp|].
  split; [exact H2cj|].
  split; [apply DictFacts.get_set_eq|].
  split; [rewrite DictFacts.get_set_ne by done; apply DictFacts.get_set_eq|].
  split; [intros k Hk1 Hk2; by rewrite !DictFacts.get_set_ne|].
  split; [done|]. split; [done|]. split; [done|]. split; [done|].
  split; [rewrite (is_file_lookup fs1 fs' cb); [done|by apply H2o]|].
  split; [done|].
  unfold identify_folder. fold cj. unfold FS.is_file at 1. by rewrite H2cj.
Qed.

End AfterRun.

(** ** [main] *)

Lemma last_two_snoc {A} (l : list A) (a b : A) : last_two (l ++ [a; b]) = [a; b].
Proof.
  unfold last_two. rewrite length_app. simpl.
  replace (length l + 2 - 2) with (length l) by lia.
  by rewrite drop_app_length.
Qed.

Lemma is_dir_lookup (fs : fsys) (p : path) :
  FS.is_dir fs p = true -> fs !! p = Some Dir.
Proof. unfold FS.is_dir. by destruct (fs !! p) as [[|]|]. Qed.

Lemma unchanged_outside_up (d e : path) (fs fs' : fsys) :
  inside d e = true -> unchanged_outside e fs fs' -> unchanged_outside d fs fs'.
Proof.
  intros Hde H q Hp Hq. apply H; [done|].
  destruct (inside e q) eqn:E; [|done].
  by rewrite (inside_trans _ _ _ Hde E) in Hq.
Qed.

(** Two entries of a directory: what is inside the one is not inside
    the other. *)
Lemma children_apart (d x y q : path) :
  child d x = true -> child d y = true -> x <> y ->
  q = y \/ inside y q = true -> inside x q = false.
Proof.
  intros (a & _ & ->)%child_inv (b & _ & ->)%child_inv Hne Hq.
  destruct (inside (Path (root d) (parts d ++ [a])) q) eqn:E; [|done].
  exfalso. apply Hne.
  apply inside_inv in E as (r1 & _ & _ & Hq1). simpl in Hq1.
  destruct Hq as [->|(r2 & _ & _ & Hq2)%inside_inv].
  - injection Hq1 as H. rewrite <- app_assoc in H. apply app_inv_head in H.
    simpl in H. congruence.
  - simpl in Hq2. rewrite Hq2 in Hq1. injection Hq1 as H.
    rewrite <- !app_assoc in H. apply app_inv_head in H.
    simpl in H. congruence.
Qed.

(** The patch document of a mod is the same in two file systems that
    agree inside the mod directory. *)
Lemma plain_mod_agree (fs f : fsys) (d : path) :
  (forall q, inside d q = true -> f !! q = fs !! q) ->
  plain_mod fs d -> plain_mod f d.
Proof.
  intros Hag Hplain file doc Hg Hr.
  destruct (document_paths d "content" (or_introl eq_refl)) as (Hj & Hjb & _).
  pose proof (document_inside d f "content" file (or_introl eq_refl) Hg) as Hfile.
  apply (get_file_or_backup_inv _ _ _ _ Hjb) in Hg.
  apply (Hplain file doc).
  - unfold _get_file_or_backup.
    change (PurePath.join_str d "content.json")
      with (PurePath.join_str d (String.append "content" ".json")).
    rewrite Hjb. cbn [mbind result_bind mret result_ret]. f_equal.
    rewrite Hg. rewrite (is_file_lookup fs f); [done|].
    apply Hag. by apply inside_child.
  - rewrite <- Hr. symmetry. by apply Hag.
Qed.

(** Where every document of the file system is plain, the patch
    document of every mod is. *)
Lemma plain_files_mod (fs : fsys) (d : path) :
  map_Forall (fun _ x => plain_node x = true) fs -> plain_mod fs d.
Proof. intros H file doc _ Hr. exact (H file _ Hr). Qed.

Lemma plain_mod_intro (fs : fsys) (d file : path) (content_dict : json) :
  _get_file_or_backup fs (PurePath.join_str d "content.json") = Ok file ->
  fs !! file = Some (File (Json5 content_dict)) ->
  plain_document content_dict = true ->
  plain_mod fs d.
Proof. intros H1 H2 H3 file' doc H1' H2'. congruence. Qed.

Section MainFacts.

Variable resolve : path -> path.
Variable glob : fsys -> path -> string -> result (list path).
Variable copytree_dirs : fsys -> path -> path -> bool -> result fsys.
Variable iterdir : fsys -> path -> list path.

Local Abbreviation main' := (main resolve glob copytree_dirs iterdir).

(** X16. [main] does nothing in a folder [Mods] of a folder [Stardew Valley],
    whatever the folder holds and whatever the other arguments are. *)
Theorem main_refuses_mods_folder
    (directory : path) (ps : list string) (copy_mode : bool)
    (copy_dir : option path) (prefix : string) (fs : fsys) :
  parts directory = ps ++ ["Stardew Valley"%string; "Mods"%string] ->
  main' directory copy_mode copy_dir prefix fs = Ok fs.
Proof.
  intros Hparts. unfold main.
  rewrite bool_decide_eq_true_2; [done|].
  unfold py_parts. rewrite Hparts.
  destruct (String.eqb (root directory) ""); [apply last_two_snoc|].
  by rewrite app_comm_cons, last_two_snoc.
Qed.

(** X17. Where there is no Content Patcher mod, [main] changes nothing and
    does not fail: a folder with [shops.json] only, entries that are not
    directories and folders without [content.json] are passed over. *)
Theorem main_without_content_patcher_mod
    (directory : path) (copy_mode : bool) (copy_dir : option path)
    (prefix : string) (fs : fsys) :
  FS.is_file fs (PurePath.join_str directory "content.json") = false ->
  (forall subdirectory,
     subdirectory ∈ iterdir fs directory ->
     FS.is_dir fs subdirectory = true ->
     FS.is_file fs (PurePath.join_str subdirectory "content.json") = false) ->
  main' directory copy_mode copy_dir prefix fs = Ok fs.
Proof.
  intros Hmain Hsub. unfold main. case_bool_decide; [done|].
  unfold identify_folder at 1. rewrite Hmain.
  destruct (FS.is_file fs (PurePath.join_str directory "shops.json")); [done|].
  apply for_each_skip. intros sub Hin. unfold main_step.
  destruct (FS.is_dir fs sub) eqn:Ed; [|done]. cbn [negb].
  unfold identify_folder. rewrite (Hsub sub Hin Ed).
  by destruct (FS.is_file fs (PurePath.join_str sub "shops.json")).
Qed.

(** What [Path.glob] lists lies inside the directory it is asked for. *)
Hypothesis glob_inside :
  forall fs d pattern matches p,
    glob fs d pattern = Ok matches -> p ∈ matches -> inside d p = true.

Lemma mod_type_value_frame (t : ModType) (d hd hdp : path) (f f' : fsys) :
  plain (parts d) = true ->
  f !! d = Some Dir -> plain_mod f d ->
  mod_type_value resolve glob copytree_dirs t d None hd hdp f = Ok f' ->
  unchanged_outside d f f'.
Proof.
  intros Hpd Hd Hplain. destruct t; unfold mod_type_value.
  - destruct (content_patcher_portraits _ _ _ _ _ _ _ f) as [[f1 ws]|] eqn:E;
      [|done].
    cbn [mbind result_bind mret result_ret fst]. intros [= <-].
    destruct (run_frame resolve glob copytree_dirs d None hd hdp
                (fun f0 pat l p => glob_inside f0 d pat l p) Hpd
                (inside_irrefl d) f f1 ws E) as (f0 & [= <-] & Hf).
    by apply Hf.
  - intros [= <-]. apply unchanged_outside_refl.
Qed.

(** The loop over the entries of the directory: an iteration changes
    nothing but inside the entry it is about, so that the entries to
    come are as they were at the start. *)
Lemma main_loop_frame (directory : path) (copy_dir : option path)
    (hd hdp : path) (fs : fsys) (l : list path) :
  plain (parts directory) = true ->
  NoDup l ->
  (forall x, x ∈ l -> child directory x = true) ->
  (forall x, x ∈ l -> plain_mod fs x) ->
  forall f f',
    unchanged_outside directory fs f ->
    (forall x q, x ∈ l -> q = x \/ inside x q = true -> f !! q = fs !! q) ->
    for_each (main_step resolve glob copytree_dirs directory false copy_dir hd hdp)
      l f = Ok f' ->
    unchanged_outside directory fs f'.
Proof.
  intros Hpd.
  induction l as [|x l IH]; intros Hnd Hch Hpl f f' Hfr Hag; cbn [for_each].
  - by intros [= <-].
  - apply NoDup_cons in Hnd as [Hx Hnd].
    destruct (main_step _ _ _ _ _ _ _ _ f x) as [f1|] eqn:E; [|done].
    cbn [mbind result_bind].
    assert (Hin : x ∈ x :: l) by apply list_elem_of_here.
    assert (Hstep : unchanged_outside x f f1).
    { unfold main_step in E.
      destruct (FS.is_dir f x) eqn:Ed; cbn [negb] in E;
        [|injection E as <-; apply unchanged_outside_refl].
      destruct (identify_folder f x) as [t|];
        [|injection E as <-; apply unchanged_outside_refl].
      cbn [_get_copy_dir] in E.
      apply (mod_type_value_frame t x hd hdp);
        [by apply (inside_plain directory), child_inside, Hch
        |by apply is_dir_lookup| |done].
      apply (plain_mod_agree fs); [|by apply Hpl].
      intros q Hq. apply (Hag x); [done|by right]. }
    apply IH; try done.
    + intros y Hy. apply Hch. by apply list_elem_of_further.
    + intros y Hy. apply Hpl. by apply list_elem_of_further.
    + apply (unchanged_outside_trans _ _ f); [done|].
      apply (unchanged_outside_up _ x); [|done]. by apply child_inside, Hch.
    + intros y q Hy Hq.
      transitivity (f !! q);
        [|apply (Hag y); [by apply list_elem_of_further|done]].
      assert (Hy' : child directory y = true)
        by (apply Hch; by apply list_elem_of_further).
      assert (Hpy : plain (parts y) = true)
        by (by apply (inside_plain directory), child_inside).
      apply Hstep.
      * destruct Hq as [->|Hq]; [done|by apply (inside_plain y)].
      * apply (children_apart directory x y); try done.
        -- by apply Hch.
        -- intros ->. by apply Hx.
Qed.


End MainFacts.

(** ** The targets of the new entries *)

(** [PurePath("Mods/" + n)] for a valid name [n]. *)
Lemma parse_mods (n : string) :
  PurePath.valid_name n = true ->
  PurePath.parse (String.append "Mods/" n) = Path "" ["Mods"%string; n].
Proof.
  intros (Hne & Hm & Hdot)%valid_name_inv. unfold PurePath.parse.
  change (String.append "Mods/" n) with (String.append "Mods" (String "/" n)).
  rewrite split_sep by reflexivity. rewrite split_no_sep by done.
  change (String.append "Mods" (String "/" n)) with (String "M" (String.append "ods/" n)).
  unfold PurePath.parse_root. rewrite leading_slashes_cons.
  cbn [Ascii.eqb Bool.eqb List.filter].
  unfold PurePath.real_part at 2.
  apply string_eqb_false in Hne, Hdot. rewrite Hne, Hdot. reflexivity.
Qed.

Lemma as_posix_mods (n s : string) :
  PurePath.as_posix (Path "" ["Mods"%string; n; s])
  = String.append "Mods/" (String.append n (String "/" s)).
Proof. reflexivity. Qed.

(** X19. The targets written into the two entries of a portrait entry, as
    [main] sets the program up: ["Mods/HDPortraits/"] and ["Mods/"], the
    prefix and ["/"], each followed by the stem of the old target. *)
Theorem generated_targets
    (content_patch_dir : path) (prefix target : string) (d : dict) (rw : rewrite) :
  let stem := PurePath.stem (PurePath.parse target) in
  PurePath.valid_name prefix = true ->
  PurePath.valid_name stem = true ->
  Dict.get "Target" d = Some (JStr target) ->
  rewrite_entry content_patch_dir (PurePath.parse "Mods/HDPortraits")
    (PurePath.parse (String.append "Mods/" prefix)) (JObj d) = Ok (Some rw) ->
  Dict.get "Target" (rw_load rw)
  = Some (JStr (String.append "Mods/HDPortraits/" stem))
  /\ Dict.get "Target" (rw_edit rw)
     = Some (JStr (String.append "Mods/"
                     (String.append prefix (String "/" stem))))
  /\ rw_target_name rw
     = String.append "Mods/" (String.append prefix (String "/" stem)).
Proof.
  intros stem Hprefix Hstem Ht
    (d' & target' & from_file & metadata_rel & [= <-] & Ht' & _ & _ & _ & _ & _ & _
     & _ & Htn & Hl & He)%rewrite_entry_inv.
  rewrite Ht in Ht'. injection Ht' as <-. fold stem in Htn, Hl.
  rewrite parse_mods in Htn by done.
  rewrite join_str_valid in Htn by done. cbn [root parts app] in Htn.
  rewrite as_posix_mods in Htn.
  change (PurePath.parse "Mods/HDPortraits")
    with (Path "" ["Mods"%string; "HDPortraits"%string]) in Hl.
  rewrite join_str_valid in Hl by done. cbn [root parts app] in Hl.
  rewrite as_posix_mods in Hl.
  rewrite Hl, He, Htn. repeat split.
  - rewrite DictFacts.get_set_ne by done. apply DictFacts.get_set_eq.
  - rewrite DictFacts.get_set_ne by done. apply DictFacts.get_set_eq.
Qed.

(** ** The properties on the sample folders *)

Lemma listing_glob_inside
    (fs : fsys) (d : path) (pattern : string) (matches : list path) (p : path) :
  Listing.glob fs d pattern = Ok matches -> p ∈ matches -> inside d p = true.
Proof.
  unfold Listing.glob. destruct (Platform.glob fs d pattern) as [l|]; [|done].
  cbn [mbind result_bind mret result_ret]. intros [= <-].
  intros H%list_elem_of_In%filter_In. by destruct H.
Qed.

Lemma listing_iterdir_child (fs : fsys) (d p : path) :
  p ∈ Listing.iterdir fs d -> child d p = true.
Proof. intros H%list_elem_of_In%filter_In. by destruct H. Qed.

Lemma listing_iterdir_nodup (fs : fsys) (d : path) :
  NoDup (Listing.iterdir fs d).
Proof.
  unfold Listing.iterdir.
  assert (H : NoDup (map fst (map_to_list fs)))
    by exact (NoDup_fst_map_to_list fs).
  induction H as [|x l Hx Hnd IH]; simpl; [constructor|].
  destruct (child d x); [|done]. constructor; [|done].
  intros Hin%list_elem_of_In%filter_In. destruct Hin as [Hin _].
  apply Hx. by apply list_elem_of_In.
Qed.

Lemma clone_into_copy_dir_witness :
  _get_copy_dir None true Example.mod_dir Example.mod_dir
  = Some (PurePath.parse "Mod/Patched HD Portraits/Mod")
  /\ _clone_dir_tree Platform.resolve Platform.copytree_dirs
       (Example.mod_files []) Example.mod_dir
       (PurePath.parse "Mod/Patched HD Portraits/Mod")
     = Platform.copytree_dirs (Example.mod_files []) Example.mod_dir
         (PurePath.parse "Mod/Patched HD Portraits/Mod") false.
Proof.
  destruct (clone_into_copy_dir Platform.resolve Platform.copytree_dirs
              (Example.mod_files []) None Example.mod_dir Example.mod_dir
              eq_refl) as (_ & H2 & _ & H4).
  split; [exact H2|exact (H4 eq_refl eq_refl)].
Defined.

Lemma rewrite_entry_fields_witness :
  Dict.get "PatchMode" (rw_load Sample.abigail_rw) = None
  /\ Dict.get "When" (rw_edit Sample.abigail_rw)
     = Dict.get "When" Sample.abigail_entry.
Proof.
  destruct (rewrite_entry_fields Example.mod_dir Example.hd_portraits
              Example.hd_portraits_patch Sample.abigail_entry Sample.abigail_rw)
    as (_ & _ & H3 & _ & _ & _ & _ & _ & H9).
  - vm_cast_no_check (eq_refl (Ok (Some Sample.abigail_rw))).
  - split; [exact H3|]. apply (H9 "When"%string); discriminate.
Defined.

Lemma rewrite_entry_relative_witness :
  exists rw,
    rewrite_entry Example.mod_dir Example.hd_portraits Example.hd_portraits_patch
      (JObj Sample.abigail_entry) = Ok (Some rw)
    /\ Dict.get "FromFile" (rw_edit rw) = Some (JStr "assets/Abigail.png")
    /\ Dict.get "FromFile" (rw_load rw) = Some (JStr "assets/Abigail.json").
Proof.
  destruct (rewrite_entry_relative Example.mod_dir Example.hd_portraits
              Example.hd_portraits_patch Sample.abigail_entry
              "Portraits/Abigail" "assets//Abigail.png"
              eq_refl eq_refl eq_refl eq_refl)
    as (rw & H1 & _ & _ & _ & _ & H6 & H7).
  - vm_compute. discriminate.
  - reflexivity.
  - exists rw. split; [exact H1|]. split; [exact H6|exact H7].
Defined.

Lemma completed_run_read_every_entry_witness :
  Forall entry_readable Example.twice_items.
Proof.
  apply (completed_run_read_every_entry Platform.resolve Platform.glob
           Example.mod_dir None Example.hd_portraits Example.hd_portraits_patch
           Example.twice_items (Example.mod_files Example.twice_items)
           Sample.twice_final).
  vm_cast_no_check (eq_refl (Ok Sample.twice_final)).
Defined.

Lemma entry_without_target_raises_witness :
  patch_changes Platform.resolve Platform.glob Example.mod_dir None
    Example.hd_portraits Example.hd_portraits_patch
    [Example.other_entry "Data/Events";
     JObj [("Action", JStr "Include"); ("FromFile", JStr "assets/more.json")];
     Example.portrait_entry "Portraits/Abigail" "assets/Abigail.png"]
    (Example.mod_files []) = Raise KeyError.
Proof.
  apply (entry_without_target_raises Platform.resolve Platform.glob
           Example.mod_dir None Example.hd_portraits Example.hd_portraits_patch
           [Example.other_entry "Data/Events"]
           [Example.portrait_entry "Portraits/Abigail" "assets/Abigail.png"]
           [("Action", JStr "Include"); ("FromFile", JStr "assets/more.json")]).
  - apply Forall_cons. split; [reflexivity|apply Forall_nil_2].
  - reflexivity.
Defined.

Lemma rewritten_changes_are_entries_and_copies_witness :
  length (changes_of Sample.twice_final)
  = length Example.twice_items
    + length (omap (edit_of Example.mod_dir Example.hd_portraits
                      Example.hd_portraits_patch) Example.twice_items).
Proof.
  destruct (rewritten_changes_are_entries_and_copies
              Platform.resolve Platform.glob
              Example.mod_dir None Example.hd_portraits Example.hd_portraits_patch
              Example.twice_items (Example.mod_files Example.twice_items)
              Sample.twice_final) as (_ & H & _).
  - vm_cast_no_check (eq_refl (Ok Sample.twice_final)).
  - exact H.
Defined.

Lemma leading_portraits_become_pairs_witness :
  take 4 (changes_of Sample.pair_final)
  = flat_map (pair_of Example.mod_dir Example.hd_portraits
                Example.hd_portraits_patch) (take 2 Sample.pair_items).
Proof.
  apply (leading_portraits_become_pairs Platform.resolve Platform.glob
           Example.mod_dir None Example.hd_portraits Example.hd_portraits_patch
           Sample.pair_items 2 (Example.mod_files Sample.pair_items)
           Sample.pair_final).
  - simpl. lia.
  - unfold Sample.pair_items. cbn [firstn].
    repeat (apply Forall_cons; split; [eexists; reflexivity|]).
    apply Forall_nil_2.
  - vm_cast_no_check (eq_refl (Ok Sample.pair_final)).
Defined.

Lemma update_dependencies_keeps_fields_witness :
  exists md,
    update_dependencies
      {[ PurePath.parse "Mod/manifest.json" := File (Json5 Example.manifest) ]}
      (PurePath.parse "Mod/manifest.json") = Ok md
    /\ Dict.get "Name" md = Some (JStr "Portraits").
Proof.
  pose proof (update_dependencies_keeps_fields
                {[ PurePath.parse "Mod/manifest.json"
                   := File (Json5 Example.manifest) ]}
                (PurePath.parse "Mod/manifest.json")
                [("Name", JStr "Portraits");
                 ("Dependencies", JArr [PYTK_DEPENDENCY])]) as H.
  cbn [Dict.get String.eqb Ascii.eqb Bool.eqb] in H.
  destruct H as (md & H1 & _ & _ & H4).
  - unfold FS.read. by rewrite lookup_singleton_eq.
  - exists md. split; [exact H1|]. rewrite H4; [reflexivity| |]; discriminate.
Defined.

Lemma legacy_sidecar_without_scale_raises_witness :
  Example.loop [Example.other_entry "Data/Events"; Sample.penny_entry]
    Sample.unscaled
  = Raise KeyError.
Proof.
  apply (legacy_sidecar_without_scale_raises Platform.resolve Platform.glob
           Example.mod_dir None Example.hd_portraits Example.hd_portraits_patch
           [Example.other_entry "Data/Events"] [] Sample.penny_entry
           Sample.penny_rw (PurePath.parse "Mod/assets/Penny.pytk.json")
           [("Animation", JObj [("FPS", JInt 30)])] Sample.unscaled).
  - apply Forall_cons. split; [reflexivity|apply Forall_nil_2].
  - vm_cast_no_check (eq_refl (Ok (Some Sample.penny_rw))).
  - vm_cast_no_check (eq_refl false).
  - vm_cast_no_check (eq_refl true).
  - vm_cast_no_check (eq_refl (Ok (PurePath.parse "Mod/assets/Penny.pytk.json"))).
  - vm_cast_no_check
      (eq_refl (Some (File (Json5 (JObj [("Animation", JObj [("FPS", JInt 30)])]))))).
  - reflexivity.
Defined.

Lemma backup_keeps_first_original_witness :
  Sample.note_twice !! PurePath.parse "Mod/content.bak"
  = Some (File (Json5 (JObj [("Format", JStr "1.19.0")])))
  /\ Sample.note_twice !! PurePath.parse "Mod/content.json"
     = Some (File (Json5 (JObj [("Format", JStr "2.0.0")]))).
Proof.
  destruct (backup_keeps_first_original
              Sample.note_files Sample.note_once Sample.note_twice
              Example.mod_dir "" ["Mod"%string] "content"
              (PurePath.parse "Mod/content.json") (PurePath.parse "Mod/content.bak")
              (Json5 (JObj [("Format", JStr "1.19.0")]))
              [("Format", JStr "1.28.0")] [("Format", JStr "2.0.0")])
    as (_ & _ & H3 & _ & H5 & _).
  - discriminate.
  - reflexivity.
  - vm_cast_no_check (eq_refl (Ok (PurePath.parse "Mod/content.json"))).
  - vm_cast_no_check
      (eq_refl (Some (File (Json5 (JObj [("Format", JStr "1.19.0")]))))).
  - vm_cast_no_check (eq_refl (Ok Sample.note_once)).
  - vm_cast_no_check (eq_refl (Ok (PurePath.parse "Mod/content.bak"))).
  - vm_cast_no_check (eq_refl (Ok Sample.note_twice)).
  - split; [exact H3|exact H5].
Defined.



Lemma run_in_place_leaves_patched_mod_witness :
  identify_folder (fst Sample.mod_outcome) Sample.games_mod = Some CONTENT_PATCHER
  /\ FS.is_file (fst Sample.mod_outcome) (PurePath.parse "Games/Mods/Mod/content.bak")
     = true.
Proof.
  destruct (run_in_place_leaves_patched_mod Platform.resolve Listing.glob
              Platform.copytree_dirs Sample.games_mod
              Example.hd_portraits Example.hd_portraits_patch
              Sample.games (fst Sample.mod_outcome) (snd Sample.mod_outcome))
    as (file & original & new_content & new_manifest & new_changes & deps
        & _ & _ & _ & _ & _ & _ & _ & _ & _ & _ & _ & Hcb & _ & Hid).
  - vm_cast_no_check (eq_refl (Ok Sample.mod_outcome)).
  - split; [exact Hid|exact Hcb].
Defined.

Lemma main_refuses_mods_folder_witness :
  main Platform.resolve Listing.glob Platform.copytree_dirs Listing.iterdir
    (PurePath.parse "Games/Stardew Valley/Mods") false None "HDPortraitsPatch"
    Sample.games = Ok Sample.games.
Proof.
  apply (main_refuses_mods_folder Platform.resolve Listing.glob
           Platform.copytree_dirs Listing.iterdir
           (PurePath.parse "Games/Stardew Valley/Mods") ["Games"%string]).
  reflexivity.
Defined.

Lemma main_without_content_patcher_mod_witness :
  main Platform.resolve Listing.glob Platform.copytree_dirs Listing.iterdir
    (PurePath.parse "Games") false None "HDPortraitsPatch" Sample.games
  = Ok Sample.games.
Proof.
  apply main_without_content_patcher_mod.
  - vm_cast_no_check (eq_refl false).
  - apply (proj1 (Forall_forall
                     (fun sub =>
                        FS.is_dir Sample.games sub = true ->
                        FS.is_file Sample.games
                          (PurePath.join_str sub "content.json") = false) _)).
    apply (bool_decide_unpack _). vm_cast_no_check I.
Defined.


Lemma generated_targets_witness :
  Dict.get "Target" (rw_load Sample.abigail_rw)
  = Some (JStr "Mods/HDPortraits/Abigail")
  /\ Dict.get "Target" (rw_edit Sample.abigail_rw)
     = Some (JStr "Mods/HDPortraitsPatch/Abigail").
Proof.
  destruct (generated_targets Example.mod_dir "HDPortraitsPatch"
              "Portraits/Abigail" Sample.abigail_entry Sample.abigail_rw)
    as (H1 & H2 & _).
  - reflexivity.
  - reflexivity.
  - reflexivity.
  - vm_cast_no_check (eq_refl (Ok (Some Sample.abigail_rw))).
  - split; [exact H1|exact H2].
Defined.
